(** * RGB-D variational autoencoder: the two training scripts

    A shallow embedding of [rgbd_pvae_train.py] (module [Pvae]) and of
    [rgbd_vae.py] (module [Vae]).

    Conventions of the embedding.
    - A tensor is its shape (a list of integers, as [torch.Size]) together
      with its entries in row-major order.  Entries are real numbers: the
      rounding of the machine arithmetic is not modelled.
    - Every [torch.nn] layer acts on the shape exactly as PyTorch does
      (including the errors it raises); on the entries, a layer with learned
      weights or with normalisation statistics is an arbitrary function of
      its input (the weights are data of the run), the activations are the
      functions they compute.
    - Python exceptions are an error result; code that mutates the SVI
      object, the lists of the script or the console is written with
      explicit state passing. *)

From Stdlib Require Import ZArith QArith Reals List String Bool Lia Lra.
Import ListNotations.
Open Scope Z_scope.

(* ------------------------------------------------------------------ *)
(** * Python: exceptions and floats                                     *)
(* ------------------------------------------------------------------ *)

Module Py.

Inductive exn : Type :=
| AttributeError
| IndexError
| OSError
| RuntimeError
| TypeError
| ValueError
| ZeroDivisionError.

Inductive result (A : Type) : Type :=
| Ok (a : A)
| Raise (e : exn).
Arguments Ok {A} a.
Arguments Raise {A} e.

Definition bind {A B : Type} (r : result A) (k : A -> result B) : result B :=
  match r with
  | Ok a => k a
  | Raise e => Raise e
  end.

(** A Python [float].  The finite values of a binary64 are rationals; the
    three other values are the infinities and NaN. *)
Inductive float : Type :=
| Fin (q : Q)
| PInf
| NInf
| NaN.

Definition Qltb (a b : Q) : bool := negb (Qle_bool b a).

(** [a < b] on floats: every comparison with NaN is [False]. *)
Definition flt (a b : float) : bool :=
  match a, b with
  | NaN, _ | _, NaN => false
  | PInf, _ => false
  | _, NInf => false
  | NInf, _ => true
  | _, PInf => true
  | Fin x, Fin y => Qltb x y
  end.

(** Unary minus. *)
Definition fneg (a : float) : float :=
  match a with
  | Fin q => Fin (- q)%Q
  | PInf => NInf
  | NInf => PInf
  | NaN => NaN
  end.

(** [a + b]. *)
Definition fadd (a b : float) : float :=
  match a, b with
  | NaN, _ | _, NaN => NaN
  | PInf, NInf | NInf, PInf => NaN
  | PInf, _ | _, PInf => PInf
  | NInf, _ | _, NInf => NInf
  | Fin x, Fin y => Fin (x + y)%Q
  end.

(** [a / n] for an [int] n (here a length, so never negative): true
    division raises [ZeroDivisionError] on a zero divisor. *)
Definition fdiv_int (a : float) (n : Z) : result float :=
  if n =? 0 then Raise ZeroDivisionError
  else Ok match a with
          | Fin q => Fin (q / inject_Z n)%Q
          | other => other
          end.

(** [float('inf')] and the [int] 0 an accumulator starts from. *)
Definition inf : float := PInf.
Definition zero : float := Fin 0%Q.

End Py.

Import Py.

Declare Scope py_scope.
Delimit Scope py_scope with py.
Notation "x <- c ;; k" := (bind c (fun x => k))
  (at level 61, c at next level, right associativity) : py_scope.
Open Scope py_scope.

(* ------------------------------------------------------------------ *)
(** * torch: tensors and the layers of [torch.nn]                        *)
(* ------------------------------------------------------------------ *)

Module Torch.

Definition shape : Type := list Z.

Definition numel (s : shape) : Z := fold_right Z.mul 1 s.

Record Tensor : Type := mkTensor {
  tshape : shape;          (* x.shape *)
  tdata : nat -> R         (* the entries, row-major *)
}.

(** The entries of a layer's output as a function of its input. *)
Definition kernel : Type := Tensor -> nat -> R.

Definition layer (sh : shape -> result shape) (f : kernel) (x : Tensor)
  : result Tensor :=
  s <- sh (tshape x) ;; Ok (mkTensor s (f x)).

(** [nn.Sequential]. *)
Fixpoint Sequential (ls : list (Tensor -> result Tensor)) (x : Tensor)
  : result Tensor :=
  match ls with
  | [] => Ok x
  | l :: ls' => y <- l x ;; Sequential ls' y
  end.

(** [x.shape[i]]. *)
Definition shape_at (x : Tensor) (i : nat) : result Z :=
  match nth_error (tshape x) i with
  | Some d => Ok d
  | None => Raise IndexError
  end.

(** ** Shapes *)

(** Length of the output of a convolution along one axis (dilation 1). *)
Definition conv_out (n k p s : Z) : result Z :=
  if n + 2 * p <? k then Raise RuntimeError
  else Ok ((n + 2 * p - k) / s + 1).

Definition Conv2d_shape (cin cout k p s : Z) (x : shape) : result shape :=
  match x with
  | [n; c; h; w] =>
      if c =? cin then
        h' <- conv_out h k p s ;; w' <- conv_out w k p s ;;
        Ok [n; cout; h'; w']
      else Raise RuntimeError
  | [c; h; w] =>
      if c =? cin then
        h' <- conv_out h k p s ;; w' <- conv_out w k p s ;;
        Ok [cout; h'; w']
      else Raise RuntimeError
  | _ => Raise RuntimeError
  end.

(** Length of the output of a transposed convolution along one axis
    (no padding, no output padding, dilation 1). *)
Definition convT_out (n k s : Z) : Z := (n - 1) * s + k.

Definition ConvTranspose2d_shape (cin cout k s : Z) (x : shape)
  : result shape :=
  match x with
  | [n; c; h; w] =>
      if c =? cin then Ok [n; cout; convT_out h k s; convT_out w k s]
      else Raise RuntimeError
  | [c; h; w] =>
      if c =? cin then Ok [cout; convT_out h k s; convT_out w k s]
      else Raise RuntimeError
  | _ => Raise RuntimeError
  end.

(** [nn.BatchNorm2d]: a 4-D input; in training mode not exactly one
    value per channel (tested first); the declared number of channels. *)
Definition BatchNorm2d_shape (features : Z) (training : bool) (x : shape)
  : result shape :=
  match x with
  | [n; c; h; w] =>
      if training && (n * h * w =? 1) then Raise ValueError
      else if negb (c =? features) then Raise RuntimeError
      else Ok x
  | _ => Raise ValueError
  end.

(** [nn.InstanceNorm2d] (no affine weights, no running statistics): the
    statistics of the input are always used, and an input with exactly
    one spatial element is refused. *)
Definition InstanceNorm2d_shape (x : shape) : result shape :=
  match x with
  | [n; c; h; w] => if h * w =? 1 then Raise ValueError else Ok x
  | [c; h; w] => if h * w =? 1 then Raise ValueError else Ok x
  | _ => Raise ValueError
  end.

(** [nn.Linear]: acts on the last axis. *)
Definition Linear_shape (fin fout : Z) (x : shape) : result shape :=
  match rev x with
  | last :: front =>
      if last =? fin then Ok (rev (fout :: front)) else Raise RuntimeError
  | [] => Raise RuntimeError
  end.

(** [nn.UpsamplingNearest2d(scale_factor=k)]. *)
Definition UpsamplingNearest2d_shape (k : Z) (x : shape) : result shape :=
  match x with
  | [n; c; h; w] => Ok [n; c; h * k; w * k]
  | _ => Raise RuntimeError
  end.

(** [x.flatten(start)]. *)
Definition flatten_shape (start : nat) (x : shape) : result shape :=
  if (List.length x <=? start)%nat then Raise IndexError
  else Ok (firstn start x ++ [numel (skipn start x)]).

(** [x.view] with the sizes [target], where one entry of [target] may be [-1]. *)
Definition view_shape (target : list Z) (x : shape) : result shape :=
  let known := numel (filter (fun d => negb (d =? -1)) target) in
  match count_occ Z.eq_dec target (-1) with
  | O => if numel x =? known then Ok target else Raise RuntimeError
  | S O =>
      if (known =? 0) || negb (numel x mod known =? 0) then Raise RuntimeError
      else Ok (map (fun d => if d =? -1 then numel x / known else d) target)
  | _ => Raise RuntimeError
  end.

(** Broadcasting of two shapes, aligned on the right. *)
Fixpoint broadcast_rev (a b : list Z) : result (list Z) :=
  match a, b with
  | [], r | r, [] => Ok r
  | x :: a', y :: b' =>
      r <- broadcast_rev a' b' ;;
      if x =? y then Ok (x :: r)
      else if x =? 1 then Ok (y :: r)
      else if y =? 1 then Ok (x :: r)
      else Raise RuntimeError
  end.

Definition broadcast_shapes (a b : shape) : result shape :=
  r <- broadcast_rev (rev a) (rev b) ;; Ok (rev r).

(** ** Layers *)

Definition Conv2d (w : kernel) (cin cout k p s : Z) :=
  layer (Conv2d_shape cin cout k p s) w.
Definition ConvTranspose2d (w : kernel) (cin cout k s : Z) :=
  layer (ConvTranspose2d_shape cin cout k s) w.
Definition BatchNorm2d (w : kernel) (features : Z) (training : bool) :=
  layer (BatchNorm2d_shape features training) w.
Definition InstanceNorm2d (w : kernel) (features : Z) :=
  layer InstanceNorm2d_shape w.
Definition Linear (w : kernel) (fin fout : Z) :=
  layer (Linear_shape fin fout) w.
(** Nearest-neighbour upsampling copies entries: position (i, j) of the
    output reads position (i / k, j / k) of the input. *)
Definition upsample_at (k : Z) (x : Tensor) (i : nat) : R :=
  match tshape x with
  | [n; c; h; w] =>
      let col := Z.of_nat i mod (w * k) in
      let r := Z.of_nat i / (w * k) in
      let row := r mod (h * k) in
      let plane := r / (h * k) in
      tdata x (Z.to_nat ((plane * h + row / k) * w + col / k))
  | _ => 0%R
  end.
Definition UpsamplingNearest2d (k : Z) :=
  layer (UpsamplingNearest2d_shape k) (upsample_at k).
Definition flatten (start : nat) (x : Tensor) : result Tensor :=
  s <- flatten_shape start (tshape x) ;; Ok (mkTensor s (tdata x)).
Definition view (target : list Z) (x : Tensor) : result Tensor :=
  s <- view_shape target (tshape x) ;; Ok (mkTensor s (tdata x)).

(** Activations, entry by entry. *)
Definition pointwise (f : R -> R) (x : Tensor) : Tensor :=
  mkTensor (tshape x) (fun i => f (tdata x i)).

Definition relu_fn (v : R) : R := Rmax 0 v.
Definition leaky_relu_fn (v : R) : R := (Rmax 0 v + 0.01 * Rmin 0 v)%R.
Definition sigmoid_fn (v : R) : R := (1 / (1 + exp (- v)))%R.

Definition relu (x : Tensor) : Tensor := pointwise relu_fn x.
Definition ReLU (x : Tensor) : result Tensor := Ok (relu x).
Definition LeakyReLU (x : Tensor) : result Tensor :=
  Ok (pointwise leaky_relu_fn x).
Definition sigmoid (x : Tensor) : Tensor := pointwise sigmoid_fn x.
Definition texp (x : Tensor) : Tensor := pointwise exp x.

(** [a + b] with broadcasting: the entry of an operand at a position of
    the result (an axis of length 1, or a missing leading axis, is read
    at index 0). *)
Fixpoint unravel_rev (rs : list Z) (i : Z) : list Z :=
  match rs with
  | [] => []
  | d :: rs' => (i mod d) :: unravel_rev rs' (i / d)
  end.

Fixpoint ravel_rev (rs idx : list Z) : Z :=
  match rs, idx with
  | d :: rs', j :: idx' => (if d =? 1 then 0 else j) + d * ravel_rev rs' idx'
  | _, _ => 0
  end.

Definition expand_at (a : Tensor) (s : shape) (i : nat) : R :=
  tdata a (Z.to_nat (ravel_rev (rev (tshape a))
                               (unravel_rev (rev s) (Z.of_nat i)))).

Definition tadd (a b : Tensor) : result Tensor :=
  s <- broadcast_shapes (tshape a) (tshape b) ;;
  Ok (mkTensor s (fun i => (expand_at a s i + expand_at b s i)%R)).

(** [x.new_zeros(size)], [x.new_ones(size)]. *)
Definition new_zeros (size : shape) : Tensor := mkTensor size (fun _ => 0%R).
Definition new_ones (size : shape) : Tensor := mkTensor size (fun _ => 1%R).

End Torch.

Import Torch.

(* ------------------------------------------------------------------ *)
(** * pyro.distributions and traces                                     *)
(* ------------------------------------------------------------------ *)

Module Dist.

Inductive distribution : Type :=
| Normal (loc scale : Tensor)
| Bernoulli (probs : Tensor)
| Independent (base : distribution) (n : nat).

(** [d.to_event(n)]: the [n] rightmost batch axes become event axes. *)
Definition to_event (d : distribution) (n : nat) : distribution :=
  Independent d n.

Fixpoint batch_shape (d : distribution) : result shape :=
  match d with
  | Normal loc scale => broadcast_shapes (tshape loc) (tshape scale)
  | Bernoulli probs => Ok (tshape probs)
  | Independent base n =>
      bs <- batch_shape base ;;
      if (List.length bs <? n)%nat then Raise ValueError
      else Ok (firstn (List.length bs - n) bs)
  end.

Fixpoint event_shape (d : distribution) : result shape :=
  match d with
  | Normal _ _ => Ok []
  | Bernoulli _ => Ok []
  | Independent base n =>
      bs <- batch_shape base ;;
      es <- event_shape base ;;
      if (List.length bs <? n)%nat then Raise ValueError
      else Ok (skipn (List.length bs - n) bs ++ es)
  end.

(** Sum of [f 0 .. f (n-1)]. *)
Fixpoint rsum (n : nat) (f : nat -> R) : R :=
  match n with
  | O => 0%R
  | S k => (rsum k f + f k)%R
  end.

(** [value.sum(-1)]. *)
Definition sum_last (x : Tensor) : result Tensor :=
  match rev (tshape x) with
  | m :: front =>
      Ok (mkTensor (rev front)
            (fun i => rsum (Z.to_nat m)
                        (fun j => tdata x (i * Z.to_nat m + j)%nat)))
  | [] => Raise IndexError
  end.

(** [_sum_rightmost(value, dim)] of [torch.distributions.utils]:
    reshape to [value.shape[:-dim] + (-1,)] and sum the last axis. *)
Definition sum_rightmost (value : Tensor) (dim : nat) : result Tensor :=
  match dim with
  | O => Ok value
  | _ =>
      let front := firstn (List.length (tshape value) - dim) (tshape value) in
      r <- view (front ++ [-1]) value ;;
      sum_last r
  end.

(** Log-density of one entry. *)
Definition normal_logp (loc scale v : R) : R :=
  (- ((v - loc) * (v - loc)) / (2 * (scale * scale)) - ln scale
   - ln (sqrt (2 * PI)))%R.

Definition bernoulli_logp (p v : R) : R :=
  (v * ln p + (1 - v) * ln (1 - p))%R.

(** [d.log_prob(value)], the computation itself (what the library does
    with argument validation off). *)
Fixpoint log_prob (d : distribution) (value : Tensor) : result Tensor :=
  match d with
  | Normal loc scale =>
      bs <- broadcast_shapes (tshape loc) (tshape scale) ;;
      s <- broadcast_shapes bs (tshape value) ;;
      Ok (mkTensor s (fun i => normal_logp (expand_at loc s i)
                                 (expand_at scale s i) (expand_at value s i)))
  | Bernoulli probs =>
      s <- broadcast_shapes (tshape probs) (tshape value) ;;
      Ok (mkTensor s (fun i => bernoulli_logp (expand_at probs s i)
                                 (expand_at value s i)))
  | Independent base n =>
      lp <- log_prob base value ;;
      sum_rightmost lp n
  end.

(** Argument validation of [log_prob] ([Distribution._validate_sample]),
    which the library runs first when validation is switched on: the
    value must broadcast against the batch shape, axis by axis from the
    right, and lie in the support (0 or 1 for a Bernoulli; any real for a
    Normal).  [Independent] leaves the validation to its base. *)
Fixpoint broadcastable_rev (actual expected : list Z) : bool :=
  match actual, expected with
  | a :: actual', e :: expected' =>
      ((a =? 1) || (e =? 1) || (a =? e)) && broadcastable_rev actual' expected'
  | _, _ => true
  end.

Definition is_binary (v : R) : bool :=
  if Req_EM_T v 0 then true else if Req_EM_T v 1 then true else false.

Definition all_binary (x : Tensor) : bool :=
  forallb (fun i => is_binary (tdata x i))
    (seq 0 (Z.to_nat (numel (tshape x)))).

Fixpoint validate_sample (d : distribution) (value : Tensor) : result unit :=
  match d with
  | Normal loc scale =>
      bs <- broadcast_shapes (tshape loc) (tshape scale) ;;
      if broadcastable_rev (rev (tshape value)) (rev bs) then Ok tt
      else Raise ValueError
  | Bernoulli probs =>
      if broadcastable_rev (rev (tshape value)) (rev (tshape probs)) then
        if all_binary value then Ok tt else Raise ValueError
      else Raise ValueError
  | Independent base _ => validate_sample base value
  end.

(** [d.log_prob(value)] with validation on ([validate = true]) or off. *)
Definition log_prob_checked (validate : bool) (d : distribution)
  (value : Tensor) : result Tensor :=
  _ <- (if validate then validate_sample d value else Ok tt) ;;
  log_prob d value.

(** [Normal(loc, scale).rsample()] on the noise [eps]: [loc + eps * scale]. *)
Definition rsample (d : distribution) (eps : nat -> R) : result Tensor :=
  match d with
  | Normal loc scale | Independent (Normal loc scale) _ =>
      s <- broadcast_shapes (tshape loc) (tshape scale) ;;
      Ok (mkTensor s (fun i => (expand_at loc s i
                                + eps i * expand_at scale s i)%R))
  | _ => Raise RuntimeError
  end.

(** A sample site of a trace. *)
Record site : Type := mkSite {
  name : string;
  fn : distribution;
  value : Tensor;
  is_observed : bool;
  plates : list (string * Z)      (* the enclosing [pyro.plate]s *)
}.

(** [site["log_prob"]]: one number per element of the batch shape. *)
Definition site_log_prob (s : site) : result Tensor :=
  log_prob (fn s) (value s).

(** [site["log_prob_sum"]]: the sum of all of them. *)
Definition site_log_prob_sum (s : site) : result R :=
  lp <- site_log_prob s ;;
  Ok (rsum (Z.to_nat (numel (tshape lp))) (tdata lp)).

(** The same under the validation setting of the run. *)
Definition site_log_prob_checked (validate : bool) (s : site)
  : result Tensor :=
  log_prob_checked validate (fn s) (value s).

(** [pyro.sample(name, fn, obs=obs)] inside the plates [ps].  Without an
    observation the value is the one replayed from the guide's trace when
    there is one, and a reparameterised draw on [eps] otherwise. *)
Definition sample (ps : list (string * Z)) (nm : string) (d : distribution)
  (obs replayed : option Tensor) (eps : nat -> R) : result site :=
  match obs with
  | Some v => Ok (mkSite nm d v true ps)
  | None =>
      match replayed with
      | Some v => Ok (mkSite nm d v false ps)
      | None => v <- rsample d eps ;; Ok (mkSite nm d v false ps)
      end
  end.

End Dist.

Import Dist.

(* ------------------------------------------------------------------ *)
(** * rgbd_pvae_train.py: the networks and the model/guide pair          *)
(* ------------------------------------------------------------------ *)

Module Pvae.

(** The learned maps of the two networks, indexed as the sub-modules of
    [convs] are. *)
Record EncoderParams : Type := {
  e_conv : nat -> kernel;
  e_bn : nat -> kernel;
  e_fc1 : kernel;
  e_fc2 : kernel
}.

Record DecoderParams : Type := {
  d_fc : kernel;
  d_conv : nat -> kernel;
  d_bn : nat -> kernel
}.

(** [depths[i]] and [depths[-1]]. *)
Definition at_ (depths : list Z) (i : nat) : Z := nth i depths 0.
Definition last_ (depths : list Z) : Z := last depths 0.

Module Encoder.

Definition depths : list Z := [4; 32; 64; 128; 256; 512].

Definition convs (P : EncoderParams) (training : bool)
  : Tensor -> result Tensor :=
  Sequential
    (map (fun i =>
            Sequential
              [Conv2d (e_conv P i) (at_ depths i) (at_ depths (i + 1)) 4 1 2;
               BatchNorm2d (e_bn P i) (at_ depths (i + 1)) training;
               LeakyReLU])
         (seq 0 (List.length depths - 1))).

Definition forward (P : EncoderParams) (training : bool) (z_dim : Z)
  (x : Tensor) : result (Tensor * Tensor) :=
  c <- convs P training x ;;
  conv_out <- flatten 1 c ;;
  mu <- Linear (e_fc1 P) (last_ depths * 4 ^ 2) z_dim conv_out ;;
  log_var <- Linear (e_fc2 P) (last_ depths * 4 ^ 2) z_dim conv_out ;;
  Ok (mu, log_var).

End Encoder.

Module Decoder.

Definition depths : list Z := [512; 256; 128; 64; 32; 4].

Definition convs (P : DecoderParams) (training : bool)
  : Tensor -> result Tensor :=
  Sequential
    (map (fun i =>
            Sequential
              [UpsamplingNearest2d 2;
               Conv2d (d_conv P i) (at_ depths i) (at_ depths (i + 1)) 3 1 1;
               BatchNorm2d (d_bn P i) (at_ depths (i + 1)) training;
               LeakyReLU])
         (seq 0 (List.length depths - 1))).

Definition forward (P : DecoderParams) (training : bool) (z_dim : Z)
  (z : Tensor) : result Tensor :=
  l <- Linear (d_fc P) z_dim (at_ depths 0 * 4 ^ 2) z ;;
  n <- shape_at z 0 ;;
  fc_out <- view [n; -1; 4; 4] l ;;
  conv_out <- convs P training fc_out ;;
  Ok (sigmoid conv_out).

End Decoder.

Record VAE : Type := {
  z_dim : Z;
  encoder : EncoderParams;
  decoder : DecoderParams;
  training : bool                  (* [vae.train()] / [vae.eval()] *)
}.

(** [VAE.model]: p(x, z) = p(x|z) p(z).  [replayed] is the latent of the
    guide's trace when the model is replayed against it. *)
Definition model (vae : VAE) (x : Tensor) (replayed : option Tensor)
  (eps : nat -> R) : result (list site) :=
  n <- shape_at x 0 ;;
  let data := [("data"%string, n)] in
  let z_mu := new_zeros [n; z_dim vae] in
  let z_var := new_ones [n; z_dim vae] in
  latent <- sample data "latent" (to_event (Normal z_mu z_var) 1)
              None replayed eps ;;
  x_means <- Decoder.forward (decoder vae) (training vae) (z_dim vae)
               (value latent) ;;
  obs <- sample data "obs" (to_event (Bernoulli x_means) 3)
           (Some x) None eps ;;
  Ok [latent; obs].

(** [VAE.guide]: the approximate posterior q(z|x). *)
Definition guide (vae : VAE) (x : Tensor) (eps : nat -> R)
  : result (list site) :=
  n <- shape_at x 0 ;;
  let data := [("data"%string, n)] in
  p <- Encoder.forward (encoder vae) (training vae) (z_dim vae) x ;;
  let '(z_mu, z_log_var) := p in
  latent <- sample data "latent"
              (to_event (Normal z_mu (texp z_log_var)) 1) None None eps ;;
  Ok [latent].

(** [VAE.reconstruct]: a draw [z] from Normal(mu, exp(log_var)) on the
    noise [eps], decoded. *)
Definition reconstruct (vae : VAE) (x : Tensor) (eps : nat -> R)
  : result Tensor :=
  p <- Encoder.forward (encoder vae) (training vae) (z_dim vae) x ;;
  let '(z_mu, z_log_var) := p in
  z <- rsample (Normal z_mu (texp z_log_var)) eps ;;
  Decoder.forward (decoder vae) (training vae) (z_dim vae) z.

End Pvae.

(* ------------------------------------------------------------------ *)
(** * rgbd_vae.py: the networks and the model/guide pair                 *)
(* ------------------------------------------------------------------ *)

Module Vae.

Import Pvae (at_, last_).

(** The learned maps of a [ResBlock]: [conv.0 .. conv.4] and
    [linear.0 .. linear.1]. *)
Record ResBlockParams : Type := {
  rb_conv : nat -> kernel;
  rb_linear : nat -> kernel
}.

Module ResBlock.

Definition forward (P : ResBlockParams) (in_channels out_channels : Z)
  (x : Tensor) : result Tensor :=
  x1 <- (if negb (in_channels =? out_channels)
         then Sequential
                [Conv2d (rb_linear P 0) in_channels out_channels 1 0 1;
                 InstanceNorm2d (rb_linear P 1) out_channels] x
         else Ok x) ;;
  y <- Sequential
         [Conv2d (rb_conv P 0) in_channels out_channels 3 1 1;
          InstanceNorm2d (rb_conv P 1) out_channels;
          ReLU;
          Conv2d (rb_conv P 3) in_channels out_channels 3 1 1;
          InstanceNorm2d (rb_conv P 4) out_channels] x1 ;;
  s <- tadd y x1 ;;
  Ok (relu s).

End ResBlock.

Record EncoderParams : Type := {
  e_conv1 : nat -> kernel;
  e_convs : nat -> nat -> kernel;
  e_res : nat -> ResBlockParams;
  e_conv2 : nat -> kernel;
  e_conv3 : nat -> kernel;
  e_fc : kernel
}.

Record DecoderParams : Type := {
  d_conv1 : nat -> kernel;
  d_conv2 : nat -> kernel;
  d_res : nat -> ResBlockParams;
  d_convs : nat -> nat -> kernel;
  d_conv3 : nat -> kernel
}.

Module Encoder.

Definition depths : list Z := [64; 76; 88; 100; 128; 200].

Definition conv1 (P : EncoderParams) :=
  Sequential [Conv2d (e_conv1 P 0) 4 64 3 1 1;
              InstanceNorm2d (e_conv1 P 1) 64; LeakyReLU].

Definition convs (P : EncoderParams) :=
  Sequential
    (map (fun i =>
            Sequential
              [Conv2d (e_convs P i 0) (at_ depths i) (at_ depths (i + 1)) 3 1 2;
               InstanceNorm2d (e_convs P i 1) (at_ depths (i + 1));
               ReLU])
         (seq 0 (List.length depths - 1))).

Definition res_blocks (P : EncoderParams) :=
  Sequential [ResBlock.forward (e_res P 0) (last_ depths) (last_ depths);
              ResBlock.forward (e_res P 1) (last_ depths) (last_ depths)].

Definition conv2 (P : EncoderParams) :=
  Sequential [Conv2d (e_conv2 P 0) 200 250 3 1 2;
              InstanceNorm2d (e_conv2 P 1) 250; ReLU].

Definition conv3 (P : EncoderParams) :=
  Sequential [Conv2d (e_conv3 P 0) 250 300 3 1 2;
              InstanceNorm2d (e_conv3 P 1) 300; ReLU].

Definition forward (P : EncoderParams) (x : Tensor) : result Tensor :=
  conv1_out <- conv1 P x ;;
  conv_out <- convs P conv1_out ;;
  res_out <- res_blocks P conv_out ;;
  conv2_out <- conv2 P res_out ;;
  conv3_out <- conv3 P conv2_out ;;
  final <- flatten 2 conv3_out ;;
  Linear (e_fc P) 4 2 final.

End Encoder.

Module Decoder.

Definition depths : list Z := [200; 128; 100; 88; 76; 64].

Definition conv1 (P : DecoderParams) :=
  Sequential [ConvTranspose2d (d_conv1 P 0) 300 250 4 1;
              InstanceNorm2d (d_conv1 P 1) 250; ReLU].

Definition conv2 (P : DecoderParams) :=
  Sequential [ConvTranspose2d (d_conv2 P 0) 250 200 3 1;
              InstanceNorm2d (d_conv2 P 1) 200; ReLU].

Definition res_blocks (P : DecoderParams) :=
  Sequential [ResBlock.forward (d_res P 0) (at_ depths 0) (at_ depths 0);
              ResBlock.forward (d_res P 1) (at_ depths 0) (at_ depths 0)].

Definition convs (P : DecoderParams) :=
  Sequential
    (map (fun i =>
            Sequential
              [ConvTranspose2d (d_convs P i 0)
                 (at_ depths i) (at_ depths (i + 1)) 3 2;
               InstanceNorm2d (d_convs P i 1) (at_ depths (i + 1));
               ReLU])
         (seq 0 2)
     ++
     map (fun i =>
            Sequential
              [ConvTranspose2d (d_convs P i 0)
                 (at_ depths i) (at_ depths (i + 1)) 2 2;
               InstanceNorm2d (d_convs P i 1) (at_ depths (i + 1));
               ReLU])
         (seq 2 (List.length depths - 1 - 2))).

Definition conv3 (P : DecoderParams) :=
  Sequential [Conv2d (d_conv3 P 0) 64 4 3 1 1;
              InstanceNorm2d (d_conv3 P 1) 4; LeakyReLU].

Definition forward (P : DecoderParams) (z : Tensor) : result Tensor :=
  n <- shape_at z 0 ;;
  d <- shape_at z 1 ;;
  z' <- view [n; d; 1; 1] z ;;
  conv1_out <- conv1 P z' ;;
  conv2_out <- conv2 P conv1_out ;;
  res_out <- res_blocks P conv2_out ;;
  convs_out <- convs P res_out ;;
  conv3_out <- conv3 P convs_out ;;
  Ok (sigmoid conv3_out).

End Decoder.

Record VAE : Type := {
  encoder : EncoderParams;
  decoder : DecoderParams
}.

(** [self.z_dim = 300]. *)
Definition z_dim (vae : VAE) : Z := 300.

(** [params[:, :, j]]. *)
Definition select_axis2 (params : Tensor) (j : Z) : result Tensor :=
  match tshape params with
  | a :: b :: c :: rest =>
      if j <? c then
        let r := Z.to_nat (numel rest) in
        Ok (mkTensor (a :: b :: rest)
              (fun i => tdata params
                          ((i / r) * Z.to_nat c * r + Z.to_nat j * r
                           + i mod r)%nat))
      else Raise IndexError
  | _ => Raise IndexError
  end.

(** [VAE.model].  The name [x] is rebound to the decoder's output before
    the observation site is declared. *)
Definition model (vae : VAE) (x : Tensor) (replayed : option Tensor)
  (eps : nat -> R) : result (list site) :=
  n <- shape_at x 0 ;;
  let data := [("data"%string, n)] in
  let z_mu := new_zeros [n; z_dim vae] in
  let z_var := new_ones [n; z_dim vae] in
  latent <- sample data "latent" (to_event (Normal z_mu z_var) 1)
              None replayed eps ;;
  x <- Decoder.forward (decoder vae) (value latent) ;;
  obs <- sample data "obs" (to_event (Bernoulli x) 3) (Some x) None eps ;;
  Ok [latent; obs].

(** [VAE.guide]. *)
Definition guide (vae : VAE) (x : Tensor) (eps : nat -> R)
  : result (list site) :=
  n <- shape_at x 0 ;;
  let data := [("data"%string, n)] in
  params <- Encoder.forward (encoder vae) x ;;
  z_mu <- select_axis2 params 0 ;;
  z_log_var <- select_axis2 params 1 ;;
  latent <- sample data "latent"
              (to_event (Normal z_mu (texp z_log_var)) 1) None None eps ;;
  Ok [latent].

End Vae.

(* ------------------------------------------------------------------ *)
(** * Script state                                                      *)
(* ------------------------------------------------------------------ *)

Module Prog.

(** What a script does that can be observed from outside, in order. *)
Inductive event (Store : Type) : Type :=
| EStep (x : Tensor)                       (* svi.step(x) was called *)
| EEvaluateLoss (x : Tensor)               (* svi.evaluate_loss(x) was called *)
| EPrintTrain (epoch : Z) (loss : float)   (* "[epoch e]  average training loss" *)
| EPrintTest (epoch : Z) (loss : float)    (* "[epoch e] average test loss" *)
| EPrintNegative (loss : float)            (* 'Negative loss occurred!!!' *)
| EPrintSaving (epoch : Z)                 (* 'SAVING EPOCH' *)
| EOptimizerSave (file : string) (s : Store)
| ETorchSave (file : string) (s : Store)
| ESavefig (file : string).
Arguments EStep {Store} x.
Arguments EEvaluateLoss {Store} x.
Arguments EPrintTrain {Store} epoch loss.
Arguments EPrintTest {Store} epoch loss.
Arguments EPrintNegative {Store} loss.
Arguments EPrintSaving {Store} epoch.
Arguments EOptimizerSave {Store} file s.
Arguments ETorchSave {Store} file s.
Arguments ESavefig {Store} file.

(** The globals of a script.  [store] stands for the objects the SVI
    steps mutate: the weights and the mode of the VAE, the optimizer state,
    the parameter store and the random generator. *)
Record World (Store : Type) : Type := mkWorld {
  store : Store;
  best : float;
  train_elbo : list float;
  test_elbo : list float;
  log : list (event Store)          (* most recent event first *)
}.
Arguments mkWorld {Store}.
Arguments store {Store}.
Arguments best {Store}.
Arguments train_elbo {Store}.
Arguments test_elbo {Store}.
Arguments log {Store}.

Inductive outcome (W A : Type) : Type :=
| Done (a : A) (w : W)
| Fail (e : exn) (w : W).
Arguments Done {W A} a w.
Arguments Fail {W A} e w.

Definition M (W A : Type) : Type := W -> outcome W A.

Definition ret {W A} (a : A) : M W A := fun w => Done a w.

Definition sbind {W A B} (c : M W A) (k : A -> M W B) : M W B :=
  fun w => match c w with
           | Done a w' => k a w'
           | Fail e w' => Fail e w'
           end.

Definition lift {W A} (r : result A) : M W A :=
  fun w => match r with
           | Ok a => Done a w
           | Raise e => Fail e w
           end.

Definition modify {W} (f : W -> W) : M W unit := fun w => Done tt (f w).
Definition gets {W A} (f : W -> A) : M W A := fun w => Done (f w) w.

(** [for x in xs: acc = body(acc, x)]. *)
Fixpoint for_each {W A B} (xs : list B) (acc : A) (body : A -> B -> M W A)
  : M W A :=
  match xs with
  | [] => ret acc
  | x :: xs' => sbind (body acc x) (fun acc' => for_each xs' acc' body)
  end.

Section Script.

Variable Store : Type.

Definition emit (ev : event Store) : M (World Store) unit :=
  modify (fun w => mkWorld (store w) (best w) (train_elbo w) (test_elbo w)
                     (ev :: log w)).

Definition on_store (f : Store -> Store) : M (World Store) unit :=
  modify (fun w => mkWorld (f (store w)) (best w) (train_elbo w)
                     (test_elbo w) (log w)).

Definition set_best (b : float) : M (World Store) unit :=
  modify (fun w => mkWorld (store w) b (train_elbo w) (test_elbo w) (log w)).

Definition train_elbo_append (v : float) : M (World Store) unit :=
  modify (fun w => mkWorld (store w) (best w) (train_elbo w ++ [v])
                     (test_elbo w) (log w)).

Definition test_elbo_append (v : float) : M (World Store) unit :=
  modify (fun w => mkWorld (store w) (best w) (train_elbo w)
                     (test_elbo w ++ [v]) (log w)).

(** A call into the SVI object: it may change the store and returns a
    loss or raises. *)
Definition call (f : Store -> result float * Store) : M (World Store) float :=
  fun w =>
    let '(r, s) := f (store w) in
    let w' := mkWorld s (best w) (train_elbo w) (test_elbo w) (log w) in
    match r with
    | Ok l => Done l w'
    | Raise e => Fail e w'
    end.

End Script.

(** A data loader: the minibatches one pass yields and the dataset. *)
Record Loader (B : Type) : Type := mkLoader {
  batches : list B;
  dataset : list Tensor
}.
Arguments mkLoader {B}.
Arguments batches {B}.
Arguments dataset {B}.

(** [len(xs)]. *)
Definition len {A} (xs : list A) : Z := Z.of_nat (List.length xs).

(** [range(n)]. *)
Definition range (n : nat) : list Z := map Z.of_nat (seq 0 n).

(** The interpreter's environment of a run: whether a CUDA device is
    there, and the SVI object built by the script. *)
Record Env (Store : Type) : Type := mkEnv {
  cuda_is_available : bool;
  svi_step : Tensor -> Store -> result float * Store;
  svi_evaluate_loss : Tensor -> Store -> result float * Store;
  vae_train : Store -> Store;               (* vae.train() *)
  vae_eval : Store -> Store;                (* vae.eval() *)
  vae_reconstruct : Tensor -> Store -> result float * Store;
  (* whether writing the file succeeds: optimizer.save(path) and
     torch.save(vae.state_dict(), path) *)
  optimizer_save : string -> Store -> result unit;
  torch_save : string -> Store -> result unit
}.
Arguments mkEnv {Store}.
Arguments cuda_is_available {Store}.
Arguments svi_step {Store}.
Arguments svi_evaluate_loss {Store}.
Arguments vae_train {Store}.
Arguments vae_eval {Store}.
Arguments vae_reconstruct {Store}.
Arguments optimizer_save {Store}.
Arguments torch_save {Store}.

(** A write to a file: when it succeeds the log shows it, when it raises
    the script stops there. *)
Definition write_file {Store : Type} (r : result unit) (ev : event Store)
  : M (World Store) unit :=
  sbind (lift r) (fun _ => emit Store ev).

(** [x.cuda()]: the same tensor on the device (the placement is not part
    of a tensor here); without a device the call raises. *)
Definition cuda {W} (available : bool) (x : Tensor) : M W Tensor :=
  if available then ret x else lift (Raise RuntimeError).

(** The module [torch.cuda] as a namespace: an attribute is found by its
    name, and a name that is not an attribute raises [AttributeError].
    Only the attribute the scripts rely on is listed; calling it returns
    whether a device is there. *)
Definition torch_cuda : list (string * (bool -> bool)) :=
  [("is_available"%string, fun available => available)].

Definition getattr_torch_cuda (attr : string) : result (bool -> bool) :=
  match find (fun p => String.eqb (fst p) attr) torch_cuda with
  | Some p => Ok (snd p)
  | None => Raise AttributeError
  end.

(** [torch.cuda.<attr>()]. *)
Definition torch_cuda_call {W} (available : bool) (attr : string) : M W bool :=
  sbind (lift (getattr_torch_cuda attr)) (fun f => ret (f available)).

End Prog.

Import Prog.

Declare Scope prog_scope.
Delimit Scope prog_scope with prog.
Notation "x <- c ;; k" := (sbind c (fun x => k))
  (at level 61, c at next level, right associativity) : prog_scope.
Notation "c ;;; k" := (sbind c (fun _ => k))
  (at level 61, right associativity) : prog_scope.

(* ------------------------------------------------------------------ *)
(** * rgbd_pvae_train.py: train, evaluate and the epoch loop             *)
(* ------------------------------------------------------------------ *)

Module PvaeScript.

Definition NUM_EPOCHS : nat := 300.
Definition TEST_FREQUENCY : Z := 5.
Definition BATCH_SIZE : Z := 50.

Section Run.

Variable Store : Type.
Variable env : Env Store.
Variable train_loader test_loader : Loader Tensor.

Local Open Scope prog_scope.


(** [train(svi, train_loader)]: one epoch.  The SVI step sits inside the
    [if], at the depth of [x = x.cuda()]. *)
Definition train (train_loader : Loader Tensor) : M (World Store) float :=
  epoch_loss <-
    for_each (batches train_loader) zero
      (fun epoch_loss x =>
         c <- torch_cuda_call (cuda_is_available env) "is_available" ;;
         if (c : bool) then
           x <- cuda (cuda_is_available env) x ;;
           emit Store (EStep x) ;;;
           l <- call Store (svi_step env x) ;;
           ret (fadd epoch_loss l)
         else ret epoch_loss) ;;
  lift (fdiv_int epoch_loss (len (dataset train_loader))).

(** [evaluate(svi, test_loader)]: the loss evaluation sits after the
    [if]. *)
Definition evaluate (test_loader : Loader Tensor) : M (World Store) float :=
  test_loss <-
    for_each (batches test_loader) zero
      (fun test_loss x =>
         c <- torch_cuda_call (cuda_is_available env) "is_available" ;;
         x <- (if (c : bool) then cuda (cuda_is_available env) x
               else ret x) ;;
         emit Store (EEvaluateLoss x) ;;;
         l <- call Store (svi_evaluate_loss env x) ;;
         ret (fadd test_loss l)) ;;
  lift (fdiv_int test_loss (len (dataset test_loader))).

(** The plotting at the end of an evaluation epoch: the first example of
    the test set is moved to the device without a test, reconstructed and
    drawn to [test.png]. *)
Definition visualise : M (World Store) unit :=
  x0 <- lift (match dataset test_loader with
              | x0 :: _ => Ok x0
              | [] => Raise IndexError
              end) ;;
  test_input <- cuda (cuda_is_available env) x0 ;;
  call Store (vae_reconstruct env test_input) ;;;
  emit Store (ESavefig "test.png").

Inductive control : Type := Next | Break.

(** The body of [for epoch in range(NUM_EPOCHS)]. *)
Definition epoch_body (epoch : Z) : M (World Store) control :=
  total_epoch_loss_train <- train train_loader ;;
  train_elbo_append Store (fneg total_epoch_loss_train) ;;;
  emit Store (EPrintTrain epoch total_epoch_loss_train) ;;;
  if epoch mod TEST_FREQUENCY =? 0 then
    on_store Store (vae_eval env) ;;;
    total_epoch_loss_test <- evaluate test_loader ;;
    on_store Store (vae_train env) ;;;
    test_elbo_append Store (fneg total_epoch_loss_test) ;;;
    emit Store (EPrintTest epoch total_epoch_loss_test) ;;;
    if flt total_epoch_loss_test zero then
      emit Store (EPrintNegative total_epoch_loss_test) ;;;
      ret Break
    else
      best_so_far <- gets (@best Store) ;;
      (if flt total_epoch_loss_test best_so_far then
         emit Store (EPrintSaving epoch) ;;;
         set_best Store total_epoch_loss_test ;;;
         s <- gets (@store Store) ;;
         write_file (optimizer_save env "rgbd_pvae_optimizer_state.save" s)
           (EOptimizerSave "rgbd_pvae_optimizer_state.save" s) ;;;
         write_file (torch_save env "rgbd_pvae_torch_weights.save" s)
           (ETorchSave "rgbd_pvae_torch_weights.save" s)
       else ret tt) ;;;
      visualise ;;;
      ret Next
  else ret Next.

Fixpoint for_epochs (epochs : list Z) : M (World Store) unit :=
  match epochs with
  | [] => ret tt
  | epoch :: rest =>
      c <- epoch_body epoch ;;
      match c with
      | Break => ret tt
      | Next => for_epochs rest
      end
  end.

(** The script from [best = float('inf')] on. *)
Definition initial (s : Store) : World Store :=
  mkWorld (vae_train env s) inf [] [] [].

Definition main (s : Store) : outcome (World Store) unit :=
  for_epochs (range NUM_EPOCHS) (initial s).

End Run.

End PvaeScript.

(* ------------------------------------------------------------------ *)
(** * rgbd_vae.py: train and evaluate                                   *)
(* ------------------------------------------------------------------ *)

Module VaeScript.

Definition NUM_EPOCHS : nat := 50.
Definition TEST_FREQUENCY : Z := 5.

Section Run.

Variable Store : Type.
Variable Label : Type.
Variable env : Env Store.

Local Open Scope prog_scope.

(** What a loader hands to [for x, _ in loader]: a pair of a minibatch
    and its labels, a tuple or list of tensors of any length, or a
    minibatch tensor on its own. *)
Inductive item : Type :=
| Pair (x : Tensor) (label : Label)
| Tuple (elems : list Tensor)
| Bare (x : Tensor).

(** The target [x, _]: the item is iterated and must give exactly two
    values.  A tensor is iterated along its first axis (its rows), and a
    tensor without axes cannot be iterated. *)
Definition unpack (b : item) : result Tensor :=
  match b with
  | Pair x _ => Ok x
  | Tuple [x; _] => Ok x
  | Tuple _ => Raise ValueError
  | Bare t =>
      match tshape t with
      | [] => Raise TypeError
      | n :: rest =>
          if n =? 2 then Ok (mkTensor rest (tdata t)) else Raise ValueError
      end
  end.

(** [train(svi, train_loader)]. *)
Definition train (train_loader : Loader item) : M (World Store) float :=
  epoch_loss <-
    for_each (batches train_loader) zero
      (fun epoch_loss b =>
         x <- lift (unpack b) ;;
         c <- torch_cuda_call (cuda_is_available env) "is_availabe" ;;
         if (c : bool) then
           x <- cuda (cuda_is_available env) x ;;
           emit Store (EStep x) ;;;
           l <- call Store (svi_step env x) ;;
           ret (fadd epoch_loss l)
         else ret epoch_loss) ;;
  lift (fdiv_int epoch_loss (len (dataset train_loader))).

Definition evaluate (test_loader : Loader item) : M (World Store) float :=
  test_loss <-
    for_each (batches test_loader) zero
      (fun test_loss b =>
         x <- lift (unpack b) ;;
         c <- torch_cuda_call (cuda_is_available env) "is_availabe" ;;
         x <- (if (c : bool) then cuda (cuda_is_available env) x
               else ret x) ;;
         emit Store (EEvaluateLoss x) ;;;
         l <- call Store (svi_evaluate_loss env x) ;;
         ret (fadd test_loss l)) ;;
  lift (fdiv_int test_loss (len (dataset test_loader))).

Variable train_loader test_loader : Loader item.

(** The body of [for epoch in range(NUM_EPOCHS)]: no watermark, no
    checkpoint and no way out of the loop. *)
Definition epoch_body (epoch : Z) : M (World Store) unit :=
  total_epoch_loss_train <- train train_loader ;;
  train_elbo_append Store (fneg total_epoch_loss_train) ;;;
  emit Store (EPrintTrain epoch total_epoch_loss_train) ;;;
  if epoch mod TEST_FREQUENCY =? 0 then
    on_store Store (vae_eval env) ;;;
    total_epoch_loss_test <- evaluate test_loader ;;
    on_store Store (vae_train env) ;;;
    test_elbo_append Store (fneg total_epoch_loss_test) ;;;
    emit Store (EPrintTest epoch total_epoch_loss_test)
  else ret tt.

Fixpoint for_epochs (epochs : list Z) : M (World Store) unit :=
  match epochs with
  | [] => ret tt
  | epoch :: rest => epoch_body epoch ;;; for_epochs rest
  end.

End Run.

Arguments Pair {Label}.
Arguments Tuple {Label}.
Arguments Bare {Label}.
Arguments unpack {Label}.

End VaeScript.

(* ------------------------------------------------------------------ *)
(** * Concrete inputs                                                   *)
(* ------------------------------------------------------------------ *)

Module Demo.

(** Networks whose learned maps are constant. *)
Definition const_kernel (v : R) : kernel := fun _ _ => v.

Definition pvae_encoder : Pvae.EncoderParams :=
  {| Pvae.e_conv := fun _ => const_kernel 0;
     Pvae.e_bn := fun _ => const_kernel 0;
     Pvae.e_fc1 := const_kernel 0;
     Pvae.e_fc2 := const_kernel 2 |}.

Definition pvae_decoder : Pvae.DecoderParams :=
  {| Pvae.d_fc := const_kernel 0;
     Pvae.d_conv := fun _ => const_kernel 0;
     Pvae.d_bn := fun _ => const_kernel 0 |}.

Definition pvae : Pvae.VAE :=
  {| Pvae.z_dim := 400;
     Pvae.encoder := pvae_encoder;
     Pvae.decoder := pvae_decoder;
     Pvae.training := true |}.

Definition res_block : Vae.ResBlockParams :=
  {| Vae.rb_conv := fun _ => const_kernel 0;
     Vae.rb_linear := fun _ => const_kernel 0 |}.

Definition vae_encoder : Vae.EncoderParams :=
  {| Vae.e_conv1 := fun _ => const_kernel 0;
     Vae.e_convs := fun _ _ => const_kernel 0;
     Vae.e_res := fun _ => res_block;
     Vae.e_conv2 := fun _ => const_kernel 0;
     Vae.e_conv3 := fun _ => const_kernel 0;
     Vae.e_fc := const_kernel 2 |}.

Definition vae_decoder : Vae.DecoderParams :=
  {| Vae.d_conv1 := fun _ => const_kernel 0;
     Vae.d_conv2 := fun _ => const_kernel 0;
     Vae.d_res := fun _ => res_block;
     Vae.d_convs := fun _ _ => const_kernel 0;
     Vae.d_conv3 := fun _ => const_kernel 0 |}.

Definition vae : Vae.VAE :=
  {| Vae.encoder := vae_encoder; Vae.decoder := vae_decoder |}.

(** The all-zero batch of the given shape, and constant noise. *)
Definition zeros (s : shape) : Tensor := mkTensor s (fun _ => 0%R).
Definition ones_noise : nat -> R := fun _ => 1%R.

(** What the constant Encoder above returns on one example. *)
Definition mu0 : Tensor := mkTensor [1; 400] (fun _ => 0%R).
Definition log_var2 : Tensor := mkTensor [1; 400] (fun _ => 2%R).

(** What the constant Decoder above returns on one latent. *)
Definition x_means : Tensor :=
  sigmoid (pointwise leaky_relu_fn (mkTensor [1; 4; 128; 128] (fun _ => 0%R))).

(** A dataset of one example, served as one minibatch. *)
Definition batch : Tensor := zeros [1; 4; 128; 128].
Definition loader : Loader Tensor := mkLoader [batch] [batch].
Definition labelled_loader : Loader (VaeScript.item unit) :=
  mkLoader [VaeScript.Pair batch tt] [batch].

(** A loader that yields its minibatches of 50 images of 216 x 216
    without labels. *)
Definition batch50 : Tensor := zeros [50; 4; 216; 216].
Definition bare_loader : Loader (VaeScript.item unit) :=
  mkLoader [VaeScript.Bare batch50] [batch50].

(** SVI objects whose store counts the optimizer steps taken; a step
    returns the loss 1, an evaluation returns the given loss. *)
Definition env_with (cuda_there : bool) (eval_loss : float) : Env nat :=
  {| cuda_is_available := cuda_there;
     svi_step := fun _ s => (Ok (Fin 1), S s);
     svi_evaluate_loss := fun _ s => (Ok eval_loss, s);
     vae_train := fun s => s;
     vae_eval := fun s => s;
     vae_reconstruct := fun _ s => (Ok zero, s);
     optimizer_save := fun _ _ => Ok tt;
     torch_save := fun _ _ => Ok tt |}.

(** The same, with an evaluation loss of 5 until two steps have been
    taken and of -1 afterwards. *)
Definition env_falling : Env nat :=
  {| cuda_is_available := true;
     svi_step := fun _ s => (Ok (Fin 1), S s);
     svi_evaluate_loss :=
       fun _ s => (Ok (if (s <? 2)%nat then Fin 5 else Fin (-1)), s);
     vae_train := fun s => s;
     vae_eval := fun s => s;
     vae_reconstruct := fun _ s => (Ok zero, s);
     optimizer_save := fun _ _ => Ok tt;
     torch_save := fun _ _ => Ok tt |}.

(** An SVI object whose second step raises, and a loader of three
    minibatches. *)
Definition env_failing : Env nat :=
  {| cuda_is_available := true;
     svi_step := fun _ s => if (s =? 1)%nat then (Raise RuntimeError, s)
                            else (Ok (Fin 1), S s);
     svi_evaluate_loss := fun _ s => (Ok (Fin 1), s);
     vae_train := fun s => s;
     vae_eval := fun s => s;
     vae_reconstruct := fun _ s => (Ok zero, s);
     optimizer_save := fun _ _ => Ok tt;
     torch_save := fun _ _ => Ok tt |}.

(** SVI objects as [env_with true (Fin 5)], where the file of the
    weights cannot be written. *)
Definition env_disk_full : Env nat :=
  {| cuda_is_available := true;
     svi_step := fun _ s => (Ok (Fin 1), S s);
     svi_evaluate_loss := fun _ s => (Ok (Fin 5), s);
     vae_train := fun s => s;
     vae_eval := fun s => s;
     vae_reconstruct := fun _ s => (Ok zero, s);
     optimizer_save := fun _ _ => Ok tt;
     torch_save := fun _ _ => Raise OSError |}.

Definition loader3 : Loader Tensor :=
  mkLoader [batch; batch; batch] [batch; batch; batch].

End Demo.

(* ------------------------------------------------------------------ *)
(** * Statements used by the theorems                                   *)
(* ------------------------------------------------------------------ *)

Module Spec.

(** A shape all of whose axes have a positive length. *)
Definition positive (s : shape) : Prop := Forall (fun d => 0 < d) s.

(** The log-density of a site is one number per example of a batch of
    [n]: the sum of the [m] per-entry log-probabilities [entry] of that
    example; and the log-density of the batch is the sum of these [n]
    numbers. *)
Definition event_log_density (s : site) (n m : Z) (entry : nat -> R) : Prop :=
  exists lp,
    site_log_prob s = Ok lp
    /\ tshape lp = [n]
    /\ (forall i, (i < Z.to_nat n)%nat ->
          tdata lp i
          = rsum (Z.to_nat m) (fun j => entry (i * Z.to_nat m + j)%nat))
    /\ site_log_prob_sum s = Ok (rsum (Z.to_nat n) (tdata lp)).

(** The exception of [for x, _ in loader] and of what follows it in the
    loops of rgbd_vae.py at the item [b]: that of the unpacking, if it
    raises, and else that of the lookup in [torch.cuda]. *)
Definition first_error {Label : Type} (b : VaeScript.item Label) : exn :=
  match VaeScript.unpack b with
  | Ok _ => AttributeError
  | Raise e => e
  end.

(** [is_nan l]. *)
Definition is_nan (l : float) : bool :=
  match l with NaN => true | _ => false end.

(** [b] is the minimum of +inf and the losses [ls]: it is one of them and
    none of them is lower. *)
Definition is_minimum (b : float) (ls : list float) : Prop :=
  (b = inf \/ In b ls) /\ forall l, In l ls -> flt l b = false.

(** [l] is strictly lower than +inf and than every loss of [previous]
    that is a number. *)
Definition improves (l : float) (previous : list float) : bool :=
  forallb (fun p => is_nan p || flt l p) (inf :: previous).

(** The evaluation losses a log reports, with their epochs (most recent
    first, as the log). *)
Fixpoint eval_losses {Store : Type} (log : list (event Store))
  : list (Z * float) :=
  match log with
  | [] => []
  | EPrintTest epoch loss :: rest => (epoch, loss) :: eval_losses rest
  | _ :: rest => eval_losses rest
  end.

(** An evaluation loss passes the instability check when it is not
    below zero. *)
Definition passed (p : Z * float) : bool := negb (flt (snd p) zero).

(** The epochs at which a log shows a checkpoint: 'SAVING EPOCH e', then
    the optimizer state, then the weights. *)
Fixpoint checkpoints {Store : Type} (log : list (event Store)) : list Z :=
  match log with
  | [] => []
  | ETorchSave _ _ :: rest =>
      match rest with
      | EOptimizerSave _ _ :: EPrintSaving epoch :: _ =>
          epoch :: checkpoints rest
      | _ => checkpoints rest
      end
  | _ :: rest => checkpoints rest
  end.

(** The number of files a log shows written. *)
Fixpoint writes {Store : Type} (log : list (event Store)) : nat :=
  match log with
  | [] => 0
  | ETorchSave _ _ :: rest | EOptimizerSave _ _ :: rest => S (writes rest)
  | _ :: rest => writes rest
  end.

(** The epochs, among those of [observed] (most recent first), whose loss
    improves on all the earlier ones. *)
Fixpoint improving_epochs (observed : list (Z * float)) : list Z :=
  match observed with
  | [] => []
  | (epoch, loss) :: earlier =>
      (if improves loss (map snd earlier) then [epoch] else [])
      ++ improving_epochs earlier
  end.

(** The world a run stops in, whether it returns or raises. *)
Definition final {W A : Type} (o : outcome W A) : W :=
  match o with
  | Done _ w => w
  | Fail _ w => w
  end.

(** Events that report no evaluation loss and write no file. *)
Definition quiet {Store : Type} (ev : event Store) : bool :=
  match ev with
  | EStep _ | EEvaluateLoss _ | EPrintTrain _ _ | ESavefig _ => true
  | _ => false
  end.

(** [w'] comes after [w] with the same watermark and only quiet events
    in between. *)
Definition extends_quietly {Store : Type} (w w' : World Store) : Prop :=
  best w' = best w
  /\ exists evs, log w' = evs ++ log w /\ forallb quiet evs = true.

(** A piece of script that only ever extends the world quietly, whether
    it returns or raises. *)
Definition quiet_prog {Store A : Type} (c : M (World Store) A) : Prop :=
  forall w, extends_quietly w (final (c w)).

(** A piece of script that takes a world where [I] holds to one where
    [I] holds when it returns, and to one where [J e] holds when it
    raises [e]. *)
Definition ends_in {W A : Type} (I : W -> Prop) (J : exn -> W -> Prop)
  (o : outcome W A) : Prop :=
  match o with
  | Done _ w => I w
  | Fail e w => J e w
  end.

Definition maintains_or {Store A : Type} (I : World Store -> Prop)
  (J : exn -> World Store -> Prop) (c : M (World Store) A) : Prop :=
  forall w, I w -> ends_in I J (c w).

(** The checkpoints are complete: they are at the epochs whose loss
    passed the check and improves on the earlier ones, and no file is
    written outside a checkpoint. *)
Definition checkpoints_complete {Store : Type} (w : World Store) : Prop :=
  let kept := filter passed (eval_losses (log w)) in
  checkpoints (log w) = improving_epochs kept
  /\ writes (log w) = (2 * List.length (checkpoints (log w)))%nat.

(** What the driver loop maintains as long as it runs: the watermark is
    the minimum of +inf and the evaluation losses that passed the
    instability check, and the checkpoints are complete. *)
Definition watermark_invariant {Store : Type} (w : World Store) : Prop :=
  let kept := filter passed (eval_losses (log w)) in
  is_nan (best w) = false
  /\ is_minimum (best w) (map snd kept)
  /\ checkpoints_complete w.

(** A checkpoint that a failing write has cut short, at the end of a run
    that stopped with the exception [e]: the last thing in the log is
    'SAVING EPOCH epoch', when the write of the optimizer state raised
    [e], or the optimizer state written alone, when the write of the
    weights raised [e].  The epoch improves on the earlier ones and has
    no checkpoint. *)
Definition checkpoint_interrupted {Store : Type} (env : Env Store)
  (e : exn) (w : World Store) : Prop :=
  let kept := filter passed (eval_losses (log w)) in
  exists epoch rest,
    improving_epochs kept = epoch :: checkpoints (log w)
    /\ ((optimizer_save env "rgbd_pvae_optimizer_state.save" (store w)
         = Raise e
         /\ log w = EPrintSaving epoch :: rest
         /\ writes (log w) = (2 * List.length (checkpoints (log w)))%nat)
        \/ (optimizer_save env "rgbd_pvae_optimizer_state.save" (store w)
            = Ok tt
            /\ torch_save env "rgbd_pvae_torch_weights.save" (store w)
               = Raise e
            /\ log w
               = EOptimizerSave "rgbd_pvae_optimizer_state.save" (store w)
                 :: EPrintSaving epoch :: rest
            /\ writes (log w)
               = S (2 * List.length (checkpoints (log w))))).

(** The same with the watermark, which the script lowers before it
    writes. *)
Definition interrupted_invariant {Store : Type} (env : Env Store)
  (e : exn) (w : World Store) : Prop :=
  let kept := filter passed (eval_losses (log w)) in
  is_nan (best w) = false
  /\ is_minimum (best w) (map snd kept)
  /\ (checkpoints_complete w \/ checkpoint_interrupted env e w).

(** The calls [f] of the SVI object on the minibatches [xs], in order
    from the store [s], up to the first one that raises: the losses
    returned, the store at the end and the exception, if any. *)
Fixpoint run_calls {Store : Type}
  (f : Tensor -> Store -> result float * Store) (xs : list Tensor)
  (s : Store) : list float * Store * option exn :=
  match xs with
  | [] => ([], s, None)
  | x :: xs' =>
      match f x s with
      | (Ok l, s') =>
          let '(ls, s'', e) := run_calls f xs' s' in (l :: ls, s'', e)
      | (Raise e, s') => ([], s', Some e)
      end
  end.

(** [w] with another store and another log. *)
Definition with_store_log {Store : Type} (w : World Store) (s : Store)
  (l : list (event Store)) : World Store :=
  mkWorld s (best w) (train_elbo w) (test_elbo w) l.

(** Every write of the weights comes right after a write of the
    optimizer state, both from one store, to the two paths of the
    script; and the optimizer state is not written alone. *)
Fixpoint well_saved {Store : Type} (log : list (event Store)) : Prop :=
  match log with
  | [] => True
  | ETorchSave f2 s2 :: rest =>
      match rest with
      | EOptimizerSave f1 s1 :: rest' =>
          s1 = s2
          /\ f1 = "rgbd_pvae_optimizer_state.save"%string
          /\ f2 = "rgbd_pvae_torch_weights.save"%string
          /\ well_saved rest'
      | _ => False
      end
  | EOptimizerSave _ _ :: _ => False
  | _ :: rest => well_saved rest
  end.

End Spec.

(* ------------------------------------------------------------------ *)
(** * Facts about the layers                                            *)
(* ------------------------------------------------------------------ *)

Section LayerFacts.

Variables (k : kernel) (n c h w : Z) (d : nat -> R).

Lemma BatchNorm2d_ok (training : bool) :
  1 < n * h * w ->
  BatchNorm2d k c training (mkTensor [n; c; h; w] d)
  = Ok (mkTensor [n; c; h; w] (k (mkTensor [n; c; h; w] d))).
Proof.
  intros Hn. unfold BatchNorm2d, layer, BatchNorm2d_shape.
  cbn [tshape bind].
  replace (n * h * w =? 1) with false by (symmetry; apply Z.eqb_neq; lia).
  rewrite andb_false_r, Z.eqb_refl. reflexivity.
Qed.

Lemma Linear_ok_2 (fin fout : Z) :
  Linear k fin fout (mkTensor [n; fin] d)
  = Ok (mkTensor [n; fout] (k (mkTensor [n; fin] d))).
Proof.
  unfold Linear, layer, Linear_shape. cbn. now rewrite Z.eqb_refl.
Qed.

Lemma view_infer_4_4 (m q : Z) :
  0 < n -> m = q * 16 ->
  view [n; -1; 4; 4] (mkTensor [n; m] d) = Ok (mkTensor [n; q; 4; 4] d).
Proof.
  intros Hn ->. unfold view, view_shape. cbn.
  destruct (Z.eq_dec n (-1)) as [E|_]; [lia|]. cbn.
  destruct (Z.eq_dec 4 (-1)) as [E|_]; [lia|].
  replace (n =? -1) with false by (symmetry; apply Z.eqb_neq; lia). cbn.
  replace (n * (q * 16 * 1)) with (q * (n * 16)) by ring.
  replace (n * 16 =? 0) with false by (symmetry; apply Z.eqb_neq; lia).
  rewrite Z.mod_mul by lia. rewrite Z.div_mul by lia. reflexivity.
Qed.

Lemma view_1_1 (m : Z) :
  0 < n -> 0 < m ->
  view [n; m; 1; 1] (mkTensor [n; m] d) = Ok (mkTensor [n; m; 1; 1] d).
Proof.
  intros Hn Hm. unfold view, view_shape. cbn.
  destruct (Z.eq_dec n (-1)) as [E|_]; [lia|].
  destruct (Z.eq_dec m (-1)) as [E|_]; [lia|]. cbn.
  replace (n =? -1) with false by (symmetry; apply Z.eqb_neq; lia).
  replace (m =? -1) with false by (symmetry; apply Z.eqb_neq; lia). cbn.
  replace (m * 1) with m by ring. now rewrite Z.eqb_refl.
Qed.

End LayerFacts.

Lemma broadcast_rev_refl (l : list Z) : broadcast_rev l l = Ok l.
Proof.
  induction l as [|x l IH]; cbn; [reflexivity|].
  rewrite IH. cbn. now rewrite Z.eqb_refl.
Qed.

Lemma broadcast_shapes_refl (s : shape) : broadcast_shapes s s = Ok s.
Proof.
  unfold broadcast_shapes. rewrite broadcast_rev_refl. cbn.
  now rewrite rev_involutive.
Qed.

Lemma tadd_same_shape (a b : Tensor) :
  tshape a = tshape b ->
  tadd a b
  = Ok (mkTensor (tshape a)
          (fun i => (expand_at a (tshape a) i + expand_at b (tshape a) i)%R)).
Proof.
  intros E. unfold tadd. rewrite <- E. now rewrite broadcast_shapes_refl.
Qed.

Lemma sigmoid_fn_range (v : R) : (0 < sigmoid_fn v < 1)%R.
Proof.
  unfold sigmoid_fn. pose proof (exp_pos (- v)) as He.
  split.
  - apply Rdiv_lt_0_compat; lra.
  - apply (Rmult_lt_reg_r (1 + exp (- v))); [lra|].
    unfold Rdiv. rewrite Rmult_assoc, Rinv_l by lra. lra.
Qed.

Lemma sigmoid_range (x : Tensor) (i : nat) : (0 < tdata (sigmoid x) i < 1)%R.
Proof. cbn. apply sigmoid_fn_range. Qed.

(** One step through a network whose batch size is a variable. *)
Ltac norm_step :=
  first [ rewrite BatchNorm2d_ok by lia
        | rewrite Linear_ok_2
        | rewrite view_infer_4_4 with (q := 512) by lia
        | rewrite view_1_1 by lia
        | rewrite tadd_same_shape by reflexivity ];
  cbn.

(* ------------------------------------------------------------------ *)
(** * Shapes through the networks                                       *)
(* ------------------------------------------------------------------ *)

(** The convolutions of the Encoder of rgbd_pvae_train.py take a
    216 x 216 image to a 6 x 6 grid of 512 channels. *)
Lemma pvae_encoder_convs_216 (P : Pvae.EncoderParams) (training : bool)
  (n : Z) (d : nat -> R) :
  1 <= n ->
  exists d', Pvae.Encoder.convs P training (mkTensor [n; 4; 216; 216] d)
             = Ok (mkTensor [n; 512; 6; 6] d').
Proof.
  intros. unfold Pvae.Encoder.convs. cbn. repeat norm_step.
  eexists. reflexivity.
Qed.

(** On 128 x 128 images the same Encoder returns two (N, D) tensors. *)
Lemma pvae_encoder_128 (P : Pvae.EncoderParams) (training : bool)
  (z_dim n : Z) (d : nat -> R) :
  1 <= n ->
  exists mu log_var,
    Pvae.Encoder.forward P training z_dim (mkTensor [n; 4; 128; 128] d)
    = Ok (mu, log_var)
    /\ tshape mu = [n; z_dim] /\ tshape log_var = [n; z_dim].
Proof.
  intros. unfold Pvae.Encoder.forward, Pvae.Encoder.convs. cbn.
  repeat norm_step. do 2 eexists. split; [reflexivity|]. split; reflexivity.
Qed.

(** C3 (rgbd_pvae_train.py).  On a batch of shape (N, 4, 216, 216), N >= 1,
    the Encoder's forward pass does not return: the flattened features
    have 512 * 6 * 6 = 18432 entries per example while [fc1] and [fc2]
    take 512 * 4 ** 2 = 8192, and [fc1] raises. *)
Theorem C3_pvae_encoder_rejects_216 :
  forall (P : Pvae.EncoderParams) (training : bool) (z_dim n : Z)
         (d : nat -> R),
    1 <= n ->
    Pvae.Encoder.forward P training z_dim (mkTensor [n; 4; 216; 216] d)
    = Raise RuntimeError.
Proof.
  intros. unfold Pvae.Encoder.forward, Pvae.Encoder.convs. cbn.
  repeat norm_step. reflexivity.
Qed.

(** The configured case: a batch of 50 and a latent of 400 dimensions. *)
Lemma C3_pvae_encoder_rejects_216_witness :
  1 <= 50 /\
  Pvae.Encoder.forward Demo.pvae_encoder true 400
    (Demo.zeros [50; 4; 216; 216])
  = Raise RuntimeError.
Proof.
  split; [lia|].
  apply (C3_pvae_encoder_rejects_216 Demo.pvae_encoder true 400 50). lia.
Defined.

(** The Encoder of rgbd_vae.py returns one tensor of shape (N, 300, 2) on
    216 x 216 images; the guide splits it along the last axis. *)
Lemma vae_encoder_216 (P : Vae.EncoderParams) (n : Z) (d : nat -> R) :
  1 <= n ->
  exists d', Vae.Encoder.forward P (mkTensor [n; 4; 216; 216] d)
             = Ok (mkTensor [n; 300; 2] d').
Proof.
  intros. unfold Vae.Encoder.forward, Vae.Encoder.conv1, Vae.Encoder.convs,
    Vae.Encoder.res_blocks, Vae.Encoder.conv2, Vae.Encoder.conv3,
    Vae.ResBlock.forward.
  cbn. repeat norm_step. eexists. reflexivity.
Qed.

(** The Decoder of rgbd_vae.py takes (N, 300) to (N, 4, 216, 216). *)
Lemma vae_decoder_300 (P : Vae.DecoderParams) (n : Z) (d : nat -> R) :
  1 <= n ->
  exists d', Vae.Decoder.forward P (mkTensor [n; 300] d)
             = Ok (sigmoid (mkTensor [n; 4; 216; 216] d')).
Proof.
  intros. unfold Vae.Decoder.forward, Vae.Decoder.conv1, Vae.Decoder.conv2,
    Vae.Decoder.res_blocks, Vae.Decoder.convs, Vae.Decoder.conv3,
    Vae.ResBlock.forward.
  cbn. repeat norm_step. eexists. reflexivity.
Qed.

(* ------------------------------------------------------------------ *)
(** * Indexing, broadcasting and sums                                   *)
(* ------------------------------------------------------------------ *)

Import Spec (positive).

Lemma numel_app (a b : shape) : numel (a ++ b) = numel a * numel b.
Proof.
  unfold numel. induction a as [|x a IH]; cbn.
  - now destruct (fold_right Z.mul 1 b).
  - rewrite IH. ring.
Qed.

Lemma numel_rev (s : shape) : numel (rev s) = numel s.
Proof.
  induction s as [|x s IH]; cbn; [reflexivity|].
  rewrite numel_app, IH. unfold numel. cbn. ring.
Qed.

Lemma numel_pos (s : shape) : positive s -> 0 < numel s.
Proof.
  unfold numel. induction 1 as [|x s Hx _ IH]; cbn; [lia|]. nia.
Qed.

Lemma positive_rev (s : shape) : positive s -> positive (rev s).
Proof. apply Forall_rev. Qed.

Lemma ravel_unravel (rs : list Z) :
  positive rs ->
  forall i, 0 <= i < numel rs -> ravel_rev rs (unravel_rev rs i) = i.
Proof.
  induction 1 as [|x rs Hx Hrs IH]; intros i Hi; cbn.
  - unfold numel in Hi. cbn in Hi. lia.
  - change (fold_right Z.mul 1 (x :: rs)) with (x * numel rs) in Hi.
    unfold numel in Hi. cbn in Hi. fold (numel rs) in Hi.
    assert (Hq : 0 <= i / x < numel rs).
    { split; [apply Z.div_pos; lia|].
      apply Z.div_lt_upper_bound; lia. }
    rewrite (IH _ Hq).
    destruct (Z.eqb_spec x 1) as [->|Hne].
    + rewrite Z.div_1_r. lia.
    + pose proof (Z.div_mod i x). lia.
Qed.

(** Reading an operand at its own shape is reading its entry. *)
Lemma expand_at_same (a : Tensor) (i : nat) :
  positive (tshape a) ->
  Z.of_nat i < numel (tshape a) ->
  expand_at a (tshape a) i = tdata a i.
Proof.
  intros Hp Hi. unfold expand_at.
  rewrite ravel_unravel.
  - now rewrite Nat2Z.id.
  - now apply positive_rev.
  - rewrite numel_rev. lia.
Qed.

Lemma rsum_ext (n : nat) (f g : nat -> R) :
  (forall j, (j < n)%nat -> f j = g j) -> rsum n f = rsum n g.
Proof.
  induction n as [|n IH]; intros H; cbn; [reflexivity|].
  rewrite IH by (intros; apply H; lia). rewrite H by lia. reflexivity.
Qed.

Lemma count_occ_positive (s : shape) :
  positive s -> count_occ Z.eq_dec s (-1) = 0%nat.
Proof.
  induction 1 as [|x s Hx _ IH]; cbn; [reflexivity|].
  destruct (Z.eq_dec x (-1)); [lia|assumption].
Qed.

Lemma filter_positive (s : shape) :
  positive s -> filter (fun d => negb (d =? -1)) s = s.
Proof.
  induction 1 as [|x s Hx _ IH]; cbn; [reflexivity|].
  destruct (Z.eqb_spec x (-1)); [lia|]. cbn. now rewrite IH.
Qed.

Lemma map_positive (s : shape) (v : Z) :
  positive s -> map (fun d => if d =? -1 then v else d) s = s.
Proof.
  induction 1 as [|x s Hx _ IH]; cbn; [reflexivity|].
  destruct (Z.eqb_spec x (-1)); [lia|]. now rewrite IH.
Qed.

(** Collapsing the event axes [ev] of a tensor of shape [front ++ ev]. *)
Lemma view_collapse (front ev : shape) (d : nat -> R) :
  positive front -> positive ev ->
  view (front ++ [-1]) (mkTensor (front ++ ev) d)
  = Ok (mkTensor (front ++ [numel ev]) d).
Proof.
  intros Hf He. unfold view, view_shape. cbn [tshape].
  rewrite count_occ_app, (count_occ_positive _ Hf). cbn.
  rewrite filter_app, (filter_positive _ Hf). cbn.
  rewrite app_nil_r, !numel_app.
  pose proof (numel_pos _ Hf). pose proof (numel_pos _ He).
  destruct (Z.eqb_spec (numel front) 0) as [E|_]; [lia|]. cbn.
  rewrite Z.mul_comm, Z.mod_mul by lia. cbn.
  rewrite Z.div_mul by lia.
  rewrite map_app, (map_positive _ _ Hf). reflexivity.
Qed.

Lemma sum_rightmost_event (front ev : shape) (d : nat -> R) :
  positive front -> positive ev -> ev <> [] ->
  sum_rightmost (mkTensor (front ++ ev) d) (List.length ev)
  = Ok (mkTensor front
          (fun i => rsum (Z.to_nat (numel ev))
                      (fun j => d (i * Z.to_nat (numel ev) + j)%nat))).
Proof.
  intros Hf He Hne. unfold sum_rightmost.
  destruct (List.length ev) eqn:El.
  - destruct ev; [congruence|discriminate].
  - rewrite <- El. cbn [tshape].
    rewrite length_app, Nat.add_sub, firstn_app, Nat.sub_diag, firstn_all.
    cbn [firstn]. rewrite app_nil_r, (view_collapse _ _ _ Hf He). cbn.
    unfold sum_last. cbn [tshape].
    rewrite rev_app_distr. cbn. now rewrite rev_involutive.
Qed.

(* ------------------------------------------------------------------ *)
(** * Log-densities of events                                           *)
(* ------------------------------------------------------------------ *)

Lemma flat_index_bound (n m : Z) (i j : nat) :
  0 < n -> 0 < m -> (i < Z.to_nat n)%nat -> (j < Z.to_nat m)%nat ->
  Z.of_nat (i * Z.to_nat m + j) < n * m.
Proof. intros. nia. Qed.

Lemma site_log_prob_sum_of (s : site) (lp : Tensor) (n : Z) :
  site_log_prob s = Ok lp -> tshape lp = [n] ->
  site_log_prob_sum s = Ok (rsum (Z.to_nat n) (tdata lp)).
Proof.
  intros H Hs. unfold site_log_prob_sum. rewrite H. cbn. rewrite Hs.
  unfold numel. cbn. now rewrite Z.mul_1_r.
Qed.

(** An observation site [Bernoulli(p).to_event(k)] whose parameter and
    value have the shape [n :: ev], with [k] the number of axes of [ev]. *)
Lemma bernoulli_event_log_density (nm : string) (ps : list (string * Z))
  (p v : Tensor) (o : bool) (n : Z) (ev : shape) :
  0 < n -> positive ev -> ev <> [] ->
  tshape p = n :: ev -> tshape v = n :: ev ->
  Spec.event_log_density
    (mkSite nm (to_event (Bernoulli p) (List.length ev)) v o ps)
    n (numel ev)
    (fun k => bernoulli_logp (tdata p k) (tdata v k)).
Proof.
  intros Hn He Hne Hp Hv.
  assert (Hpos : positive (n :: ev)) by (constructor; assumption).
  assert (Hlp : site_log_prob
                  (mkSite nm (to_event (Bernoulli p) (List.length ev)) v o ps)
                = Ok (mkTensor [n]
                        (fun i => rsum (Z.to_nat (numel ev))
                           (fun j => bernoulli_logp
                              (expand_at p (n :: ev) (i * Z.to_nat (numel ev) + j))
                              (expand_at v (n :: ev) (i * Z.to_nat (numel ev) + j)))))).
  { unfold site_log_prob. cbn [fn value to_event log_prob].
    rewrite Hp, Hv, broadcast_shapes_refl. cbn [bind].
    apply (sum_rightmost_event [n] ev); [repeat constructor; lia|assumption..]. }
  eexists. split; [exact Hlp|]. split; [reflexivity|]. split.
  - intros i Hi. cbn [tdata]. apply rsum_ext. intros j Hj.
    pose proof (numel_pos _ He) as Hm.
    pose proof (flat_index_bound n (numel ev) i j Hn Hm Hi Hj) as Hb.
    rewrite <- Hp at 1. rewrite <- Hv.
    rewrite !expand_at_same; try reflexivity.
    + now rewrite Hv.
    + rewrite Hv. exact Hb.
    + now rewrite Hp.
    + rewrite Hp. exact Hb.
  - apply site_log_prob_sum_of with (1 := Hlp). reflexivity.
Qed.

(** A latent site [Normal(loc, scale).to_event(k)]. *)
Lemma normal_event_log_density (nm : string) (ps : list (string * Z))
  (loc scale v : Tensor) (o : bool) (n : Z) (ev : shape) :
  0 < n -> positive ev -> ev <> [] ->
  tshape loc = n :: ev -> tshape scale = n :: ev -> tshape v = n :: ev ->
  Spec.event_log_density
    (mkSite nm (to_event (Normal loc scale) (List.length ev)) v o ps)
    n (numel ev)
    (fun k => normal_logp (tdata loc k) (tdata scale k) (tdata v k)).
Proof.
  intros Hn He Hne Hl Hs Hv.
  assert (Hpos : positive (n :: ev)) by (constructor; assumption).
  assert (Hlp : site_log_prob
                  (mkSite nm (to_event (Normal loc scale) (List.length ev)) v o ps)
                = Ok (mkTensor [n]
                        (fun i => rsum (Z.to_nat (numel ev))
                           (fun j => normal_logp
                              (expand_at loc (n :: ev) (i * Z.to_nat (numel ev) + j))
                              (expand_at scale (n :: ev) (i * Z.to_nat (numel ev) + j))
                              (expand_at v (n :: ev) (i * Z.to_nat (numel ev) + j)))))).
  { unfold site_log_prob. cbn [fn value to_event log_prob].
    rewrite Hl, Hs, Hv, !broadcast_shapes_refl. cbn [bind].
    rewrite broadcast_shapes_refl. cbn [bind].
    apply (sum_rightmost_event [n] ev); [repeat constructor; lia|assumption..]. }
  eexists. split; [exact Hlp|]. split; [reflexivity|]. split.
  - intros i Hi. cbn [tdata]. apply rsum_ext. intros j Hj.
    pose proof (numel_pos _ He) as Hm.
    pose proof (flat_index_bound n (numel ev) i j Hn Hm Hi Hj) as Hb.
    rewrite <- Hl at 1. rewrite <- Hs at 1. rewrite <- Hv.
    rewrite !expand_at_same; try reflexivity.
    + now rewrite Hv.
    + rewrite Hv. exact Hb.
    + now rewrite Hs.
    + rewrite Hs. exact Hb.
    + now rewrite Hl.
    + rewrite Hl. exact Hb.
  - apply site_log_prob_sum_of with (1 := Hlp). reflexivity.
Qed.

(* ------------------------------------------------------------------ *)
(** * The model and the guide                                           *)
(* ------------------------------------------------------------------ *)

Lemma bind_Ok {A B : Type} (r : result A) (k : A -> result B) (b : B) :
  bind r k = Ok b -> exists a, r = Ok a /\ k a = Ok b.
Proof. destruct r as [a|e]; cbn; [eauto|discriminate]. Qed.

Lemma shape_at_0 (x : Tensor) (n : Z) (rest : shape) :
  tshape x = n :: rest -> shape_at x 0 = Ok n.
Proof. intros E. unfold shape_at. now rewrite E. Qed.

Lemma rsample_same_shape (loc scale : Tensor) (k : nat) (eps : nat -> R) :
  tshape loc = tshape scale ->
  rsample (Independent (Normal loc scale) k) eps
  = Ok (mkTensor (tshape loc)
          (fun i => (expand_at loc (tshape loc) i
                     + eps i * expand_at scale (tshape loc) i)%R)).
Proof.
  intros E. cbn. rewrite <- E. now rewrite broadcast_shapes_refl.
Qed.

(** rgbd_pvae_train.py: the value of the observation site is the batch
    the model was called on. *)
Lemma pvae_model_observes_x (vae : Pvae.VAE) (x : Tensor)
  (replayed : option Tensor) (eps : nat -> R) (sites : list site) :
  Pvae.model vae x replayed eps = Ok sites ->
  exists latent obs,
    sites = [latent; obs]
    /\ name obs = "obs"%string /\ is_observed obs = true /\ value obs = x.
Proof.
  unfold Pvae.model. intros H.
  apply bind_Ok in H as (n & _ & H).
  apply bind_Ok in H as (latent & _ & H).
  apply bind_Ok in H as (x_means & _ & H).
  apply bind_Ok in H as (obs & Hobs & H).
  injection H as <-. injection Hobs as <-.
  do 2 eexists. repeat split.
Qed.

(** C1 (rgbd_vae.py).  On the all-zero batch of one 216 x 216 image the
    model runs, and the value it passes to the observation site is the
    output of the Decoder on the latent, which is not the batch it was
    called on. *)
Theorem C1_vae_model_observes_decoder_output :
  forall (vae : Vae.VAE) (eps : nat -> R),
  exists latent obs,
    Vae.model vae (Demo.zeros [1; 4; 216; 216]) None eps = Ok [latent; obs]
    /\ name obs = "obs"%string
    /\ is_observed obs = true
    /\ Vae.Decoder.forward (Vae.decoder vae) (value latent) = Ok (value obs)
    /\ value obs <> Demo.zeros [1; 4; 216; 216].
Proof.
  intros vae eps. do 2 eexists.
  split; [unfold Vae.model; cbn; reflexivity|].
  split; [reflexivity|]. split; [reflexivity|].
  split; [cbn; reflexivity|].
  intros E. apply (f_equal (fun t => tdata t 0%nat)) in E.
  cbn [value] in E.
  match type of E with
  | tdata (sigmoid ?t) _ = _ => pose proof (sigmoid_range t 0%nat) as Hr
  end.
  rewrite E in Hr. cbn in Hr. lra.
Qed.

(** C4 (rgbd_pvae_train.py).  On a latent batch of shape (N, D), N >= 1,
    the Decoder returns a tensor of shape (N, 4, 128, 128), which is not
    (N, 4, 216, 216); every entry of it lies strictly between 0 and 1. *)
Theorem C4_pvae_decoder_returns_128 :
  forall (P : Pvae.DecoderParams) (training : bool) (z_dim n : Z)
         (d : nat -> R),
    1 <= n ->
    exists out,
      Pvae.Decoder.forward P training z_dim (mkTensor [n; z_dim] d) = Ok out
      /\ tshape out = [n; 4; 128; 128]
      /\ tshape out <> [n; 4; 216; 216]
      /\ forall i, (0 < tdata out i < 1)%R.
Proof.
  intros. unfold Pvae.Decoder.forward, Pvae.Decoder.convs.
  eexists. split; [|split; [|split]].
  - cbn. repeat norm_step. reflexivity.
  - reflexivity.
  - cbn. intros E. discriminate E.
  - intros i. apply sigmoid_range.
Qed.

(** The configured case: a batch of 50 latents of 400 dimensions. *)
Lemma C4_pvae_decoder_returns_128_witness :
  exists out,
    Pvae.Decoder.forward Demo.pvae_decoder true 400 (Demo.zeros [50; 400])
    = Ok out
    /\ tshape out = [50; 4; 128; 128]
    /\ tshape out <> [50; 4; 216; 216]
    /\ forall i, (0 < tdata out i < 1)%R.
Proof.
  apply (C4_pvae_decoder_returns_128 Demo.pvae_decoder true 400 50). lia.
Defined.

(** The Decoder of rgbd_vae.py does return (N, 4, 216, 216) with entries
    strictly between 0 and 1, on latents of its dimension 300. *)
Lemma vae_decoder_returns_216 (P : Vae.DecoderParams) (n : Z) (d : nat -> R) :
  1 <= n ->
  exists out,
    Vae.Decoder.forward P (mkTensor [n; 300] d) = Ok out
    /\ tshape out = [n; 4; 216; 216]
    /\ forall i, (0 < tdata out i < 1)%R.
Proof.
  intros Hn. destruct (vae_decoder_300 P n d Hn) as [d' Hd].
  eexists. split; [exact Hd|]. split; [reflexivity|].
  intros i. apply sigmoid_range.
Qed.

Lemma exp_half_neq (v : R) : v <> 0%R -> exp v <> exp (v / 2).
Proof.
  intros Hv E. apply exp_inv in E. lra.
Qed.

(** C2 (rgbd_pvae_train.py).  When the Encoder returns (mu, log_var) of
    shape (N, D), the guide samples from Normal(mu, exp(log_var)): the
    latent is mu + eps * exp(log_var) entry by entry.  The scale is
    positive, and it is exp(log_var), which differs from exp(log_var / 2)
    wherever log_var is not 0. *)
Theorem C2_pvae_guide_scale_is_exp_log_var :
  forall (vae : Pvae.VAE) (x : Tensor) (eps : nat -> R) (n D : Z)
         (rest : shape) (mu log_var : Tensor),
    tshape x = n :: rest -> 0 < n -> 0 < D ->
    Pvae.Encoder.forward (Pvae.encoder vae) (Pvae.training vae)
      (Pvae.z_dim vae) x = Ok (mu, log_var) ->
    tshape mu = [n; D] -> tshape log_var = [n; D] ->
    exists latent,
      Pvae.guide vae x eps = Ok [latent]
      /\ fn latent = to_event (Normal mu (texp log_var)) 1
      /\ (forall i, Z.of_nat i < n * D ->
            tdata (value latent) i
            = (tdata mu i + eps i * exp (tdata log_var i))%R)
      /\ (forall i, (0 < tdata (texp log_var) i)%R)
      /\ (forall i, tdata log_var i <> 0%R ->
            tdata (texp log_var) i <> exp (tdata log_var i / 2)).
Proof.
  intros vae x eps n D rest mu lv Hx Hn HD Henc Hmu Hlv.
  unfold Pvae.guide. rewrite (shape_at_0 _ _ _ Hx). cbn [bind].
  rewrite Henc. cbn [bind]. unfold sample.
  rewrite rsample_same_shape by (cbn; congruence). cbn [bind].
  eexists. split; [reflexivity|]. split; [reflexivity|].
  assert (Hp : positive [n; D]) by (repeat constructor; lia).
  split; [|split].
  - intros i Hi. cbn [value tdata].
    assert (Hb : Z.of_nat i < numel [n; D]) by (unfold numel; cbn; lia).
    rewrite (expand_at_same mu) by (rewrite Hmu; assumption).
    replace (tshape mu) with (tshape (texp lv)) by (cbn; congruence).
    rewrite (expand_at_same (texp lv)) by (cbn; rewrite Hlv; assumption).
    reflexivity.
  - intros i. cbn. apply exp_pos.
  - intros i Hi. cbn. now apply exp_half_neq.
Qed.

(** One 128 x 128 image, an Encoder that returns mu = 0 and log_var = 2,
    and noise 1: the latent is 0 + 1 * exp 2 in every entry. *)
Lemma C2_pvae_guide_scale_is_exp_log_var_witness :
  exists latent,
    Pvae.guide Demo.pvae (Demo.zeros [1; 4; 128; 128]) Demo.ones_noise
    = Ok [latent]
    /\ fn latent = to_event (Normal Demo.mu0 (texp Demo.log_var2)) 1
    /\ (forall i, Z.of_nat i < 1 * 400 ->
          tdata (value latent) i
          = (tdata Demo.mu0 i
             + Demo.ones_noise i * exp (tdata Demo.log_var2 i))%R)
    /\ (forall i, (0 < tdata (texp Demo.log_var2) i)%R)
    /\ (forall i, tdata Demo.log_var2 i <> 0%R ->
          tdata (texp Demo.log_var2) i <> exp (tdata Demo.log_var2 i / 2)).
Proof.
  apply (C2_pvae_guide_scale_is_exp_log_var Demo.pvae
           (Demo.zeros [1; 4; 128; 128]) Demo.ones_noise 1 400
           [4; 128; 128]);
    first [reflexivity | lia].
Defined.

(** rgbd_pvae_train.py, with validation off.  Whenever the Decoder's
    output has the shape (N, 4, H, W) of the batch and the Encoder returns
    two (N, D) tensors (which takes H = W = 128):
    the model's observation site has one log-density per example, the sum
    of the 4*H*W per-entry Bernoulli log-probabilities of that example;
    the latent site has, under the prior and under the guide, one
    log-density per example, the sum of the D per-dimension Normal
    log-probabilities; and the log-density of a site over the batch is
    the sum of the N per-example numbers. *)
Lemma pvae_event_log_densities :
  forall (vae : Pvae.VAE) (x z : Tensor) (eps : nat -> R) (n h w : Z)
         (x_means mu log_var : Tensor),
    0 < n -> 0 < h -> 0 < w -> 0 < Pvae.z_dim vae ->
    tshape x = [n; 4; h; w] ->
    tshape z = [n; Pvae.z_dim vae] ->
    Pvae.Decoder.forward (Pvae.decoder vae) (Pvae.training vae)
      (Pvae.z_dim vae) z = Ok x_means ->
    tshape x_means = [n; 4; h; w] ->
    Pvae.Encoder.forward (Pvae.encoder vae) (Pvae.training vae)
      (Pvae.z_dim vae) x = Ok (mu, log_var) ->
    tshape mu = [n; Pvae.z_dim vae] ->
    tshape log_var = [n; Pvae.z_dim vae] ->
    (exists latent obs,
        Pvae.model vae x (Some z) eps = Ok [latent; obs]
        /\ plates latent = [("data"%string, n)]
        /\ plates obs = [("data"%string, n)]
        /\ Spec.event_log_density obs n (4 * h * w)
             (fun k => bernoulli_logp (tdata x_means k) (tdata x k))
        /\ Spec.event_log_density latent n (Pvae.z_dim vae)
             (fun k => normal_logp 0 1 (tdata z k)))
    /\ (exists latent,
          Pvae.guide vae x eps = Ok [latent]
          /\ plates latent = [("data"%string, n)]
          /\ Spec.event_log_density latent n (Pvae.z_dim vae)
               (fun k => normal_logp (tdata mu k) (exp (tdata log_var k))
                           (tdata (value latent) k))).
Proof.
  intros vae x z eps n h w x_means mu lv Hn Hh Hw HD Hx Hz Hdec Hxm
    Henc Hmu Hlv.
  split.
  - unfold Pvae.model. rewrite (shape_at_0 _ _ _ Hx). cbn [bind sample].
    cbn [value]. rewrite Hdec. cbn [bind].
    do 2 eexists. split; [reflexivity|].
    split; [reflexivity|]. split; [reflexivity|]. split.
    + replace (4 * h * w) with (numel [4; h; w])
        by (unfold numel, fold_right; ring).
      apply (bernoulli_event_log_density "obs" _ x_means x true n [4; h; w]);
        try assumption; try discriminate.
      repeat constructor; lia.
    + replace (Pvae.z_dim vae) with (numel [Pvae.z_dim vae]) at 3
        by (unfold numel, fold_right; ring).
      apply (normal_event_log_density "latent" _
               (new_zeros [n; Pvae.z_dim vae]) (new_ones [n; Pvae.z_dim vae])
               z false n [Pvae.z_dim vae]);
        try assumption; try discriminate; try reflexivity.
      repeat constructor; lia.
  - unfold Pvae.guide. rewrite (shape_at_0 _ _ _ Hx). cbn [bind].
    rewrite Henc. cbn [bind]. unfold sample.
    rewrite rsample_same_shape by (cbn; congruence). cbn [bind].
    eexists. split; [reflexivity|]. split; [reflexivity|].
    replace (Pvae.z_dim vae) with (numel [Pvae.z_dim vae]) at 1
      by (unfold numel, fold_right; ring).
    apply (normal_event_log_density "latent" _ mu (texp lv) _ false n
             [Pvae.z_dim vae]);
      try assumption; try discriminate.
    repeat constructor; lia.
Qed.

(** The same holds in rgbd_vae.py, where the observed value is the
    Decoder's output itself. *)
Lemma vae_event_log_densities (vae : Vae.VAE) (x z : Tensor)
  (eps : nat -> R) (n h w : Z) (rest : shape)
  (decoded params mu log_var : Tensor) :
  0 < n -> 0 < h -> 0 < w ->
  tshape x = n :: rest ->
  tshape z = [n; Vae.z_dim vae] ->
  Vae.Decoder.forward (Vae.decoder vae) z = Ok decoded ->
  tshape decoded = [n; 4; h; w] ->
  Vae.Encoder.forward (Vae.encoder vae) x = Ok params ->
  Vae.select_axis2 params 0 = Ok mu ->
  Vae.select_axis2 params 1 = Ok log_var ->
  tshape mu = [n; Vae.z_dim vae] ->
  tshape log_var = [n; Vae.z_dim vae] ->
  (exists latent obs,
      Vae.model vae x (Some z) eps = Ok [latent; obs]
      /\ Spec.event_log_density obs n (4 * h * w)
           (fun k => bernoulli_logp (tdata decoded k) (tdata decoded k))
      /\ Spec.event_log_density latent n (Vae.z_dim vae)
           (fun k => normal_logp 0 1 (tdata z k)))
  /\ (exists latent,
        Vae.guide vae x eps = Ok [latent]
        /\ Spec.event_log_density latent n (Vae.z_dim vae)
             (fun k => normal_logp (tdata mu k) (exp (tdata log_var k))
                         (tdata (value latent) k))).
Proof.
  intros Hn Hh Hw Hx Hz Hdec Hd Henc Hs0 Hs1 Hmu Hlv.
  assert (HD : 0 < Vae.z_dim vae) by (unfold Vae.z_dim; lia).
  split.
  - unfold Vae.model. rewrite (shape_at_0 _ _ _ Hx). cbn [bind sample].
    cbn [value]. rewrite Hdec. cbn [bind].
    do 2 eexists. split; [reflexivity|]. split.
    + replace (4 * h * w) with (numel [4; h; w])
        by (unfold numel, fold_right; ring).
      apply (bernoulli_event_log_density "obs" _ decoded decoded true n
               [4; h; w]);
        try assumption; try discriminate.
      repeat constructor; lia.
    + replace (Vae.z_dim vae) with (numel [Vae.z_dim vae]) at 3
        by (unfold numel, fold_right; ring).
      apply (normal_event_log_density "latent" _
               (new_zeros [n; Vae.z_dim vae]) (new_ones [n; Vae.z_dim vae])
               z false n [Vae.z_dim vae]);
        try assumption; try discriminate; try reflexivity.
      repeat constructor; lia.
  - unfold Vae.guide. rewrite (shape_at_0 _ _ _ Hx). cbn [bind].
    rewrite Henc. cbn [bind]. rewrite Hs0. cbn [bind]. rewrite Hs1.
    cbn [bind]. unfold sample.
    rewrite rsample_same_shape by (cbn; congruence). cbn [bind].
    eexists. split; [reflexivity|].
    replace (Vae.z_dim vae) with (numel [Vae.z_dim vae]) at 1
      by (unfold numel, fold_right; ring).
    apply (normal_event_log_density "latent" _ mu (texp log_var) _ false n
             [Vae.z_dim vae]);
      try assumption; try discriminate.
    repeat constructor; lia.
Qed.

(* ------------------------------------------------------------------ *)
(** * train and evaluate                                                *)
(* ------------------------------------------------------------------ *)

(** The first minibatch of the loops of rgbd_vae.py: the unpacking, then
    the lookup of [torch.cuda.is_availabe]; one of the two raises, and
    the world is the one the function was called in. *)
Lemma vae_train_first_minibatch (Store Label : Type) (env : Env Store)
  (b : VaeScript.item Label) (rest : list (VaeScript.item Label))
  (data : list Tensor) (w : World Store) :
  VaeScript.train Store Label env (mkLoader (b :: rest) data) w
  = Fail (Spec.first_error b) w.
Proof.
  unfold VaeScript.train, Spec.first_error. cbn [batches for_each].
  unfold sbind at 1 2 3. unfold lift at 1.
  destruct (VaeScript.unpack b) as [x|e]; reflexivity.
Qed.

Lemma vae_evaluate_first_minibatch (Store Label : Type) (env : Env Store)
  (b : VaeScript.item Label) (rest : list (VaeScript.item Label))
  (data : list Tensor) (w : World Store) :
  VaeScript.evaluate Store Label env (mkLoader (b :: rest) data) w
  = Fail (Spec.first_error b) w.
Proof.
  unfold VaeScript.evaluate, Spec.first_error. cbn [batches for_each].
  unfold sbind at 1 2 3. unfold lift at 1.
  destruct (VaeScript.unpack b) as [x|e]; reflexivity.
Qed.

(** C10, as amended (rgbd_vae.py).  On a loader that yields at least one
    item, [train] and [evaluate] raise while the first item is
    processed, before any SVI step or loss evaluation, and so return no
    loss: the exception is that of the unpacking [x, _] when the item
    does not unpack into two values (a minibatch tensor on its own whose
    first axis is not 2, a tuple of another length), and otherwise the
    [AttributeError] of the lookup of [is_availabe] in [torch.cuda].  The
    world is the one they were called in. *)
Theorem C10_vae_train_evaluate_raise_at_first_item :
  forall (Store Label : Type) (env : Env Store)
         (b : VaeScript.item Label) (rest : list (VaeScript.item Label))
         (data : list Tensor) (w : World Store),
    let e := match VaeScript.unpack b with
             | Ok _ => AttributeError
             | Raise e => e
             end in
    VaeScript.train Store Label env (mkLoader (b :: rest) data) w
    = Fail e w
    /\ VaeScript.evaluate Store Label env (mkLoader (b :: rest) data) w
       = Fail e w
    /\ (e = AttributeError \/ e = ValueError \/ e = TypeError)
    /\ (forall x label, b = VaeScript.Pair x label -> e = AttributeError).
Proof.
  intros Store Label env b rest data w e.
  split; [apply vae_train_first_minibatch|].
  split; [apply vae_evaluate_first_minibatch|].
  subst e. split.
  - destruct b as [x l|[|x [|y [|z elems]]]|x]; cbn; auto.
    destruct (tshape x) as [|n sh]; cbn; auto.
    destruct (n =? 2); auto.
  - intros x label ->. reflexivity.
Qed.

(** C10, as stated, fails on a loader that yields its minibatches
    without labels: the minibatch of 50 images does not unpack into two
    values, and both functions raise the [ValueError] of the unpacking
    before they look anything up in [torch.cuda]. *)
Lemma C10_bare_minibatch_raises_ValueError :
  let w := mkWorld 0%nat inf [] [] [] in
  VaeScript.train nat unit (Demo.env_with true (Fin 1)) Demo.bare_loader w
  = Fail ValueError w
  /\ VaeScript.evaluate nat unit (Demo.env_with true (Fin 1))
       Demo.bare_loader w
     = Fail ValueError w
  /\ ValueError <> AttributeError.
Proof. repeat split; try reflexivity. discriminate. Qed.

(** On an empty loader they do return (when the dataset is not empty). *)
Lemma vae_train_empty_loader (Store Label : Type) (env : Env Store)
  (data : list Tensor) (w : World Store) :
  VaeScript.train Store Label env (mkLoader [] data) w
  = lift (fdiv_int zero (len data)) w.
Proof. reflexivity. Qed.

Lemma for_each_skip {W A B : Type} (xs : list B) (acc : A)
  (body : A -> B -> M W A) (w : W) :
  (forall a x w', body a x w' = Done a w') ->
  for_each xs acc body w = Done acc w.
Proof.
  intros H. induction xs as [|x xs IH]; cbn; [reflexivity|].
  unfold sbind. now rewrite H.
Qed.

(** C5 (rgbd_pvae_train.py).  Without a CUDA device [train] takes no SVI
    step at all: whatever the loader yields, the world is unchanged and
    the result is 0 divided by the size of the dataset. *)
Theorem C5_pvae_train_without_cuda_takes_no_step :
  forall (Store : Type)
         (step eval_loss reconstruct : Tensor -> Store -> result float * Store)
         (to_train to_eval : Store -> Store)
         (save_optimizer save_weights : string -> Store -> result unit)
         (train_loader : Loader Tensor) (w : World Store),
    PvaeScript.train Store
      (mkEnv false step eval_loss to_train to_eval reconstruct
         save_optimizer save_weights)
      train_loader w
    = lift (fdiv_int zero (len (dataset train_loader))) w.
Proof.
  intros. unfold PvaeScript.train, sbind at 1.
  rewrite for_each_skip; [reflexivity|].
  intros a x w'. reflexivity.
Qed.

(** Unfolding of the operations of a script. *)
Ltac prog_unfold :=
  unfold sbind, ret, lift, modify, gets, emit, on_store, set_best,
    train_elbo_append, test_elbo_append, call, cuda, torch_cuda_call;
  cbn.

(** With a device, the same [train] takes one SVI step per minibatch, in
    the order of the loader, as long as the steps return. *)
Lemma pvae_train_with_cuda_steps (Store : Type) (env : Env Store)
  (train_loader : Loader Tensor) (w : World Store) :
  cuda_is_available env = true ->
  (forall x s, exists l s', svi_step env x s = (Ok l, s')) ->
  log (Spec.final (PvaeScript.train Store env train_loader w))
  = rev (map EStep (batches train_loader)) ++ log w.
Proof.
  intros Hc Hs. unfold PvaeScript.train.
  match goal with |- context [for_each _ _ ?b] => set (body := b) end.
  assert (Hb : forall acc x w0,
             exists acc' w1, body acc x w0 = Done acc' w1
                             /\ log w1 = EStep x :: log w0).
  { intros acc x w0. subst body. cbn beta. rewrite Hc.
    destruct (Hs x (store w0)) as (l & s' & E).
    prog_unfold. rewrite E. do 2 eexists. split; reflexivity. }
  assert (H : forall xs acc w0,
             exists acc' w1, for_each xs acc body w0 = Done acc' w1
                             /\ log w1 = rev (map EStep xs) ++ log w0).
  { induction xs as [|x xs IH]; intros acc w0; cbn [for_each].
    - do 2 eexists. split; reflexivity.
    - destruct (Hb acc x w0) as (acc1 & w1 & E1 & L1).
      destruct (IH acc1 w1) as (acc2 & w2 & E2 & L2).
      unfold sbind. rewrite E1, E2. do 2 eexists. split; [reflexivity|].
      rewrite L2, L1. cbn. now rewrite <- app_assoc. }
  destruct (H (batches train_loader) zero w) as (acc' & w1 & E & L).
  unfold sbind. rewrite E. unfold lift.
  destruct (fdiv_int acc' _); exact L.
Qed.

(* ------------------------------------------------------------------ *)
(** * Comparisons of floats                                             *)
(* ------------------------------------------------------------------ *)

Lemma Qltb_lt (x y : Q) : Qltb x y = true <-> (x < y)%Q.
Proof.
  unfold Qltb. rewrite negb_true_iff. split.
  - intros H. apply Qnot_le_lt. intros L.
    apply Qle_bool_iff in L. congruence.
  - intros H. destruct (Qle_bool y x) eqn:E; [|reflexivity].
    apply Qle_bool_iff in E. exfalso. exact (Qlt_not_le _ _ H E).
Qed.

Lemma Qltb_ge (x y : Q) : Qltb x y = false <-> (y <= x)%Q.
Proof.
  unfold Qltb. rewrite negb_false_iff. apply Qle_bool_iff.
Qed.

Lemma flt_irrefl (a : float) : flt a a = false.
Proof.
  destruct a; cbn; try reflexivity. apply Qltb_ge. apply Qle_refl.
Qed.

Lemma flt_not_nan (a b : float) :
  flt a b = true -> Spec.is_nan a = false /\ Spec.is_nan b = false.
Proof. destruct a, b; cbn; intros; (discriminate || (split; reflexivity)). Qed.

Lemma flt_trans (a b c : float) :
  flt a b = true -> flt b c = true -> flt a c = true.
Proof.
  destruct a, b, c; cbn; intros H1 H2; try discriminate; try reflexivity.
  apply Qltb_lt in H1, H2. apply Qltb_lt. eapply Qlt_trans; eassumption.
Qed.

(** [l < b] and not [p < b], with [p] a number, give [l < p]. *)
Lemma flt_below_bound (l b p : float) :
  flt l b = true -> flt p b = false -> Spec.is_nan p = false ->
  flt l p = true.
Proof.
  destruct l, b, p; cbn; intros H1 H2 H3; try discriminate; try reflexivity.
  apply Qltb_lt in H1. apply Qltb_ge in H2. apply Qltb_lt.
  eapply Qlt_le_trans; eassumption.
Qed.

Lemma flt_inf (l b : float) : flt l b = true -> flt l inf = true.
Proof. destruct l, b; cbn; intros; (discriminate || reflexivity). Qed.

(** Comparing with the watermark is comparing with all it stands for. *)
Lemma flt_watermark (l b : float) (ls : list float) :
  Spec.is_nan b = false -> Spec.is_minimum b ls ->
  flt l b = Spec.improves l ls.
Proof.
  intros Hb [Hin Hlow]. unfold Spec.improves.
  destruct (flt l b) eqn:E; symmetry.
  - apply forallb_forall. intros p [<-|Hp].
    + cbn [Spec.is_nan inf orb]. eapply flt_inf; eassumption.
    + destruct (Spec.is_nan p) eqn:Np; [reflexivity|]. cbn.
      eapply flt_below_bound; eauto.
  - destruct (forallb _ _) eqn:F; [|reflexivity].
    rewrite forallb_forall in F.
    assert (Hb' : In b (inf :: ls)) by (destruct Hin as [->|]; cbn; auto).
    specialize (F b Hb'). rewrite Hb in F. cbn in F. congruence.
Qed.

(* ------------------------------------------------------------------ *)
(** * Quiet pieces of script                                            *)
(* ------------------------------------------------------------------ *)

Import Spec.

Section Quiet.

Context {Store : Type}.
Implicit Types (w : World Store) (ev : event Store).

Lemma extends_quietly_refl w : extends_quietly w w.
Proof. split; [reflexivity|]. exists []. split; reflexivity. Qed.

Lemma extends_quietly_trans w1 w2 w3 :
  extends_quietly w1 w2 -> extends_quietly w2 w3 -> extends_quietly w1 w3.
Proof.
  intros [B1 (e1 & L1 & Q1)] [B2 (e2 & L2 & Q2)]. split; [congruence|].
  exists (e2 ++ e1). split.
  - rewrite L2, L1. apply app_assoc.
  - rewrite forallb_app, Q1, Q2. reflexivity.
Qed.

Lemma quiet_ret {A} (a : A) : quiet_prog (ret a : M (World Store) A).
Proof. intros w. apply extends_quietly_refl. Qed.

Lemma quiet_lift {A} (r : result A) : quiet_prog (lift r : M (World Store) A).
Proof. intros w. destruct r; apply extends_quietly_refl. Qed.

Lemma quiet_bind {A B} (c : M (World Store) A) (k : A -> M (World Store) B) :
  quiet_prog c -> (forall a, quiet_prog (k a)) -> quiet_prog (sbind c k).
Proof.
  intros Hc Hk w. unfold sbind. specialize (Hc w).
  destruct (c w) as [a w1|e w1]; cbn in *; [|exact Hc].
  eapply extends_quietly_trans; [exact Hc|apply Hk].
Qed.

Lemma quiet_emit ev : quiet ev = true -> quiet_prog (emit Store ev).
Proof.
  intros Q w. split; [reflexivity|]. exists [ev]. cbn. now rewrite Q.
Qed.

Lemma quiet_on_store (f : Store -> Store) : quiet_prog (on_store Store f).
Proof. intros w. split; [reflexivity|]. exists []. split; reflexivity. Qed.

Lemma quiet_train_elbo_append (v : float) :
  quiet_prog (train_elbo_append Store v).
Proof. intros w. split; [reflexivity|]. exists []. split; reflexivity. Qed.

Lemma quiet_test_elbo_append (v : float) :
  quiet_prog (test_elbo_append Store v).
Proof. intros w. split; [reflexivity|]. exists []. split; reflexivity. Qed.

Lemma quiet_call (f : Store -> result float * Store) :
  quiet_prog (call Store f).
Proof.
  intros w. unfold call. destruct (f (store w)) as [[l|e] s]; cbn;
    (split; [reflexivity|]; exists []; split; reflexivity).
Qed.

Lemma quiet_cuda (a : bool) (x : Tensor) :
  quiet_prog (cuda a x : M (World Store) Tensor).
Proof. destruct a; [apply quiet_ret|apply quiet_lift]. Qed.

Lemma quiet_torch_cuda_call (a : bool) (attr : string) :
  quiet_prog (torch_cuda_call a attr : M (World Store) bool).
Proof.
  apply quiet_bind; [apply quiet_lift|]. intros f. apply quiet_ret.
Qed.

Lemma quiet_for_each {A B} (xs : list B) (body : A -> B -> M (World Store) A) :
  (forall a x, quiet_prog (body a x)) ->
  forall acc, quiet_prog (for_each xs acc body).
Proof.
  intros Hb. induction xs as [|x xs IH]; intros acc; cbn [for_each].
  - apply quiet_ret.
  - apply quiet_bind; [apply Hb|]. intros a. apply IH.
Qed.

Variable env : Env Store.

Lemma quiet_train (train_loader : Loader Tensor) :
  quiet_prog (PvaeScript.train Store env train_loader).
Proof.
  unfold PvaeScript.train. apply quiet_bind; [|intros; apply quiet_lift].
  apply quiet_for_each. intros a x.
  apply quiet_bind; [apply quiet_torch_cuda_call|]. intros [|];
    [|apply quiet_ret].
  apply quiet_bind; [apply quiet_cuda|]. intros x'.
  apply quiet_bind; [now apply quiet_emit|]. intros _.
  apply quiet_bind; [apply quiet_call|]. intros l. apply quiet_ret.
Qed.

Lemma quiet_evaluate (test_loader : Loader Tensor) :
  quiet_prog (PvaeScript.evaluate Store env test_loader).
Proof.
  unfold PvaeScript.evaluate. apply quiet_bind; [|intros; apply quiet_lift].
  apply quiet_for_each. intros a x.
  apply quiet_bind; [apply quiet_torch_cuda_call|]. intros c.
  apply quiet_bind; [destruct c; [apply quiet_cuda|apply quiet_ret]|].
  intros x'.
  apply quiet_bind; [now apply quiet_emit|]. intros _.
  apply quiet_bind; [apply quiet_call|]. intros l. apply quiet_ret.
Qed.

Lemma quiet_visualise (test_loader : Loader Tensor) :
  quiet_prog (PvaeScript.visualise Store env test_loader).
Proof.
  unfold PvaeScript.visualise.
  apply quiet_bind; [apply quiet_lift|]. intros x0.
  apply quiet_bind; [apply quiet_cuda|]. intros x'.
  apply quiet_bind; [apply quiet_call|]. intros _.
  now apply quiet_emit.
Qed.

End Quiet.

(* ------------------------------------------------------------------ *)
(** * The watermark and the checkpoints                                 *)
(* ------------------------------------------------------------------ *)

Section Watermark.

Context {Store : Type}.
Implicit Types (w : World Store) (ev : event Store).

Lemma eval_losses_quiet (evs l : list (event Store)) :
  forallb quiet evs = true -> eval_losses (evs ++ l) = eval_losses l.
Proof.
  induction evs as [|ev evs IH]; cbn; [reflexivity|].
  intros H. apply andb_prop in H as [Q H].
  destruct ev; cbn in Q; try discriminate; now apply IH.
Qed.

Lemma checkpoints_quiet (evs l : list (event Store)) :
  forallb quiet evs = true -> checkpoints (evs ++ l) = checkpoints l.
Proof.
  induction evs as [|ev evs IH]; cbn [app forallb]; [reflexivity|].
  intros H. apply andb_prop in H as [Q H].
  destruct ev; cbn in Q; try discriminate; cbn; now apply IH.
Qed.

Lemma writes_quiet (evs l : list (event Store)) :
  forallb quiet evs = true -> writes (evs ++ l) = writes l.
Proof.
  induction evs as [|ev evs IH]; cbn [app forallb]; [reflexivity|].
  intros H. apply andb_prop in H as [Q H].
  destruct ev; cbn in Q; try discriminate; cbn; now apply IH.
Qed.

Lemma watermark_invariant_quiet w w' :
  extends_quietly w w' -> watermark_invariant w -> watermark_invariant w'.
Proof.
  intros [B (evs & L & Q)]. unfold watermark_invariant, checkpoints_complete.
  rewrite B, L, eval_losses_quiet, checkpoints_quiet, writes_quiet
    by assumption.
  trivial.
Qed.

(** A loss that passes the check and is below the watermark becomes the
    watermark, and its epoch improves on the earlier ones. *)
Lemma watermark_lowered w (epoch : Z) (l : float) :
  flt l zero = false -> flt l (best w) = true ->
  watermark_invariant w ->
  let kept := filter passed (eval_losses (log w)) in
  passed (epoch, l) = true
  /\ is_nan l = false
  /\ is_minimum l (l :: map snd kept)
  /\ improves l (map snd kept) = true.
Proof.
  intros Hpos Hlt (Hnan & Hmin & _) kept.
  split; [unfold passed; cbn; now rewrite Hpos|].
  destruct (flt_not_nan _ _ Hlt) as [Hl _].
  split; [exact Hl|]. split.
  - split; [right; left; reflexivity|].
    intros p [<-|Hp]; [apply flt_irrefl|].
    destruct Hmin as [_ Hlow]. specialize (Hlow p Hp).
    destruct (flt p l) eqn:E; [|reflexivity].
    rewrite (flt_trans _ _ _ E Hlt) in Hlow. discriminate.
  - now rewrite <- (flt_watermark l (best w)).
Qed.

(** A negative evaluation loss: the report and nothing else. *)
Lemma invariant_after_negative w (epoch : Z) (l : float) :
  flt l zero = true ->
  watermark_invariant w ->
  watermark_invariant
    (mkWorld (store w) (best w) (train_elbo w) (test_elbo w)
       (EPrintNegative l :: EPrintTest epoch l :: log w)).
Proof.
  intros Hneg.
  assert (Hp : passed (epoch, l) = false)
    by (unfold passed; cbn; now rewrite Hneg).
  unfold watermark_invariant, checkpoints_complete. cbn. rewrite Hp. trivial.
Qed.

(** A loss that passes the check and is below the watermark, when both
    files are written. *)
Lemma invariant_after_checkpoint w (epoch : Z) (l : float)
  (f1 f2 : string) (s1 s2 : Store) :
  flt l zero = false -> flt l (best w) = true ->
  watermark_invariant w ->
  watermark_invariant
    (mkWorld (store w) l (train_elbo w) (test_elbo w)
       (ETorchSave f2 s2 :: EOptimizerSave f1 s1 :: EPrintSaving epoch
        :: EPrintTest epoch l :: log w)).
Proof.
  intros Hpos Hlt Hw.
  destruct (watermark_lowered w epoch l Hpos Hlt Hw)
    as (Hpass & Hl & Hmin & Himp).
  destruct Hw as (_ & _ & Hck & Hwr).
  unfold watermark_invariant, checkpoints_complete. cbn -[improves].
  rewrite Hpass. cbn -[improves]. rewrite Himp.
  split; [exact Hl|]. split; [exact Hmin|]. split.
  - cbn. now rewrite Hck.
  - rewrite Hwr. lia.
Qed.

(** The same when the write of the optimizer state raises [e]. *)
Lemma interrupted_at_first_write (env : Env Store) w (epoch : Z)
  (l : float) (e : exn) :
  flt l zero = false -> flt l (best w) = true ->
  watermark_invariant w ->
  optimizer_save env "rgbd_pvae_optimizer_state.save" (store w) = Raise e ->
  interrupted_invariant env e
    (mkWorld (store w) l (train_elbo w) (test_elbo w)
       (EPrintSaving epoch :: EPrintTest epoch l :: log w)).
Proof.
  intros Hpos Hlt Hw Hsave.
  destruct (watermark_lowered w epoch l Hpos Hlt Hw)
    as (Hpass & Hl & Hmin & Himp).
  destruct Hw as (_ & _ & Hck & Hwr).
  unfold interrupted_invariant, checkpoint_interrupted. cbn -[improves].
  rewrite Hpass. cbn -[improves]. rewrite Himp.
  split; [exact Hl|]. split; [exact Hmin|]. right.
  exists epoch, (EPrintTest epoch l :: log w). split.
  - cbn. now rewrite Hck.
  - left. repeat split; assumption.
Qed.

(** The same when the optimizer state is written and the write of the
    weights raises [e]. *)
Lemma interrupted_at_second_write (env : Env Store) w (epoch : Z)
  (l : float) (e : exn) :
  flt l zero = false -> flt l (best w) = true ->
  watermark_invariant w ->
  optimizer_save env "rgbd_pvae_optimizer_state.save" (store w) = Ok tt ->
  torch_save env "rgbd_pvae_torch_weights.save" (store w) = Raise e ->
  interrupted_invariant env e
    (mkWorld (store w) l (train_elbo w) (test_elbo w)
       (EOptimizerSave "rgbd_pvae_optimizer_state.save" (store w)
        :: EPrintSaving epoch :: EPrintTest epoch l :: log w)).
Proof.
  intros Hpos Hlt Hw Hopt Hsave.
  destruct (watermark_lowered w epoch l Hpos Hlt Hw)
    as (Hpass & Hl & Hmin & Himp).
  destruct Hw as (_ & _ & Hck & Hwr).
  unfold interrupted_invariant, checkpoint_interrupted. cbn -[improves].
  rewrite Hpass. cbn -[improves]. rewrite Himp.
  split; [exact Hl|]. split; [exact Hmin|]. right.
  exists epoch, (EPrintTest epoch l :: log w). split.
  - cbn. now rewrite Hck.
  - right. repeat split; try assumption. now rewrite Hwr.
Qed.

(** A loss that passes the check and is not below the watermark. *)
Lemma invariant_after_no_checkpoint w (epoch : Z) (l : float) :
  flt l zero = false -> flt l (best w) = false ->
  watermark_invariant w ->
  watermark_invariant
    (mkWorld (store w) (best w) (train_elbo w) (test_elbo w)
       (EPrintTest epoch l :: log w)).
Proof.
  intros Hpos Hlt (Hnan & Hmin & Hck & Hwr).
  assert (Hpass : passed (epoch, l) = true)
    by (unfold passed; cbn; now rewrite Hpos).
  unfold watermark_invariant, checkpoints_complete. cbn -[improves].
  rewrite Hpass. cbn -[improves].
  rewrite <- (flt_watermark l (best w)), Hlt by assumption.
  split; [exact Hnan|]. split; [|split].
  - destruct Hmin as [Hin Hlow]. split.
    + destruct Hin as [->|Hin]; [now left|right; now right].
    + intros p [<-|Hp]; [exact Hlt|now apply Hlow].
  - exact Hck.
  - exact Hwr.
Qed.

End Watermark.

(* ------------------------------------------------------------------ *)
(** * The epoch loop                                                    *)
(* ------------------------------------------------------------------ *)

(** What the loop maintains, from what the five ways through the body of
    an evaluation epoch maintain: [I] as long as the loop runs, and
    [J e] where a write raises [e]. *)
Section LoopInvariants.

Variable Store : Type.
Variable env : Env Store.
Variable train_loader test_loader : Loader Tensor.
Variable I : World Store -> Prop.
Variable J : exn -> World Store -> Prop.

Hypothesis I_quiet : forall w w', extends_quietly w w' -> I w -> I w'.

Hypothesis I_J : forall e w, I w -> J e w.

Hypothesis I_negative :
  forall w epoch l,
    epoch mod PvaeScript.TEST_FREQUENCY = 0 -> flt l zero = true -> I w ->
    I (mkWorld (store w) (best w) (train_elbo w) (test_elbo w)
         (EPrintNegative l :: EPrintTest epoch l :: log w)).

Hypothesis I_checkpoint :
  forall w epoch l,
    epoch mod PvaeScript.TEST_FREQUENCY = 0 ->
    flt l zero = false -> flt l (best w) = true -> I w ->
    I (mkWorld (store w) l (train_elbo w) (test_elbo w)
         (ETorchSave "rgbd_pvae_torch_weights.save" (store w)
          :: EOptimizerSave "rgbd_pvae_optimizer_state.save" (store w)
          :: EPrintSaving epoch :: EPrintTest epoch l :: log w)).

Hypothesis I_no_checkpoint :
  forall w epoch l,
    epoch mod PvaeScript.TEST_FREQUENCY = 0 ->
    flt l zero = false -> flt l (best w) = false -> I w ->
    I (mkWorld (store w) (best w) (train_elbo w) (test_elbo w)
         (EPrintTest epoch l :: log w)).

Hypothesis J_first_write :
  forall w epoch l e,
    epoch mod PvaeScript.TEST_FREQUENCY = 0 ->
    flt l zero = false -> flt l (best w) = true -> I w ->
    optimizer_save env "rgbd_pvae_optimizer_state.save" (store w)
    = Raise e ->
    J e (mkWorld (store w) l (train_elbo w) (test_elbo w)
           (EPrintSaving epoch :: EPrintTest epoch l :: log w)).

Hypothesis J_second_write :
  forall w epoch l e,
    epoch mod PvaeScript.TEST_FREQUENCY = 0 ->
    flt l zero = false -> flt l (best w) = true -> I w ->
    optimizer_save env "rgbd_pvae_optimizer_state.save" (store w)
    = Ok tt ->
    torch_save env "rgbd_pvae_torch_weights.save" (store w) = Raise e ->
    J e (mkWorld (store w) l (train_elbo w) (test_elbo w)
           (EOptimizerSave "rgbd_pvae_optimizer_state.save" (store w)
            :: EPrintSaving epoch :: EPrintTest epoch l :: log w)).

Lemma maintains_or_bind {A B} (c : M (World Store) A)
  (k : A -> M (World Store) B) :
  maintains_or I J c -> (forall a, maintains_or I J (k a)) ->
  maintains_or I J (sbind c k).
Proof.
  intros Hc Hk w Hw. unfold sbind. specialize (Hc w Hw).
  destruct (c w) as [a w1|e w1]; cbn in *; [|exact Hc].
  now apply Hk.
Qed.

Lemma quiet_maintains_or {A} (c : M (World Store) A) :
  quiet_prog c -> maintains_or I J c.
Proof.
  intros Q w Hw. specialize (Q w).
  destruct (c w) as [a w1|e w1]; cbn in *.
  - now apply (I_quiet w).
  - apply I_J. now apply (I_quiet w).
Qed.

(** The checkpoint of an epoch: the report, the watermark, and the two
    writes, of which the first that raises ends the run. *)
Lemma save_block (epoch : Z) (l : float) (w : World Store) :
  let saved evs := mkWorld (store w) l (train_elbo w) (test_elbo w)
                     (evs ++ EPrintSaving epoch :: log w) in
  sbind (emit Store (EPrintSaving epoch))
    (fun _ =>
       sbind (set_best Store l)
         (fun _ =>
            sbind (gets (@store Store))
              (fun s =>
                 sbind
                   (write_file
                      (optimizer_save env "rgbd_pvae_optimizer_state.save" s)
                      (EOptimizerSave "rgbd_pvae_optimizer_state.save" s))
                   (fun _ =>
                      write_file
                        (torch_save env "rgbd_pvae_torch_weights.save" s)
                        (ETorchSave "rgbd_pvae_torch_weights.save" s)))))
    w
  = match optimizer_save env "rgbd_pvae_optimizer_state.save" (store w) with
    | Raise e => Fail e (saved [])
    | Ok _ =>
        match torch_save env "rgbd_pvae_torch_weights.save" (store w) with
        | Raise e =>
            Fail e
              (saved [EOptimizerSave "rgbd_pvae_optimizer_state.save"
                        (store w)])
        | Ok _ =>
            Done tt
              (saved [ETorchSave "rgbd_pvae_torch_weights.save" (store w);
                      EOptimizerSave "rgbd_pvae_optimizer_state.save"
                        (store w)])
        end
    end.
Proof.
  cbn zeta. unfold write_file, sbind, emit, set_best, gets, modify, lift.
  cbn [store best train_elbo test_elbo log app].
  destruct (optimizer_save env _ (store w)) as [u|e]; [|reflexivity].
  destruct (torch_save env _ (store w)) as [u'|e]; reflexivity.
Qed.

Lemma epoch_body_maintains_or (epoch : Z) :
  maintains_or I J
    (PvaeScript.epoch_body Store env train_loader test_loader epoch).
Proof.
  unfold PvaeScript.epoch_body.
  apply maintains_or_bind; [apply quiet_maintains_or, quiet_train|].
  intros lt.
  apply maintains_or_bind;
    [apply quiet_maintains_or, quiet_train_elbo_append|]. intros _.
  apply maintains_or_bind; [now apply quiet_maintains_or, quiet_emit|].
  intros _.
  destruct (Z.eqb_spec (epoch mod PvaeScript.TEST_FREQUENCY) 0) as [He|_];
    [|apply quiet_maintains_or, quiet_ret].
  apply maintains_or_bind; [apply quiet_maintains_or, quiet_on_store|].
  intros _.
  apply maintains_or_bind; [apply quiet_maintains_or, quiet_evaluate|].
  intros l.
  apply maintains_or_bind; [apply quiet_maintains_or, quiet_on_store|].
  intros _.
  apply maintains_or_bind;
    [apply quiet_maintains_or, quiet_test_elbo_append|]. intros _.
  intros w Hw. unfold sbind at 1. unfold emit at 1, modify at 1.
  destruct (flt l zero) eqn:Hz.
  - cbn. now apply I_negative.
  - unfold sbind at 1, gets. cbn [best].
    destruct (flt l (best w)) eqn:Hb.
    + unfold sbind at 1. rewrite save_block.
      cbn [store best train_elbo test_elbo log app].
      destruct (optimizer_save env _ (store w)) as [[]|e] eqn:E1;
        [|now apply J_first_write].
      destruct (torch_save env _ (store w)) as [[]|e] eqn:E2;
        [|now apply J_second_write].
      apply (maintains_or_bind (PvaeScript.visualise Store env test_loader)
               (fun _ => ret PvaeScript.Next)).
      * apply quiet_maintains_or, quiet_visualise.
      * intros _. apply quiet_maintains_or, quiet_ret.
      * now apply I_checkpoint.
    + cbn -[PvaeScript.visualise].
      apply (maintains_or_bind (PvaeScript.visualise Store env test_loader)
               (fun _ => ret PvaeScript.Next)).
      * apply quiet_maintains_or, quiet_visualise.
      * intros _. apply quiet_maintains_or, quiet_ret.
      * now apply I_no_checkpoint.
Qed.

Lemma for_epochs_maintains_or (epochs : list Z) :
  maintains_or I J
    (PvaeScript.for_epochs Store env train_loader test_loader epochs).
Proof.
  induction epochs as [|epoch rest IH]; cbn.
  - apply quiet_maintains_or, quiet_ret.
  - apply maintains_or_bind; [apply epoch_body_maintains_or|].
    intros [|]; [exact IH|apply quiet_maintains_or, quiet_ret].
Qed.

End LoopInvariants.

(** The same for a property that holds wherever the loop stops. *)
Lemma for_epochs_maintains_any (Store : Type) (env : Env Store)
  (train_loader test_loader : Loader Tensor) (I : World Store -> Prop) :
  (forall w w', extends_quietly w w' -> I w -> I w') ->
  (forall w epoch l,
     epoch mod PvaeScript.TEST_FREQUENCY = 0 -> flt l zero = true -> I w ->
     I (mkWorld (store w) (best w) (train_elbo w) (test_elbo w)
          (EPrintNegative l :: EPrintTest epoch l :: log w))) ->
  (forall w epoch l,
     epoch mod PvaeScript.TEST_FREQUENCY = 0 ->
     flt l zero = false -> flt l (best w) = true -> I w ->
     I (mkWorld (store w) l (train_elbo w) (test_elbo w)
          (EPrintSaving epoch :: EPrintTest epoch l :: log w))
     /\ I (mkWorld (store w) l (train_elbo w) (test_elbo w)
            (EOptimizerSave "rgbd_pvae_optimizer_state.save" (store w)
             :: EPrintSaving epoch :: EPrintTest epoch l :: log w))
     /\ I (mkWorld (store w) l (train_elbo w) (test_elbo w)
            (ETorchSave "rgbd_pvae_torch_weights.save" (store w)
             :: EOptimizerSave "rgbd_pvae_optimizer_state.save" (store w)
             :: EPrintSaving epoch :: EPrintTest epoch l :: log w))) ->
  (forall w epoch l,
     epoch mod PvaeScript.TEST_FREQUENCY = 0 ->
     flt l zero = false -> flt l (best w) = false -> I w ->
     I (mkWorld (store w) (best w) (train_elbo w) (test_elbo w)
          (EPrintTest epoch l :: log w))) ->
  forall (epochs : list Z) (w : World Store),
    I w ->
    I (final (PvaeScript.for_epochs Store env train_loader test_loader
                epochs w)).
Proof.
  intros Hq Hneg Hck Hno epochs w Hw.
  pose proof (for_epochs_maintains_or Store env train_loader test_loader
                I (fun _ => I) Hq (fun _ _ H => H) Hneg) as H.
  specialize (H (fun w0 ep l He Hz Hb H0 =>
                   proj2 (proj2 (Hck w0 ep l He Hz Hb H0))) Hno).
  specialize (H (fun w0 ep l e He Hz Hb H0 _ =>
                   proj1 (Hck w0 ep l He Hz Hb H0))).
  specialize (H (fun w0 ep l e He Hz Hb H0 _ _ =>
                   proj1 (proj2 (Hck w0 ep l He Hz Hb H0)))).
  specialize (H epochs w Hw).
  destruct (PvaeScript.for_epochs _ _ _ _ _ _); exact H.
Qed.

Lemma initial_invariant (Store : Type) (env : Env Store) (s : Store) :
  watermark_invariant (PvaeScript.initial Store env s).
Proof.
  unfold watermark_invariant, checkpoints_complete. cbn.
  repeat split; auto.
  intros l [].
Qed.

Lemma for_epochs_watermark (Store : Type) (env : Env Store)
  (train_loader test_loader : Loader Tensor) (epochs : list Z) :
  maintains_or watermark_invariant (interrupted_invariant env)
    (PvaeScript.for_epochs Store env train_loader test_loader epochs).
Proof.
  apply for_epochs_maintains_or.
  - intros w w'. apply watermark_invariant_quiet.
  - intros e w (Hnan & Hmin & Hc).
    split; [exact Hnan|]. split; [exact Hmin|]. now left.
  - intros w epoch l _. apply invariant_after_negative.
  - intros w epoch l _. apply invariant_after_checkpoint.
  - intros w epoch l _. apply invariant_after_no_checkpoint.
  - intros w epoch l e _. apply interrupted_at_first_write.
  - intros w epoch l e _. apply interrupted_at_second_write.
Qed.

(** C7, as amended (rgbd_pvae_train.py).  However the epoch loop runs
    and wherever it stops, the watermark [best] is the minimum of +inf
    and the evaluation losses reported so far that passed the instability
    check.  The checkpoints (optimizer state and weights of both
    networks, written together) are at exactly the epochs whose
    evaluation loss passed the check and is strictly lower than +inf and
    than every earlier such loss that is a number, and no file is written
    at any other epoch, with one exception: a run that a failing write
    has stopped, where the last such epoch has its 'SAVING EPOCH' line
    and the lowered watermark, but no checkpoint (no file, or the
    optimizer state alone).  When no write raises there is no
    exception. *)
Theorem C7_watermark_and_checkpoints :
  forall (Store : Type) (env : Env Store)
         (train_loader test_loader : Loader Tensor)
         (epochs : list Z) (s : Store),
    let o := PvaeScript.for_epochs Store env train_loader test_loader
               epochs (PvaeScript.initial Store env s) in
    let w := final o in
    let kept := filter passed (eval_losses (log w)) in
    is_minimum (best w) (map snd kept)
    /\ (checkpoints (log w) = improving_epochs kept
        /\ writes (log w) = (2 * List.length (checkpoints (log w)))%nat
        \/ exists e, o = Fail e w /\ checkpoint_interrupted env e w)
    /\ ((forall f st, optimizer_save env f st = Ok tt) ->
        (forall f st, torch_save env f st = Ok tt) ->
        checkpoints (log w) = improving_epochs kept
        /\ writes (log w) = (2 * List.length (checkpoints (log w)))%nat).
Proof.
  intros Store env train_loader test_loader epochs s o.
  pose proof (for_epochs_watermark Store env train_loader test_loader
                epochs (PvaeScript.initial Store env s)
                (initial_invariant Store env s)) as H.
  fold o in H. clearbody o.
  destruct o as [u w|e w]; cbn [final ends_in] in *.
  - destruct H as (_ & Hmin & Hc). split; [exact Hmin|].
    split; [left; exact Hc|]. intros _ _. exact Hc.
  - destruct H as (_ & Hmin & [Hc|Hi]).
    + split; [exact Hmin|]. split; [left; exact Hc|]. intros _ _. exact Hc.
    + split; [exact Hmin|]. split; [right; exists e; now split|].
      intros H1 H2. exfalso.
      destruct Hi as (epoch & rest & _ & [(E & _)|(_ & E & _)]).
      * rewrite H1 in E. discriminate.
      * rewrite H2 in E. discriminate.
Qed.

(** A run of six epochs in which every write succeeds. *)
Lemma C7_watermark_and_checkpoints_witness :
  let w := final (PvaeScript.for_epochs nat (Demo.env_with true (Fin 5))
                    Demo.loader Demo.loader (range 6)
                    (PvaeScript.initial nat (Demo.env_with true (Fin 5))
                       0%nat)) in
  checkpoints (log w)
  = improving_epochs (filter passed (eval_losses (log w)))
  /\ writes (log w) = (2 * List.length (checkpoints (log w)))%nat.
Proof.
  apply (C7_watermark_and_checkpoints nat (Demo.env_with true (Fin 5))
           Demo.loader Demo.loader (range 6) 0%nat);
    intros f st; reflexivity.
Defined.

(** A run in which the weights cannot be written: it stops in epoch 0
    with the watermark lowered to the loss of that epoch and the
    optimizer state written alone. *)
Lemma failing_write_interrupts_checkpoint :
  PvaeScript.for_epochs nat Demo.env_disk_full Demo.loader Demo.loader
    (range 6) (PvaeScript.initial nat Demo.env_disk_full 0%nat)
  = Fail OSError
      (mkWorld 1%nat (Fin 5) [Fin (-1)] [Fin (-5)]
         [EOptimizerSave "rgbd_pvae_optimizer_state.save" 1%nat;
          EPrintSaving 0; EPrintTest 0 (Fin 5);
          EEvaluateLoss Demo.batch; EPrintTrain 0 (Fin 1);
          EStep Demo.batch]).
Proof. reflexivity. Qed.

(** C6, as amended (rgbd_pvae_train.py).  At an evaluation epoch, when
    training returns and the evaluation returns a loss below zero, the
    loop ends there: the loss is printed, the anomaly is reported, and
    the remaining epochs are not run; the watermark is not touched and
    nothing is saved. *)
Theorem C6_negative_loss_ends_loop :
  forall (Store : Type) (env : Env Store)
         (train_loader test_loader : Loader Tensor)
         (epoch : Z) (rest : list Z) (w w1 w2 : World Store)
         (loss_train loss_test : float),
    epoch mod PvaeScript.TEST_FREQUENCY = 0 ->
    PvaeScript.train Store env train_loader w = Done loss_train w1 ->
    PvaeScript.evaluate Store env test_loader
      (mkWorld (vae_eval env (store w1)) (best w1)
         (train_elbo w1 ++ [fneg loss_train]) (test_elbo w1)
         (EPrintTrain epoch loss_train :: log w1))
    = Done loss_test w2 ->
    flt loss_test zero = true ->
    PvaeScript.for_epochs Store env train_loader test_loader
      (epoch :: rest) w
    = Done tt
        (mkWorld (vae_train env (store w2)) (best w2) (train_elbo w2)
           (test_elbo w2 ++ [fneg loss_test])
           (EPrintNegative loss_test :: EPrintTest epoch loss_test
            :: log w2)).
Proof.
  intros Store env train_loader test_loader epoch rest w w1 w2 lt l
    Hep Htrain Heval Hneg.
  cbn [PvaeScript.for_epochs]. unfold PvaeScript.epoch_body.
  unfold sbind at 1 2. rewrite Htrain.
  unfold sbind at 1. unfold train_elbo_append at 1, modify at 1.
  unfold sbind at 1. unfold emit at 1, modify at 1.
  rewrite Hep. cbn [Z.eqb].
  unfold sbind at 1. unfold on_store at 1, modify at 1.
  unfold sbind at 1. cbn [store best train_elbo test_elbo log].
  rewrite Heval.
  unfold sbind at 1. unfold on_store at 1, modify at 1.
  unfold sbind at 1. unfold test_elbo_append at 1, modify at 1.
  unfold sbind at 1. unfold emit at 1, modify at 1.
  rewrite Hneg. reflexivity.
Qed.

(** An evaluation loss of -1 in epoch 0: one step, one evaluation, the
    report, and epochs 1 to 5 are not run. *)
Lemma C6_negative_loss_ends_loop_witness :
  PvaeScript.for_epochs nat (Demo.env_with true (Fin (-1)))
    Demo.loader Demo.loader (0 :: [1; 2; 3; 4; 5])
    (PvaeScript.initial nat (Demo.env_with true (Fin (-1))) 0%nat)
  = Done tt
      (mkWorld 1%nat inf [Fin (-1)] [Fin 1]
         [EPrintNegative (Fin (-1)); EPrintTest 0 (Fin (-1));
          EEvaluateLoss Demo.batch; EPrintTrain 0 (Fin 1);
          EStep Demo.batch]).
Proof.
  apply (C6_negative_loss_ends_loop nat (Demo.env_with true (Fin (-1)))
           Demo.loader Demo.loader 0 [1; 2; 3; 4; 5]
           (PvaeScript.initial nat (Demo.env_with true (Fin (-1))) 0%nat)
           (mkWorld 1%nat inf [] [] [EStep Demo.batch])
           (mkWorld 1%nat inf [Fin (-1)] []
              [EEvaluateLoss Demo.batch; EPrintTrain 0 (Fin 1);
               EStep Demo.batch])
           (Fin 1) (Fin (-1)));
    reflexivity.
Defined.

(** C6, as stated, fails on an evaluation loss that is NaN: the loss is
    printed, no anomaly is reported, and the loop goes on to train in
    the next epoch. *)
Lemma C6_nan_loss_does_not_end_loop :
  PvaeScript.for_epochs nat (Demo.env_with true NaN)
    Demo.loader Demo.loader [0; 1]
    (PvaeScript.initial nat (Demo.env_with true NaN) 0%nat)
  = Done tt
      (mkWorld 2%nat inf [Fin (-1); Fin (-1)] [NaN]
         [EPrintTrain 1 (Fin 1); EStep Demo.batch;
          ESavefig "test.png"; EPrintTest 0 NaN;
          EEvaluateLoss Demo.batch; EPrintTrain 0 (Fin 1);
          EStep Demo.batch]).
Proof. reflexivity. Qed.

(** The same with an evaluation loss of +inf. *)
Lemma pinf_loss_does_not_end_loop :
  PvaeScript.for_epochs nat (Demo.env_with true PInf)
    Demo.loader Demo.loader [0; 1]
    (PvaeScript.initial nat (Demo.env_with true PInf) 0%nat)
  = Done tt
      (mkWorld 2%nat inf [Fin (-1); Fin (-1)] [NInf]
         [EPrintTrain 1 (Fin 1); EStep Demo.batch;
          ESavefig "test.png"; EPrintTest 0 PInf;
          EEvaluateLoss Demo.batch; EPrintTrain 0 (Fin 1);
          EStep Demo.batch]).
Proof. reflexivity. Qed.

(** C7, as stated, fails when a negative evaluation loss ends the loop:
    the loss of epoch 5 is lower than that of epoch 0, yet the watermark
    stays at the loss of epoch 0 and epoch 5 has no checkpoint. *)
Lemma C7_negative_loss_is_not_recorded :
  let w := final (PvaeScript.for_epochs nat Demo.env_falling
                    Demo.loader Demo.loader (range 6)
                    (PvaeScript.initial nat Demo.env_falling 0%nat)) in
  eval_losses (log w) = [(5, Fin (-1)); (0, Fin 5)]
  /\ best w = Fin 5
  /\ checkpoints (log w) = [0]
  /\ improving_epochs (eval_losses (log w)) = [5; 0]
  /\ ~ is_minimum (best w) (map snd (eval_losses (log w))).
Proof.
  intros w.
  assert (E1 : eval_losses (log w) = [(5, Fin (-1)); (0, Fin 5)])
    by reflexivity.
  assert (E2 : best w = Fin 5) by reflexivity.
  assert (E3 : checkpoints (log w) = [0]) by reflexivity.
  rewrite E1, E2, E3. clearbody w.
  repeat split; try reflexivity.
  intros [_ H]. cbn [map snd] in H.
  specialize (H (Fin (-1)) (or_introl eq_refl)). discriminate H.
Qed.

(** The two runs of [train] on one minibatch: without a device nothing is
    done and the loss is 0; with a device one step is taken. *)
Lemma pvae_train_demo_without_cuda :
  PvaeScript.train nat (Demo.env_with false (Fin 1)) Demo.loader
    (mkWorld 0%nat inf [] [] [])
  = Done (Fin 0) (mkWorld 0%nat inf [] [] []).
Proof. reflexivity. Qed.

Lemma pvae_train_demo_with_cuda :
  PvaeScript.train nat (Demo.env_with true (Fin 1)) Demo.loader
    (mkWorld 0%nat inf [] [] [])
  = Done (Fin 1) (mkWorld 1%nat inf [] [] [EStep Demo.batch]).
Proof. reflexivity. Qed.

(** [evaluate] does not depend on the device. *)
Lemma pvae_evaluate_demo_without_cuda :
  PvaeScript.evaluate nat (Demo.env_with false (Fin 1)) Demo.loader
    (mkWorld 0%nat inf [] [] [])
  = Done (Fin 1) (mkWorld 0%nat inf [] [] [EEvaluateLoss Demo.batch]).
Proof. reflexivity. Qed.

(** Without a device the script stops in its first epoch: the plotting
    moves the example to the device without testing for one. *)
Lemma pvae_main_without_cuda_raises :
  PvaeScript.main nat (Demo.env_with false (Fin 1)) Demo.loader Demo.loader
    0%nat
  = Fail RuntimeError
      (mkWorld 0%nat (Fin 1) [Fin 0] [Fin (-1)]
         [ETorchSave "rgbd_pvae_torch_weights.save" 0%nat;
          EOptimizerSave "rgbd_pvae_optimizer_state.save" 0%nat;
          EPrintSaving 0; EPrintTest 0 (Fin 1);
          EEvaluateLoss Demo.batch; EPrintTrain 0 (Fin 0)]).
Proof. reflexivity. Qed.

Lemma select_axis2_3d (a b c j : Z) (d : nat -> R) :
  j < c ->
  exists d', Vae.select_axis2 (mkTensor [a; b; c] d) j
             = Ok (mkTensor [a; b] d').
Proof.
  intros Hj. unfold Vae.select_axis2. cbn [tshape].
  replace (j <? c) with true by (symmetry; apply Z.ltb_lt; lia).
  eexists. reflexivity.
Qed.

(** rgbd_vae.py: on 216 x 216 images the guide runs, and there too the
    scale of the Normal is the exponential of the second slice of the
    Encoder's output. *)
Lemma vae_guide_scale_is_exp_log_var (vae : Vae.VAE) (n : Z)
  (d eps : nat -> R) :
  1 <= n ->
  exists params mu log_var latent,
    Vae.Encoder.forward (Vae.encoder vae) (mkTensor [n; 4; 216; 216] d)
    = Ok params
    /\ tshape params = [n; 300; 2]
    /\ Vae.select_axis2 params 0 = Ok mu
    /\ Vae.select_axis2 params 1 = Ok log_var
    /\ tshape mu = [n; 300] /\ tshape log_var = [n; 300]
    /\ Vae.guide vae (mkTensor [n; 4; 216; 216] d) eps = Ok [latent]
    /\ fn latent = to_event (Normal mu (texp log_var)) 1.
Proof.
  intros Hn.
  destruct (vae_encoder_216 (Vae.encoder vae) n d Hn) as [d' Hd].
  destruct (select_axis2_3d n 300 2 0 d') as [d0 H0]; [lia|].
  destruct (select_axis2_3d n 300 2 1 d') as [d1 H1]; [lia|].
  unfold Vae.guide. rewrite Hd. cbn [bind shape_at tshape nth_error].
  rewrite H0, H1. cbn [bind]. unfold sample.
  rewrite rsample_same_shape by reflexivity. cbn [bind].
  exists (mkTensor [n; 300; 2] d'), (mkTensor [n; 300] d0),
    (mkTensor [n; 300] d1).
  eexists. split; [reflexivity|]. split; [reflexivity|].
  split; [exact H0|]. split; [exact H1|].
  repeat (split; [reflexivity|]). reflexivity.
Qed.

(* ------------------------------------------------------------------ *)
(** * More on the networks                                              *)
(* ------------------------------------------------------------------ *)

(** Linear arithmetic with divisions by constants. *)
Ltac dlia := Z.to_euclidean_division_equations; lia.
Ltac dnia := Z.to_euclidean_division_equations; nia.

Lemma conv_out_ok (n k p s : Z) :
  k <= n + 2 * p -> conv_out n k p s = Ok ((n + 2 * p - k) / s + 1).
Proof.
  intros H. unfold conv_out.
  replace (n + 2 * p <? k) with false by (symmetry; apply Z.ltb_ge; lia).
  reflexivity.
Qed.

Lemma Conv2d_ok (k : kernel) (cin cout ks p s n h w : Z) (d : nat -> R) :
  ks <= h + 2 * p -> ks <= w + 2 * p ->
  Conv2d k cin cout ks p s (mkTensor [n; cin; h; w] d)
  = Ok (mkTensor [n; cout; (h + 2 * p - ks) / s + 1;
                  (w + 2 * p - ks) / s + 1]
          (k (mkTensor [n; cin; h; w] d))).
Proof.
  intros Hh Hw. unfold Conv2d, layer, Conv2d_shape. cbn [tshape bind].
  rewrite Z.eqb_refl, !conv_out_ok by assumption. reflexivity.
Qed.

Lemma Conv2d_wrong_channels (k : kernel) (cin cout ks p s n c h w : Z)
  (d : nat -> R) :
  c <> cin ->
  Conv2d k cin cout ks p s (mkTensor [n; c; h; w] d) = Raise RuntimeError.
Proof.
  intros H. unfold Conv2d, layer, Conv2d_shape. cbn [tshape bind].
  replace (c =? cin) with false by (symmetry; apply Z.eqb_neq; lia).
  reflexivity.
Qed.

Lemma InstanceNorm2d_ok (k : kernel) (f n c h w : Z) (d : nat -> R) :
  1 < h * w ->
  InstanceNorm2d k f (mkTensor [n; c; h; w] d)
  = Ok (mkTensor [n; c; h; w] (k (mkTensor [n; c; h; w] d))).
Proof.
  intros H. unfold InstanceNorm2d, layer, InstanceNorm2d_shape.
  cbn [tshape bind].
  replace (h * w =? 1) with false by (symmetry; apply Z.eqb_neq; lia).
  reflexivity.
Qed.

(** One block of the Encoder of rgbd_pvae_train.py halves both sides of
    the image (rounding down). *)
Lemma pvae_encoder_block (k1 k2 : kernel) (cin cout : Z) (training : bool)
  (n h w : Z) (d : nat -> R) :
  2 <= h -> 2 <= w -> 1 < n * (h / 2) * (w / 2) ->
  exists d',
    Sequential [Conv2d k1 cin cout 4 1 2; BatchNorm2d k2 cout training;
                LeakyReLU] (mkTensor [n; cin; h; w] d)
    = Ok (mkTensor [n; cout; h / 2; w / 2] d').
Proof.
  intros Hh Hw Hn. cbn [Sequential].
  rewrite Conv2d_ok by dlia. cbn [bind].
  replace ((h + 2 * 1 - 4) / 2 + 1) with (h / 2) by dlia.
  replace ((w + 2 * 1 - 4) / 2 + 1) with (w / 2) by dlia.
  rewrite BatchNorm2d_ok by assumption. cbn [bind].
  unfold LeakyReLU, pointwise. cbn [bind tshape tdata].
  eexists. reflexivity.
Qed.

Lemma half_ge (h k : Z) : 2 * k <= h -> k <= h / 2.
Proof. intros. dlia. Qed.

Lemma div_32 (h : Z) : h / 2 / 2 / 2 / 2 / 2 = h / 32.
Proof. rewrite !Z.div_div by lia. reflexivity. Qed.

Lemma product_gt_1 (n a b : Z) : 1 <= n -> 2 <= a -> 2 <= b -> 1 < n * a * b.
Proof. intros. nia. Qed.

(** The five blocks together divide both sides by 32. *)
Lemma pvae_encoder_convs_general (P : Pvae.EncoderParams) (training : bool)
  (n H W : Z) (d : nat -> R) :
  1 <= n -> 32 <= H -> 32 <= W ->
  1 < n * (H / 32) * (W / 32) \/ training = false ->
  exists d',
    Pvae.Encoder.convs P training (mkTensor [n; 4; H; W] d)
    = Ok (mkTensor [n; 512; H / 32; W / 32] d').
Proof.
  intros Hn HH HW Hlast. unfold Pvae.Encoder.convs.
  cbn [List.length Pvae.Encoder.depths Nat.sub seq map Pvae.at_ nth
       Nat.add].
  cbn [Sequential].
  rewrite <- (div_32 H), <- (div_32 W) in *.
  set (h1 := H / 2) in *. set (w1 := W / 2) in *.
  set (h2 := h1 / 2) in *. set (w2 := w1 / 2) in *.
  set (h3 := h2 / 2) in *. set (w3 := w2 / 2) in *.
  set (h4 := h3 / 2) in *. set (w4 := w3 / 2) in *.
  assert (B1 : 16 <= h1 /\ 16 <= w1)
    by (split; apply half_ge; lia).
  assert (B2 : 8 <= h2 /\ 8 <= w2)
    by (split; apply half_ge; lia).
  assert (B3 : 4 <= h3 /\ 4 <= w3)
    by (split; apply half_ge; lia).
  assert (B4 : 2 <= h4 /\ 2 <= w4)
    by (split; apply half_ge; lia).
  destruct (pvae_encoder_block (Pvae.e_conv P 0) (Pvae.e_bn P 0) 4 32
              training n H W d) as [d1 E1];
    [lia|lia|apply product_gt_1; fold h1 w1; lia|].
  cbn [Sequential] in E1. rewrite E1. cbn [bind]. fold h1 w1.
  destruct (pvae_encoder_block (Pvae.e_conv P 1) (Pvae.e_bn P 1) 32 64
              training n h1 w1 d1) as [d2 E2];
    [lia|lia|apply product_gt_1; fold h2 w2; lia|].
  cbn [Sequential] in E2. rewrite E2. cbn [bind]. fold h2 w2.
  destruct (pvae_encoder_block (Pvae.e_conv P 2) (Pvae.e_bn P 2) 64 128
              training n h2 w2 d2) as [d3 E3];
    [lia|lia|apply product_gt_1; fold h3 w3; lia|].
  cbn [Sequential] in E3. rewrite E3. cbn [bind]. fold h3 w3.
  destruct (pvae_encoder_block (Pvae.e_conv P 3) (Pvae.e_bn P 3) 128 256
              training n h3 w3 d3) as [d4 E4];
    [lia|lia|apply product_gt_1; fold h4 w4; lia|].
  cbn [Sequential] in E4. rewrite E4. cbn [bind]. fold h4 w4.
  rewrite Conv2d_ok by lia. cbn [bind].
  replace ((h4 + 2 * 1 - 4) / 2 + 1) with (h4 / 2) by dlia.
  replace ((w4 + 2 * 1 - 4) / 2 + 1) with (w4 / 2) by dlia.
  destruct Hlast as [Hlast| ->].
  - rewrite BatchNorm2d_ok by exact Hlast.
    cbn [bind]. unfold LeakyReLU, pointwise. cbn [bind tshape tdata].
    eexists. reflexivity.
  - unfold BatchNorm2d, layer, BatchNorm2d_shape. cbn [tshape bind].
    rewrite Z.eqb_refl. cbn [negb andb bind].
    unfold LeakyReLU, pointwise. cbn [bind tshape tdata].
    eexists. reflexivity.
Qed.

Lemma flatten_1_4d (n c h w : Z) (d : nat -> R) :
  flatten 1 (mkTensor [n; c; h; w] d) = Ok (mkTensor [n; c * (h * w)] d).
Proof.
  unfold flatten, flatten_shape. cbn. unfold numel. cbn [fold_right].
  now rewrite Z.mul_1_r.
Qed.

Lemma Linear_wrong_size (k : kernel) (fin fout n m : Z) (d : nat -> R) :
  m <> fin -> Linear k fin fout (mkTensor [n; m] d) = Raise RuntimeError.
Proof.
  intros H. unfold Linear, layer, Linear_shape. cbn.
  replace (m =? fin) with false by (symmetry; apply Z.eqb_neq; lia).
  reflexivity.
Qed.

Lemma pvae_encoder_forward_ok (P : Pvae.EncoderParams) (training : bool)
  (z_dim n H W : Z) (d : nat -> R) :
  1 <= n -> 32 <= H -> 32 <= W -> (H / 32) * (W / 32) = 16 ->
  exists dm dv,
    Pvae.Encoder.forward P training z_dim (mkTensor [n; 4; H; W] d)
    = Ok (mkTensor [n; z_dim] dm, mkTensor [n; z_dim] dv).
Proof.
  intros Hn HH HW Hg.
  destruct (pvae_encoder_convs_general P training n H W d Hn HH HW)
    as [d' E].
  { left. rewrite <- Z.mul_assoc, Hg. lia. }
  unfold Pvae.Encoder.forward. rewrite E. cbn [bind].
  rewrite flatten_1_4d, Hg. cbn [bind].
  change (Pvae.last_ Pvae.Encoder.depths * 4 ^ 2) with (512 * 16).
  rewrite !Linear_ok_2. cbn [bind].
  do 2 eexists. reflexivity.
Qed.

(** X1 (rgbd_pvae_train.py, Encoder).  On a batch of images whose sides,
    divided by 32, give a grid of 16 cells (128 x 128 is one), the Encoder
    returns mu and log_var of shape (N, z_dim). *)
Theorem pvae_encoder_accepts_grid_of_16 :
  forall (P : Pvae.EncoderParams) (training : bool) (z_dim n H W : Z)
         (d : nat -> R),
    1 <= n -> 32 <= H -> 32 <= W -> (H / 32) * (W / 32) = 16 ->
    exists mu log_var,
      Pvae.Encoder.forward P training z_dim (mkTensor [n; 4; H; W] d)
      = Ok (mu, log_var)
      /\ tshape mu = [n; z_dim] /\ tshape log_var = [n; z_dim].
Proof.
  intros P training z_dim n H W d Hn HH HW Hg.
  destruct (pvae_encoder_forward_ok P training z_dim n H W d Hn HH HW Hg)
    as (dm & dv & E).
  do 2 eexists. split; [exact E|]. split; reflexivity.
Qed.

Lemma pvae_encoder_accepts_grid_of_16_witness :
  exists mu log_var,
    Pvae.Encoder.forward Demo.pvae_encoder true 400
      (Demo.zeros [50; 4; 150; 130])
    = Ok (mu, log_var)
    /\ tshape mu = [50; 400] /\ tshape log_var = [50; 400].
Proof.
  apply (pvae_encoder_accepts_grid_of_16 Demo.pvae_encoder true 400 50
           150 130);
    first [reflexivity | lia].
Defined.

(** X2 (rgbd_pvae_train.py, Encoder).  On every other image size (with
    sides of at least 32 pixels) the forward pass raises at [fc1]: the
    flattened features do not have the 8192 entries it takes. *)
Theorem pvae_encoder_rejects_other_grids :
  forall (P : Pvae.EncoderParams) (training : bool) (z_dim n H W : Z)
         (d : nat -> R),
    1 <= n -> 32 <= H -> 32 <= W -> (H / 32) * (W / 32) <> 16 ->
    1 < n * (H / 32) * (W / 32) \/ training = false ->
    Pvae.Encoder.forward P training z_dim (mkTensor [n; 4; H; W] d)
    = Raise RuntimeError.
Proof.
  intros P training z_dim n H W d Hn HH HW Hg Hlast.
  destruct (pvae_encoder_convs_general P training n H W d Hn HH HW Hlast)
    as [d' E].
  unfold Pvae.Encoder.forward. rewrite E. cbn [bind].
  rewrite flatten_1_4d. cbn [bind].
  change (Pvae.last_ Pvae.Encoder.depths * 4 ^ 2) with 8192.
  rewrite Linear_wrong_size by lia. reflexivity.
Qed.

Lemma pvae_encoder_rejects_other_grids_witness :
  Pvae.Encoder.forward Demo.pvae_encoder true 400
    (Demo.zeros [50; 4; 256; 256])
  = Raise RuntimeError.
Proof.
  apply (pvae_encoder_rejects_other_grids Demo.pvae_encoder true 400 50
           256 256);
    first [lia | discriminate | (left; reflexivity)].
Defined.

Lemma relu_fn_nonneg (v : R) : (0 <= relu_fn v)%R.
Proof. unfold relu_fn. apply Rmax_l. Qed.

(** X3 (rgbd_vae.py, ResBlock).  With as many output as input channels,
    a residual block returns a tensor of the shape of its input, with no
    negative entry. *)
Theorem resblock_keeps_shape :
  forall (P : Vae.ResBlockParams) (c n h w : Z) (d : nat -> R),
    1 <= h -> 1 <= w -> 1 < h * w ->
    exists out,
      Vae.ResBlock.forward P c c (mkTensor [n; c; h; w] d) = Ok out
      /\ tshape out = [n; c; h; w]
      /\ forall i, (0 <= tdata out i)%R.
Proof.
  intros P c n h w d Hh Hw Hhw. unfold Vae.ResBlock.forward.
  rewrite Z.eqb_refl. cbn [negb bind Sequential].
  assert (E : forall v, (v + 2 * 1 - 3) / 1 + 1 = v)
    by (intros v; rewrite Z.div_1_r; lia).
  rewrite Conv2d_ok by lia. cbn [bind]. rewrite !E.
  rewrite InstanceNorm2d_ok by assumption. cbn [bind].
  unfold ReLU at 1. cbn [bind]. unfold relu at 1, pointwise at 1.
  cbn [tshape tdata].
  rewrite Conv2d_ok by lia. cbn [bind]. rewrite !E.
  rewrite InstanceNorm2d_ok by assumption. cbn [bind].
  rewrite tadd_same_shape by reflexivity. cbn [bind tshape].
  eexists. split; [reflexivity|]. split; [reflexivity|].
  intros i. cbn. apply relu_fn_nonneg.
Qed.

Lemma resblock_keeps_shape_witness :
  exists out,
    Vae.ResBlock.forward Demo.res_block 200 200 (Demo.zeros [50; 200; 7; 7])
    = Ok out
    /\ tshape out = [50; 200; 7; 7]
    /\ forall i, (0 <= tdata out i)%R.
Proof.
  apply (resblock_keeps_shape Demo.res_block 200 50 7 7); lia.
Defined.

Lemma layer_Raise (sh : shape -> result shape) (k : kernel) (x : Tensor)
  (e : exn) :
  sh (tshape x) = Raise e -> layer sh k x = Raise e.
Proof. intros H. unfold layer. now rewrite H. Qed.

Lemma layer_Ok (sh : shape -> result shape) (k : kernel) (x : Tensor)
  (s : shape) :
  sh (tshape x) = Ok s -> layer sh k x = Ok (mkTensor s (k x)).
Proof. intros H. unfold layer. now rewrite H. Qed.

(** A convolution returns a tensor with its number of output channels,
    whatever it is given. *)
Lemma Conv2d_shape_channels (cin cout k p s : Z) (x y : shape) :
  Conv2d_shape cin cout k p s x = Ok y ->
  (exists n h w, y = [n; cout; h; w]) \/ (exists h w, y = [cout; h; w]).
Proof.
  unfold Conv2d_shape. intros H.
  destruct x as [|a [|b [|c [|e [|f rest]]]]]; try discriminate.
  - destruct (a =? cin); [|discriminate].
    destruct (conv_out b k p s); [|discriminate].
    destruct (conv_out c k p s); [|discriminate].
    injection H as <-. right. eauto.
  - destruct (b =? cin); [|discriminate].
    destruct (conv_out c k p s); [|discriminate].
    destruct (conv_out e k p s); [|discriminate].
    injection H as <-. left. eauto.
Qed.

Lemma InstanceNorm2d_shape_same (x y : shape) :
  InstanceNorm2d_shape x = Ok y -> y = x.
Proof.
  unfold InstanceNorm2d_shape. intros H.
  destruct x as [|a [|b [|c [|e [|f rest]]]]]; try discriminate.
  - destruct (b * c =? 1); [discriminate|]. now injection H.
  - destruct (c * e =? 1); [discriminate|]. now injection H.
Qed.

Lemma Conv2d_shape_rejects (cin cout k p s : Z) (x : shape) :
  cin <> cout ->
  (exists n h w, x = [n; cout; h; w]) \/ (exists h w, x = [cout; h; w]) ->
  Conv2d_shape cin cout k p s x = Raise RuntimeError.
Proof.
  intros Hne [(n & h & w & ->)|(h & w & ->)]; cbn;
    (replace (cout =? cin) with false by (symmetry; apply Z.eqb_neq; lia));
    reflexivity.
Qed.

(** X4 (rgbd_vae.py, ResBlock).  With different numbers of input and
    output channels a residual block never returns: its 1 x 1 convolution
    changes the number of channels to [out_channels], and the first
    convolution of [self.conv] still takes [in_channels]. *)
Theorem resblock_with_different_channels_raises :
  forall (P : Vae.ResBlockParams) (in_channels out_channels : Z)
         (x : Tensor),
    in_channels <> out_channels ->
    exists e, Vae.ResBlock.forward P in_channels out_channels x = Raise e.
Proof.
  intros P cin cout x Hne. unfold Vae.ResBlock.forward.
  replace (cin =? cout) with false by (symmetry; apply Z.eqb_neq; lia).
  cbn [negb Sequential]. unfold Conv2d at 1.
  destruct (Conv2d_shape cin cout 1 0 1 (tshape x)) as [s1|e1] eqn:E1.
  2:{ rewrite (layer_Raise (Conv2d_shape cin cout 1 0 1) _ x e1 E1).
      cbn. eauto. }
  rewrite (layer_Ok (Conv2d_shape cin cout 1 0 1) _ x s1 E1). cbn [bind].
  unfold InstanceNorm2d at 1.
  destruct (InstanceNorm2d_shape s1) as [s2|e2] eqn:E2.
  2:{ rewrite (layer_Raise InstanceNorm2d_shape _ (mkTensor s1 _) e2 E2).
      cbn. eauto. }
  rewrite (layer_Ok InstanceNorm2d_shape _ (mkTensor s1 _) s2 E2).
  cbn [bind Sequential].
  apply InstanceNorm2d_shape_same in E2. subst s2.
  apply Conv2d_shape_channels in E1.
  unfold Conv2d at 1.
  rewrite (layer_Raise (Conv2d_shape cin cout 3 1 1) _ (mkTensor s1 _)
             RuntimeError);
    [cbn; eauto|].
  cbn [tshape]. now apply Conv2d_shape_rejects.
Qed.

Lemma resblock_with_different_channels_raises_witness :
  exists e,
    Vae.ResBlock.forward Demo.res_block 64 128 (Demo.zeros [50; 64; 7; 7])
    = Raise e.
Proof.
  apply (resblock_with_different_channels_raises Demo.res_block 64 128).
  lia.
Defined.

(** Half of a length, rounded up: what a convolution of kernel 3,
    padding 1 and stride 2 leaves of it. *)
Lemma half_up (h : Z) : (h + 2 * 1 - 3) / 2 + 1 = (h + 1) / 2.
Proof. dlia. Qed.

Lemma half_up_bounds (h : Z) : 1 <= h -> 1 <= (h + 1) / 2 <= h.
Proof. intros. dlia. Qed.

Lemma product_ge (a b a' b' : Z) :
  1 <= a' <= a -> 1 <= b' <= b -> 1 < a' * b' -> 1 < a * b.
Proof. intros. nia. Qed.

(** One strided block of the Encoder of rgbd_vae.py. *)
Lemma vae_encoder_block (k1 k2 : kernel) (cin cout n h w : Z)
  (d : nat -> R) :
  1 <= h -> 1 <= w -> 1 < ((h + 1) / 2) * ((w + 1) / 2) ->
  exists d',
    Sequential [Conv2d k1 cin cout 3 1 2; InstanceNorm2d k2 cout; ReLU]
      (mkTensor [n; cin; h; w] d)
    = Ok (mkTensor [n; cout; (h + 1) / 2; (w + 1) / 2] d').
Proof.
  intros Hh Hw Hp. cbn [Sequential].
  rewrite Conv2d_ok by lia. cbn [bind]. rewrite !half_up.
  rewrite InstanceNorm2d_ok by assumption. cbn [bind].
  unfold ReLU, relu, pointwise. cbn [bind tshape tdata].
  eexists. reflexivity.
Qed.

Lemma resblock_ok (P : Vae.ResBlockParams) (c n h w : Z) (d : nat -> R) :
  1 <= h -> 1 <= w -> 1 < h * w ->
  exists d',
    Vae.ResBlock.forward P c c (mkTensor [n; c; h; w] d)
    = Ok (mkTensor [n; c; h; w] d').
Proof.
  intros Hh Hw Hhw. unfold Vae.ResBlock.forward.
  rewrite Z.eqb_refl. cbn [negb bind Sequential].
  assert (E : forall v, (v + 2 * 1 - 3) / 1 + 1 = v)
    by (intros v; rewrite Z.div_1_r; lia).
  rewrite Conv2d_ok by lia. cbn [bind]. rewrite !E.
  rewrite InstanceNorm2d_ok by assumption. cbn [bind].
  unfold ReLU at 1. cbn [bind]. unfold relu at 1, pointwise at 1.
  cbn [tshape tdata].
  rewrite Conv2d_ok by lia. cbn [bind]. rewrite !E.
  rewrite InstanceNorm2d_ok by assumption. cbn [bind].
  rewrite tadd_same_shape by reflexivity. cbn [bind tshape].
  unfold relu, pointwise. cbn [tshape tdata].
  eexists. reflexivity.
Qed.

Lemma Linear_ok_3 (k : kernel) (fin fout n c : Z) (d : nat -> R) :
  Linear k fin fout (mkTensor [n; c; fin] d)
  = Ok (mkTensor [n; c; fout] (k (mkTensor [n; c; fin] d))).
Proof.
  unfold Linear, layer, Linear_shape. cbn. now rewrite Z.eqb_refl.
Qed.

Lemma flatten_2_4d (n c h w : Z) (d : nat -> R) :
  flatten 2 (mkTensor [n; c; h; w] d) = Ok (mkTensor [n; c; h * w] d).
Proof.
  unfold flatten, flatten_shape. cbn. unfold numel. cbn [fold_right].
  now rewrite Z.mul_1_r.
Qed.

Lemma half_up_7 (h : Z) :
  ((((((((h + 1) / 2 + 1) / 2 + 1) / 2 + 1) / 2 + 1) / 2 + 1) / 2 + 1) / 2)
  = (h + 127) / 128.
Proof.
  replace (((h + 1) / 2 + 1) / 2) with ((h + 3) / 4) by dlia.
  replace (((h + 3) / 4 + 1) / 2) with ((h + 7) / 8) by dlia.
  replace (((h + 7) / 8 + 1) / 2) with ((h + 15) / 16) by dlia.
  replace (((h + 15) / 16 + 1) / 2) with ((h + 31) / 32) by dlia.
  replace (((h + 31) / 32 + 1) / 2) with ((h + 63) / 64) by dlia.
  dlia.
Qed.

(** X5 (rgbd_vae.py, Encoder).  The Encoder accepts the images whose
    sides, divided by 128 and rounded up, give a grid of 4 cells (216 x 216
    is one): it returns one tensor of shape (N, 300, 2). *)
Theorem vae_encoder_accepts_grid_of_4 :
  forall (P : Vae.EncoderParams) (n H W : Z) (d : nat -> R),
    1 <= H -> 1 <= W -> ((H + 127) / 128) * ((W + 127) / 128) = 4 ->
    exists out,
      Vae.Encoder.forward P (mkTensor [n; 4; H; W] d) = Ok out
      /\ tshape out = [n; 300; 2].
Proof.
  intros P n H W d HH HW Hg.
  rewrite <- (half_up_7 H), <- (half_up_7 W) in Hg.
  set (h1 := (H + 1) / 2) in *. set (w1 := (W + 1) / 2) in *.
  set (h2 := (h1 + 1) / 2) in *. set (w2 := (w1 + 1) / 2) in *.
  set (h3 := (h2 + 1) / 2) in *. set (w3 := (w2 + 1) / 2) in *.
  set (h4 := (h3 + 1) / 2) in *. set (w4 := (w3 + 1) / 2) in *.
  set (h5 := (h4 + 1) / 2) in *. set (w5 := (w4 + 1) / 2) in *.
  set (h6 := (h5 + 1) / 2) in *. set (w6 := (w5 + 1) / 2) in *.
  set (h7 := (h6 + 1) / 2) in *. set (w7 := (w6 + 1) / 2) in *.
  pose proof (half_up_bounds H HH) as A1. fold h1 in A1.
  pose proof (half_up_bounds W HW) as B1. fold w1 in B1.
  pose proof (half_up_bounds h1 (proj1 A1)) as A2. fold h2 in A2.
  pose proof (half_up_bounds w1 (proj1 B1)) as B2. fold w2 in B2.
  pose proof (half_up_bounds h2 (proj1 A2)) as A3. fold h3 in A3.
  pose proof (half_up_bounds w2 (proj1 B2)) as B3. fold w3 in B3.
  pose proof (half_up_bounds h3 (proj1 A3)) as A4. fold h4 in A4.
  pose proof (half_up_bounds w3 (proj1 B3)) as B4. fold w4 in B4.
  pose proof (half_up_bounds h4 (proj1 A4)) as A5. fold h5 in A5.
  pose proof (half_up_bounds w4 (proj1 B4)) as B5. fold w5 in B5.
  pose proof (half_up_bounds h5 (proj1 A5)) as A6. fold h6 in A6.
  pose proof (half_up_bounds w5 (proj1 B5)) as B6. fold w6 in B6.
  pose proof (half_up_bounds h6 (proj1 A6)) as A7. fold h7 in A7.
  pose proof (half_up_bounds w6 (proj1 B6)) as B7. fold w7 in B7.
  assert (G7 : 1 < h7 * w7) by lia.
  assert (G6 : 1 < h6 * w6) by (apply (product_ge _ _ h7 w7); lia).
  assert (G5 : 1 < h5 * w5) by (apply (product_ge _ _ h6 w6); lia).
  assert (G4 : 1 < h4 * w4) by (apply (product_ge _ _ h5 w5); lia).
  assert (G3 : 1 < h3 * w3) by (apply (product_ge _ _ h4 w4); lia).
  assert (G2 : 1 < h2 * w2) by (apply (product_ge _ _ h3 w3); lia).
  assert (G1 : 1 < h1 * w1) by (apply (product_ge _ _ h2 w2); lia).
  assert (G0 : 1 < H * W) by (apply (product_ge _ _ h1 w1); lia).
  unfold Vae.Encoder.forward.
  (* conv1 *)
  unfold Vae.Encoder.conv1. cbn [Sequential].
  rewrite Conv2d_ok by lia. cbn [bind].
  replace ((H + 2 * 1 - 3) / 1 + 1) with H by (rewrite Z.div_1_r; lia).
  replace ((W + 2 * 1 - 3) / 1 + 1) with W by (rewrite Z.div_1_r; lia).
  rewrite InstanceNorm2d_ok by assumption. cbn [bind].
  unfold LeakyReLU at 1, pointwise at 1. cbn [bind tshape tdata].
  (* convs *)
  unfold Vae.Encoder.convs.
  cbn [List.length Vae.Encoder.depths Nat.sub seq map Pvae.at_ nth Nat.add].
  cbn [Sequential].
  destruct (vae_encoder_block (Vae.e_convs P 0 0) (Vae.e_convs P 0 1)
              64 76 n H W) with (d := fun i : nat =>
                leaky_relu_fn (Vae.e_conv1 P 1
                  (mkTensor [n; 64; H; W]
                     (Vae.e_conv1 P 0 (mkTensor [n; 4; H; W] d))) i))
    as [d1 E1]; [lia|lia|exact G1|].
  cbn [Sequential] in E1. rewrite E1. cbn [bind]. fold h1 w1.
  destruct (vae_encoder_block (Vae.e_convs P 1 0) (Vae.e_convs P 1 1)
              76 88 n h1 w1 d1) as [d2 E2]; [lia|lia|exact G2|].
  cbn [Sequential] in E2. rewrite E2. cbn [bind]. fold h2 w2.
  destruct (vae_encoder_block (Vae.e_convs P 2 0) (Vae.e_convs P 2 1)
              88 100 n h2 w2 d2) as [d3 E3]; [lia|lia|exact G3|].
  cbn [Sequential] in E3. rewrite E3. cbn [bind]. fold h3 w3.
  destruct (vae_encoder_block (Vae.e_convs P 3 0) (Vae.e_convs P 3 1)
              100 128 n h3 w3 d3) as [d4 E4]; [lia|lia|exact G4|].
  cbn [Sequential] in E4. rewrite E4. cbn [bind]. fold h4 w4.
  destruct (vae_encoder_block (Vae.e_convs P 4 0) (Vae.e_convs P 4 1)
              128 200 n h4 w4 d4) as [d5 E5]; [lia|lia|exact G5|].
  cbn [Sequential] in E5. rewrite E5. cbn [bind]. fold h5 w5.
  (* res_blocks *)
  unfold Vae.Encoder.res_blocks.
  change (Pvae.last_ Vae.Encoder.depths) with 200. cbn [Sequential].
  destruct (resblock_ok (Vae.e_res P 0) 200 n h5 w5 d5) as [r1 R1];
    [lia|lia|exact G5|].
  rewrite R1. cbn [bind].
  destruct (resblock_ok (Vae.e_res P 1) 200 n h5 w5 r1) as [r2 R2];
    [lia|lia|exact G5|].
  rewrite R2. cbn [bind].
  (* conv2, conv3 *)
  unfold Vae.Encoder.conv2.
  destruct (vae_encoder_block (Vae.e_conv2 P 0) (Vae.e_conv2 P 1)
              200 250 n h5 w5 r2) as [d6 E6]; [lia|lia|exact G6|].
  rewrite E6. cbn [bind]. fold h6 w6.
  unfold Vae.Encoder.conv3.
  destruct (vae_encoder_block (Vae.e_conv3 P 0) (Vae.e_conv3 P 1)
              250 300 n h6 w6 d6) as [d7 E7]; [lia|lia|exact G7|].
  rewrite E7. cbn [bind]. fold h7 w7.
  rewrite flatten_2_4d, Hg. cbn [bind]. rewrite Linear_ok_3.
  eexists. split; reflexivity.
Qed.

Lemma vae_encoder_accepts_grid_of_4_witness :
  exists out,
    Vae.Encoder.forward Demo.vae_encoder (Demo.zeros [50; 4; 216; 216])
    = Ok out
    /\ tshape out = [50; 300; 2].
Proof.
  apply (vae_encoder_accepts_grid_of_4 Demo.vae_encoder 50 216 216);
    first [reflexivity | lia].
Defined.

(** X6 (rgbd_vae.py, Decoder).  On a latent batch of shape (N, 300),
    whatever the weights, the Decoder returns a tensor of shape
    (N, 4, 216, 216): the size of the images of the data set. *)
Theorem vae_decoder_output_216 :
  forall (P : Vae.DecoderParams) (n : Z) (d : nat -> R),
    1 <= n ->
    exists out,
      Vae.Decoder.forward P (mkTensor [n; 300] d) = Ok out
      /\ tshape out = [n; 4; 216; 216].
Proof.
  intros P n d Hn. destruct (vae_decoder_300 P n d Hn) as [d' Hd].
  exists (sigmoid (mkTensor [n; 4; 216; 216] d')).
  split; [exact Hd|reflexivity].
Qed.

Lemma vae_decoder_output_216_witness :
  exists out,
    Vae.Decoder.forward Demo.vae_decoder (Demo.zeros [50; 300]) = Ok out
    /\ tshape out = [50; 4; 216; 216].
Proof.
  apply (vae_decoder_output_216 Demo.vae_decoder 50). lia.
Defined.

(** X7 (rgbd_vae.py, Decoder).  A latent batch whose dimension is not 300
    is rejected by the first transposed convolution. *)
Theorem vae_decoder_rejects_other_dimensions :
  forall (P : Vae.DecoderParams) (n D : Z) (d : nat -> R),
    1 <= n -> 1 <= D -> D <> 300 ->
    Vae.Decoder.forward P (mkTensor [n; D] d) = Raise RuntimeError.
Proof.
  intros P n D d Hn HD Hne. unfold Vae.Decoder.forward.
  cbn [shape_at tshape nth_error bind].
  rewrite view_1_1 by lia. cbn [bind].
  unfold Vae.Decoder.conv1. cbn [Sequential].
  unfold ConvTranspose2d, layer, ConvTranspose2d_shape. cbn [tshape].
  replace (D =? 300) with false by (symmetry; apply Z.eqb_neq; lia).
  reflexivity.
Qed.

Lemma vae_decoder_rejects_other_dimensions_witness :
  Vae.Decoder.forward Demo.vae_decoder (Demo.zeros [50; 400])
  = Raise RuntimeError.
Proof.
  apply (vae_decoder_rejects_other_dimensions Demo.vae_decoder 50 400); lia.
Defined.

Lemma pvae_decoder_forward_ok (P : Pvae.DecoderParams) (training : bool)
  (z_dim n : Z) (d : nat -> R) :
  1 <= n ->
  exists d',
    Pvae.Decoder.forward P training z_dim (mkTensor [n; z_dim] d)
    = Ok (sigmoid (mkTensor [n; 4; 128; 128] d')).
Proof.
  intros. unfold Pvae.Decoder.forward, Pvae.Decoder.convs.
  cbn. repeat norm_step. eexists. reflexivity.
Qed.

(** X8 (rgbd_pvae_train.py, VAE.reconstruct).  On a batch the Encoder
    accepts, [reconstruct] returns a batch of 128 x 128 images: it has
    the shape of its input exactly when the input is 128 x 128. *)
Theorem pvae_reconstruct_returns_128 :
  forall (vae : Pvae.VAE) (n H W : Z) (d eps : nat -> R),
    1 <= n -> 32 <= H -> 32 <= W -> (H / 32) * (W / 32) = 16 ->
    exists out,
      Pvae.reconstruct vae (mkTensor [n; 4; H; W] d) eps = Ok out
      /\ tshape out = [n; 4; 128; 128]
      /\ (tshape out = [n; 4; H; W] <-> H = 128 /\ W = 128).
Proof.
  intros vae n H W d eps Hn HH HW Hg. unfold Pvae.reconstruct.
  destruct (pvae_encoder_forward_ok (Pvae.encoder vae) (Pvae.training vae)
              (Pvae.z_dim vae) n H W d Hn HH HW Hg) as (dm & dv & E).
  rewrite E. cbn [bind]. cbn [rsample texp pointwise tshape].
  rewrite broadcast_shapes_refl. cbn [bind].
  match goal with
  | |- context [Pvae.Decoder.forward _ _ _ (mkTensor _ ?dz)] =>
      destruct (pvae_decoder_forward_ok (Pvae.decoder vae)
                  (Pvae.training vae) (Pvae.z_dim vae) n dz Hn) as [d' E']
  end.
  rewrite E'. eexists. split; [reflexivity|]. split; [reflexivity|].
  cbn. split.
  - intros Eq. injection Eq as -> ->. split; reflexivity.
  - intros [-> ->]. reflexivity.
Qed.

Lemma pvae_reconstruct_returns_128_witness :
  exists out,
    Pvae.reconstruct Demo.pvae (Demo.zeros [1; 4; 128; 128]) Demo.ones_noise
    = Ok out
    /\ tshape out = [1; 4; 128; 128]
    /\ (tshape out = [1; 4; 128; 128] <-> 128 = 128 /\ 128 = 128).
Proof.
  apply (pvae_reconstruct_returns_128 Demo.pvae 1 128 128);
    first [reflexivity | lia].
Defined.

(* ------------------------------------------------------------------ *)
(** * The model against the guide                                       *)
(* ------------------------------------------------------------------ *)

Lemma normal_event_shapes (loc scale : Tensor) (n D : Z) :
  tshape loc = [n; D] -> tshape scale = [n; D] ->
  batch_shape (to_event (Normal loc scale) 1) = Ok [n]
  /\ event_shape (to_event (Normal loc scale) 1) = Ok [D].
Proof.
  intros Hl Hs. cbn. rewrite Hl, Hs, broadcast_shapes_refl. cbn.
  split; reflexivity.
Qed.

Lemma bernoulli_event_shapes (probs : Tensor) (n c h w : Z) :
  tshape probs = [n; c; h; w] ->
  batch_shape (to_event (Bernoulli probs) 3) = Ok [n]
  /\ event_shape (to_event (Bernoulli probs) 3) = Ok [c; h; w].
Proof. intros H. cbn. rewrite H. cbn. split; reflexivity. Qed.

(** X9 (rgbd_pvae_train.py, VAE.model and VAE.guide).  On a batch of
    128 x 128 images the guide runs, the model runs on the guide's
    latent, and the two agree as stochastic variational inference needs:
    one latent site of the same name, batch shape (N) and event shape
    (z_dim) in both, an observation site of batch shape (N) whose event
    shape is that of an image, all inside the plate of size N. *)
Theorem pvae_model_matches_guide :
  forall (vae : Pvae.VAE) (n : Z) (d eps : nat -> R),
    1 <= n ->
    exists g latent obs,
      Pvae.guide vae (mkTensor [n; 4; 128; 128] d) eps = Ok [g]
      /\ Pvae.model vae (mkTensor [n; 4; 128; 128] d) (Some (value g)) eps
         = Ok [latent; obs]
      /\ name latent = name g /\ value latent = value g
      /\ is_observed g = false /\ is_observed latent = false
      /\ batch_shape (fn g) = Ok [n] /\ batch_shape (fn latent) = Ok [n]
      /\ event_shape (fn g) = Ok [Pvae.z_dim vae]
      /\ event_shape (fn latent) = Ok [Pvae.z_dim vae]
      /\ batch_shape (fn obs) = Ok [n]
      /\ event_shape (fn obs) = Ok [4; 128; 128]
      /\ tshape (value obs) = [n; 4; 128; 128]
      /\ plates g = [("data"%string, n)]
      /\ plates latent = [("data"%string, n)]
      /\ plates obs = [("data"%string, n)].
Proof.
  intros vae n d eps Hn.
  destruct (pvae_encoder_forward_ok (Pvae.encoder vae) (Pvae.training vae)
              (Pvae.z_dim vae) n 128 128 d Hn) as (dm & dv & E);
    [lia|lia|reflexivity|].
  assert (Hg : exists dz,
             Pvae.guide vae (mkTensor [n; 4; 128; 128] d) eps
             = Ok [mkSite "latent"
                     (to_event (Normal (mkTensor [n; Pvae.z_dim vae] dm)
                                  (texp (mkTensor [n; Pvae.z_dim vae] dv))) 1)
                     (mkTensor [n; Pvae.z_dim vae] dz) false
                     [("data"%string, n)]]).
  { unfold Pvae.guide. cbn [shape_at tshape nth_error bind].
    rewrite E. cbn [bind]. unfold sample.
    rewrite rsample_same_shape by reflexivity. cbn [bind tshape].
    eexists. reflexivity. }
  destruct Hg as [dz Hg].
  destruct (pvae_decoder_forward_ok (Pvae.decoder vae) (Pvae.training vae)
              (Pvae.z_dim vae) n dz Hn) as [d' E'].
  eexists. exists (mkSite "latent"
                     (to_event (Normal (new_zeros [n; Pvae.z_dim vae])
                                  (new_ones [n; Pvae.z_dim vae])) 1)
                     (mkTensor [n; Pvae.z_dim vae] dz) false
                     [("data"%string, n)]).
  exists (mkSite "obs"
            (to_event (Bernoulli (sigmoid (mkTensor [n; 4; 128; 128] d'))) 3)
            (mkTensor [n; 4; 128; 128] d) true [("data"%string, n)]).
  split; [exact Hg|]. split.
  { unfold Pvae.model. cbn [shape_at tshape nth_error bind sample value].
    rewrite E'. reflexivity. }
  cbn [name value is_observed fn plates tshape].
  repeat (split; [reflexivity|]).
  destruct (normal_event_shapes (mkTensor [n; Pvae.z_dim vae] dm)
              (texp (mkTensor [n; Pvae.z_dim vae] dv)) n (Pvae.z_dim vae)
              eq_refl eq_refl) as [B1 V1].
  destruct (normal_event_shapes (new_zeros [n; Pvae.z_dim vae])
              (new_ones [n; Pvae.z_dim vae]) n (Pvae.z_dim vae)
              eq_refl eq_refl) as [B2 V2].
  destruct (bernoulli_event_shapes (sigmoid (mkTensor [n; 4; 128; 128] d'))
              n 4 128 128 eq_refl) as [B3 V3].
  repeat split; assumption.
Qed.

Lemma pvae_model_matches_guide_witness :
  exists g latent obs,
    Pvae.guide Demo.pvae (mkTensor [1; 4; 128; 128] Demo.ones_noise)
      Demo.ones_noise = Ok [g]
    /\ Pvae.model Demo.pvae (mkTensor [1; 4; 128; 128] Demo.ones_noise)
         (Some (value g)) Demo.ones_noise
       = Ok [latent; obs]
    /\ name latent = name g /\ value latent = value g
    /\ is_observed g = false /\ is_observed latent = false
    /\ batch_shape (fn g) = Ok [1] /\ batch_shape (fn latent) = Ok [1]
    /\ event_shape (fn g) = Ok [Pvae.z_dim Demo.pvae]
    /\ event_shape (fn latent) = Ok [Pvae.z_dim Demo.pvae]
    /\ batch_shape (fn obs) = Ok [1]
    /\ event_shape (fn obs) = Ok [4; 128; 128]
    /\ tshape (value obs) = [1; 4; 128; 128]
    /\ plates g = [("data"%string, 1)]
    /\ plates latent = [("data"%string, 1)]
    /\ plates obs = [("data"%string, 1)].
Proof.
  apply (pvae_model_matches_guide Demo.pvae 1 Demo.ones_noise
           Demo.ones_noise).
  lia.
Defined.

(** X10 (rgbd_vae.py, VAE.model and VAE.guide).  On a batch of 216 x 216
    images the guide runs, the model runs on the guide's latent, the
    latent sites agree (name, batch shape (N), event shape (300)), and the
    observation site has batch shape (N), event shape (4, 216, 216) and a
    value of the shape of the batch. *)
Theorem vae_model_matches_guide :
  forall (vae : Vae.VAE) (n : Z) (d eps : nat -> R),
    1 <= n ->
    exists g latent obs,
      Vae.guide vae (mkTensor [n; 4; 216; 216] d) eps = Ok [g]
      /\ Vae.model vae (mkTensor [n; 4; 216; 216] d) (Some (value g)) eps
         = Ok [latent; obs]
      /\ name latent = name g /\ value latent = value g
      /\ batch_shape (fn g) = Ok [n] /\ batch_shape (fn latent) = Ok [n]
      /\ event_shape (fn g) = Ok [300] /\ event_shape (fn latent) = Ok [300]
      /\ batch_shape (fn obs) = Ok [n]
      /\ event_shape (fn obs) = Ok [4; 216; 216]
      /\ tshape (value obs) = [n; 4; 216; 216]
      /\ plates g = [("data"%string, n)]
      /\ plates latent = [("data"%string, n)]
      /\ plates obs = [("data"%string, n)].
Proof.
  intros vae n d eps Hn.
  destruct (vae_encoder_216 (Vae.encoder vae) n d Hn) as [de Hd].
  destruct (select_axis2_3d n 300 2 0 de) as [d0 H0]; [lia|].
  destruct (select_axis2_3d n 300 2 1 de) as [d1 H1]; [lia|].
  assert (Hg : exists dz,
             Vae.guide vae (mkTensor [n; 4; 216; 216] d) eps
             = Ok [mkSite "latent"
                     (to_event (Normal (mkTensor [n; 300] d0)
                                  (texp (mkTensor [n; 300] d1))) 1)
                     (mkTensor [n; 300] dz) false [("data"%string, n)]]).
  { unfold Vae.guide. rewrite Hd. cbn [bind shape_at tshape nth_error].
    rewrite H0, H1. cbn [bind]. unfold sample.
    rewrite rsample_same_shape by reflexivity. cbn [bind tshape].
    eexists. reflexivity. }
  destruct Hg as [dz Hg].
  destruct (vae_decoder_300 (Vae.decoder vae) n dz Hn) as [d' E'].
  eexists.
  exists (mkSite "latent"
            (to_event (Normal (new_zeros [n; 300]) (new_ones [n; 300])) 1)
            (mkTensor [n; 300] dz) false [("data"%string, n)]).
  exists (mkSite "obs"
            (to_event (Bernoulli (sigmoid (mkTensor [n; 4; 216; 216] d'))) 3)
            (sigmoid (mkTensor [n; 4; 216; 216] d')) true
            [("data"%string, n)]).
  split; [exact Hg|]. split.
  { unfold Vae.model. cbn [shape_at tshape nth_error bind sample value].
    unfold Vae.z_dim. rewrite E'. reflexivity. }
  cbn [name value is_observed fn plates].
  repeat (split; [reflexivity|]).
  destruct (normal_event_shapes (mkTensor [n; 300] d0)
              (texp (mkTensor [n; 300] d1)) n 300 eq_refl eq_refl)
    as [B1 V1].
  destruct (normal_event_shapes (new_zeros [n; 300]) (new_ones [n; 300])
              n 300 eq_refl eq_refl) as [B2 V2].
  destruct (bernoulli_event_shapes (sigmoid (mkTensor [n; 4; 216; 216] d'))
              n 4 216 216 eq_refl) as [B3 V3].
  repeat split; assumption.
Qed.

Lemma vae_model_matches_guide_witness :
  exists g latent obs,
    Vae.guide Demo.vae (mkTensor [1; 4; 216; 216] Demo.ones_noise)
      Demo.ones_noise = Ok [g]
    /\ Vae.model Demo.vae (mkTensor [1; 4; 216; 216] Demo.ones_noise)
         (Some (value g)) Demo.ones_noise
       = Ok [latent; obs]
    /\ name latent = name g /\ value latent = value g
    /\ batch_shape (fn g) = Ok [1] /\ batch_shape (fn latent) = Ok [1]
    /\ event_shape (fn g) = Ok [300] /\ event_shape (fn latent) = Ok [300]
    /\ batch_shape (fn obs) = Ok [1]
    /\ event_shape (fn obs) = Ok [4; 216; 216]
    /\ tshape (value obs) = [1; 4; 216; 216]
    /\ plates g = [("data"%string, 1)]
    /\ plates latent = [("data"%string, 1)]
    /\ plates obs = [("data"%string, 1)].
Proof.
  apply (vae_model_matches_guide Demo.vae 1 Demo.ones_noise Demo.ones_noise).
  lia.
Defined.

Lemma broadcast_rev_raises (a b : list Z) (e : exn) :
  broadcast_rev a b = Raise e -> e = RuntimeError.
Proof.
  revert b. induction a as [|x a IH]; intros [|y b] H; cbn in H;
    try discriminate.
  destruct (broadcast_rev a b) as [r|e'] eqn:E; cbn in H.
  - destruct (x =? y); [discriminate|].
    destruct (x =? 1); [discriminate|].
    destruct (y =? 1); [discriminate|]. now injection H.
  - injection H as <-. eapply IH. exact E.
Qed.

Lemma broadcast_shapes_mismatch (a b : shape) (w w' : Z) :
  w <> w' -> w <> 1 -> w' <> 1 ->
  broadcast_shapes (a ++ [w]) (b ++ [w']) = Raise RuntimeError.
Proof.
  intros H1 H2 H3. unfold broadcast_shapes.
  rewrite !rev_app_distr. cbn [rev app broadcast_rev].
  destruct (broadcast_rev (rev a) (rev b)) as [r|e] eqn:E; cbn [bind].
  - replace (w =? w') with false by (symmetry; apply Z.eqb_neq; lia).
    replace (w =? 1) with false by (symmetry; apply Z.eqb_neq; lia).
    replace (w' =? 1) with false by (symmetry; apply Z.eqb_neq; lia).
    reflexivity.
  - now rewrite (broadcast_rev_raises _ _ _ E).
Qed.

(** The shape test of the validation fails where the last axes differ
    and none of them is 1. *)
Lemma broadcastable_rev_mismatch (a b : shape) (w w' : Z) :
  w <> w' -> w <> 1 -> w' <> 1 ->
  broadcastable_rev (rev (a ++ [w])) (rev (b ++ [w'])) = false.
Proof.
  intros H1 H2 H3. rewrite !rev_app_distr. cbn [rev app broadcastable_rev].
  replace (w =? 1) with false by (symmetry; apply Z.eqb_neq; lia).
  replace (w' =? 1) with false by (symmetry; apply Z.eqb_neq; lia).
  replace (w =? w') with false by (symmetry; apply Z.eqb_neq; lia).
  reflexivity.
Qed.

(** With validation on, a Bernoulli site refuses a value with an entry
    other than 0 and 1, whatever its shape. *)
Lemma bernoulli_validation_rejects_non_binary (probs x : Tensor)
  (k i : nat) :
  (i < Z.to_nat (numel (tshape x)))%nat ->
  tdata x i <> 0%R -> tdata x i <> 1%R ->
  log_prob_checked true (to_event (Bernoulli probs) k) x = Raise ValueError.
Proof.
  intros Hi H0 H1. unfold log_prob_checked, to_event.
  cbn [validate_sample].
  assert (Hb : all_binary x = false).
  { unfold all_binary. apply Bool.not_true_is_false. intros Hall.
    rewrite forallb_forall in Hall.
    specialize (Hall i). unfold is_binary in Hall.
    destruct (Req_EM_T (tdata x i) 0) as [E|_]; [contradiction|].
    destruct (Req_EM_T (tdata x i) 1) as [E|_]; [contradiction|].
    assert (Hin : In i (seq 0 (Z.to_nat (numel (tshape x)))))
      by (apply in_seq; lia).
    specialize (Hall Hin). discriminate. }
  rewrite Hb. destruct (broadcastable_rev _ _); reflexivity.
Qed.

(** C8 (rgbd_pvae_train.py).  On a batch of shape (N, 4, 216, 216),
    N >= 1, neither log-density of the claim exists.  The guide does not
    return, so the latent has no log-density under it: its Encoder
    raises.  The model does build its two sites, with the batch as the
    value of the observation site, but that site cannot be scored: the
    Bernoulli parameters are the (N, 4, 128, 128) output of the Decoder
    and the value is (N, 4, 216, 216), so [log_prob] raises, in the
    validation of its argument when validation is on and in the
    broadcast when it is off. *)
Theorem C8_pvae_216_batch_has_no_log_density :
  forall (vae : Pvae.VAE) (n : Z) (d eps : nat -> R) (validate : bool),
    1 <= n ->
    Pvae.guide vae (mkTensor [n; 4; 216; 216] d) eps = Raise RuntimeError
    /\ exists latent obs x_means,
         Pvae.model vae (mkTensor [n; 4; 216; 216] d) None eps
         = Ok [latent; obs]
         /\ fn obs = to_event (Bernoulli x_means) 3
         /\ tshape x_means = [n; 4; 128; 128]
         /\ value obs = mkTensor [n; 4; 216; 216] d
         /\ site_log_prob_checked validate obs
            = Raise (if validate then ValueError else RuntimeError).
Proof.
  intros vae n d eps validate Hn. split.
  { unfold Pvae.guide. cbn [shape_at tshape nth_error bind].
    unfold Pvae.Encoder.forward, Pvae.Encoder.convs. cbn.
    repeat norm_step. reflexivity. }
  unfold Pvae.model.
  cbn [shape_at tshape nth_error bind]. unfold sample at 1.
  rewrite rsample_same_shape by reflexivity.
  cbn [bind value tshape new_zeros new_ones].
  match goal with
  | |- context [Pvae.Decoder.forward _ _ _ (mkTensor _ ?dz)] =>
      destruct (pvae_decoder_forward_ok (Pvae.decoder vae)
                  (Pvae.training vae) (Pvae.z_dim vae) n dz Hn) as [d' E']
  end.
  rewrite E'. cbn [bind sample].
  do 3 eexists. split; [reflexivity|].
  cbn [fn value]. split; [reflexivity|]. split; [reflexivity|].
  split; [reflexivity|].
  assert (Hlp : log_prob
                  (to_event
                     (Bernoulli (sigmoid (mkTensor [n; 4; 128; 128] d'))) 3)
                  (mkTensor [n; 4; 216; 216] d)
                = Raise RuntimeError).
  { cbn [to_event log_prob sigmoid pointwise tshape].
    change [n; 4; 128; 128] with ([n; 4; 128] ++ [128]).
    change [n; 4; 216; 216] with ([n; 4; 216] ++ [216]).
    rewrite broadcast_shapes_mismatch by lia.
    reflexivity. }
  unfold site_log_prob_checked, log_prob_checked. cbn [fn value].
  destruct validate.
  - cbn [to_event validate_sample sigmoid pointwise tshape].
    change [n; 4; 128; 128] with ([n; 4; 128] ++ [128]).
    change [n; 4; 216; 216] with ([n; 4; 216] ++ [216]).
    rewrite broadcastable_rev_mismatch by lia. reflexivity.
  - cbn [bind]. exact Hlp.
Qed.

(** The configured case: a batch of 50 images, validation on. *)
Lemma C8_pvae_216_batch_has_no_log_density_witness :
  Pvae.guide Demo.pvae (mkTensor [50; 4; 216; 216] Demo.ones_noise)
    Demo.ones_noise
  = Raise RuntimeError
  /\ exists latent obs x_means,
       Pvae.model Demo.pvae (mkTensor [50; 4; 216; 216] Demo.ones_noise)
         None Demo.ones_noise
       = Ok [latent; obs]
       /\ fn obs = to_event (Bernoulli x_means) 3
       /\ tshape x_means = [50; 4; 128; 128]
       /\ value obs = mkTensor [50; 4; 216; 216] Demo.ones_noise
       /\ site_log_prob_checked true obs = Raise ValueError.
Proof.
  apply (C8_pvae_216_batch_has_no_log_density Demo.pvae 50 Demo.ones_noise
           Demo.ones_noise true).
  lia.
Defined.

(** Where the networks of rgbd_pvae_train.py accept the batch, on
    128 x 128 images, the log-densities are sums over the entries of an
    example; this is the computation with validation off, and with
    validation on for images of zeros and ones. *)
Lemma pvae_event_log_densities_128 (vae : Pvae.VAE) (n : Z)
  (d dz eps : nat -> R) :
  1 <= n -> 0 < Pvae.z_dim vae ->
  exists x_means mu log_var,
    Pvae.Decoder.forward (Pvae.decoder vae) (Pvae.training vae)
      (Pvae.z_dim vae) (mkTensor [n; Pvae.z_dim vae] dz) = Ok x_means
    /\ Pvae.Encoder.forward (Pvae.encoder vae) (Pvae.training vae)
         (Pvae.z_dim vae) (mkTensor [n; 4; 128; 128] d) = Ok (mu, log_var)
    /\ (exists latent obs,
          Pvae.model vae (mkTensor [n; 4; 128; 128] d)
            (Some (mkTensor [n; Pvae.z_dim vae] dz)) eps
          = Ok [latent; obs]
          /\ Spec.event_log_density obs n (4 * 128 * 128)
               (fun k => bernoulli_logp (tdata x_means k) (d k))
          /\ Spec.event_log_density latent n (Pvae.z_dim vae)
               (fun k => normal_logp 0 1 (dz k)))
    /\ (exists latent,
          Pvae.guide vae (mkTensor [n; 4; 128; 128] d) eps = Ok [latent]
          /\ Spec.event_log_density latent n (Pvae.z_dim vae)
               (fun k => normal_logp (tdata mu k) (exp (tdata log_var k))
                           (tdata (value latent) k))).
Proof.
  intros Hn HD.
  destruct (pvae_decoder_forward_ok (Pvae.decoder vae) (Pvae.training vae)
              (Pvae.z_dim vae) n dz Hn) as [d' Hdec].
  destruct (pvae_encoder_128 (Pvae.encoder vae) (Pvae.training vae)
              (Pvae.z_dim vae) n d Hn) as (mu & lv & Henc & Hmu & Hlv).
  exists (sigmoid (mkTensor [n; 4; 128; 128] d')), mu, lv.
  split; [exact Hdec|]. split; [exact Henc|].
  destruct (pvae_event_log_densities vae (mkTensor [n; 4; 128; 128] d)
              (mkTensor [n; Pvae.z_dim vae] dz) eps n 128 128
              (sigmoid (mkTensor [n; 4; 128; 128] d')) mu lv)
    as [(latent & obs & Hm & _ & _ & Hobs & Hlat) (latent' & Hg & _ & Hq)];
    try assumption; try reflexivity; try lia.
  split.
  - exists latent, obs. repeat split; assumption.
  - exists latent'. split; assumption.
Qed.

(** In rgbd_vae.py, whose script switches the validation of
    distributions off, the networks accept the 216 x 216 images, and on
    every such batch the log-densities are sums over the entries of an
    example (of the Decoder's output, which is what that model
    observes). *)
Lemma vae_event_log_densities_216 (vae : Vae.VAE) (n : Z)
  (d dz eps : nat -> R) :
  1 <= n ->
  exists decoded params mu log_var,
    Vae.Decoder.forward (Vae.decoder vae) (mkTensor [n; 300] dz)
    = Ok decoded
    /\ Vae.Encoder.forward (Vae.encoder vae) (mkTensor [n; 4; 216; 216] d)
       = Ok params
    /\ Vae.select_axis2 params 0 = Ok mu
    /\ Vae.select_axis2 params 1 = Ok log_var
    /\ (exists latent obs,
          Vae.model vae (mkTensor [n; 4; 216; 216] d)
            (Some (mkTensor [n; 300] dz)) eps
          = Ok [latent; obs]
          /\ Spec.event_log_density obs n (4 * 216 * 216)
               (fun k => bernoulli_logp (tdata decoded k) (tdata decoded k))
          /\ Spec.event_log_density latent n 300
               (fun k => normal_logp 0 1 (dz k)))
    /\ (exists latent,
          Vae.guide vae (mkTensor [n; 4; 216; 216] d) eps = Ok [latent]
          /\ Spec.event_log_density latent n 300
               (fun k => normal_logp (tdata mu k) (exp (tdata log_var k))
                           (tdata (value latent) k))).
Proof.
  intros Hn.
  destruct (vae_decoder_300 (Vae.decoder vae) n dz Hn) as [d' Hdec].
  destruct (vae_encoder_216 (Vae.encoder vae) n d Hn) as [dp Henc].
  destruct (select_axis2_3d n 300 2 0 dp) as [dm Hs0]; [lia|].
  destruct (select_axis2_3d n 300 2 1 dp) as [dv Hs1]; [lia|].
  exists (sigmoid (mkTensor [n; 4; 216; 216] d')), (mkTensor [n; 300; 2] dp),
    (mkTensor [n; 300] dm), (mkTensor [n; 300] dv).
  split; [exact Hdec|]. split; [exact Henc|].
  split; [exact Hs0|]. split; [exact Hs1|].
  apply (vae_event_log_densities vae (mkTensor [n; 4; 216; 216] d)
           (mkTensor [n; 300] dz) eps n 216 216 [4; 216; 216]
           (sigmoid (mkTensor [n; 4; 216; 216] d')) (mkTensor [n; 300; 2] dp)
           (mkTensor [n; 300] dm) (mkTensor [n; 300] dv));
    try assumption; try reflexivity; lia.
Qed.

(* ------------------------------------------------------------------ *)
(** * More on train and evaluate                                        *)
(* ------------------------------------------------------------------ *)

Section Calls.

Context {Store : Type}.
Variable f : Tensor -> Store -> result float * Store.
Variable ev : Tensor -> event Store.
Variable body : float -> Tensor -> M (World Store) float.

Hypothesis body_calls :
  forall acc x w,
    body acc x w
    = match f x (store w) with
      | (Ok l, s') => Done (fadd acc l) (with_store_log w s' (ev x :: log w))
      | (Raise e, s') => Fail e (with_store_log w s' (ev x :: log w))
      end.

Lemma for_each_calls (xs : list Tensor) :
  forall acc w,
    for_each xs acc body w
    = match run_calls f xs (store w) with
      | (ls, s', None) =>
          Done (fold_left fadd ls acc)
            (with_store_log w s' (rev (map ev xs) ++ log w))
      | (ls, s', Some e) =>
          Fail e
            (with_store_log w s'
               (rev (map ev (firstn (S (List.length ls)) xs)) ++ log w))
      end.
Proof.
  induction xs as [|x xs IH]; intros acc w.
  - destruct w; reflexivity.
  - cbn [for_each run_calls]. unfold sbind. rewrite body_calls.
    destruct (f x (store w)) as [[l|e] s'].
    + rewrite IH. cbn [store with_store_log log].
      destruct (run_calls f xs s') as [[ls s''] [e|]];
        cbn [fold_left List.length firstn map rev];
        unfold with_store_log; cbn [best train_elbo test_elbo];
        rewrite <- app_assoc; reflexivity.
    + reflexivity.
Qed.

End Calls.

Lemma pvae_train_body_calls (Store : Type) (env : Env Store) :
  cuda_is_available env = true ->
  forall acc x w,
    (sbind (torch_cuda_call (cuda_is_available env) "is_available")
       (fun c : bool =>
          if c
          then sbind (cuda (cuda_is_available env) x)
                 (fun x0 =>
                    sbind (emit Store (EStep x0))
                      (fun _ =>
                         sbind (call Store (svi_step env x0))
                           (fun l => ret (fadd acc l))))
          else ret acc)) w
    = match svi_step env x (store w) with
      | (Ok l, s') =>
          Done (fadd acc l) (with_store_log w s' (EStep x :: log w))
      | (Raise e, s') => Fail e (with_store_log w s' (EStep x :: log w))
      end.
Proof.
  intros Hc acc x w. rewrite Hc. prog_unfold.
  destruct (svi_step env x (store w)) as [[l|e] s']; reflexivity.
Qed.

Lemma pvae_evaluate_body_calls (Store : Type) (env : Env Store) :
  forall acc x w,
    (sbind (torch_cuda_call (cuda_is_available env) "is_available")
       (fun c : bool =>
          sbind (if c then cuda (cuda_is_available env) x else ret x)
            (fun x0 =>
               sbind (emit Store (EEvaluateLoss x0))
                 (fun _ =>
                    sbind (call Store (svi_evaluate_loss env x0))
                      (fun l => ret (fadd acc l)))))) w
    = match svi_evaluate_loss env x (store w) with
      | (Ok l, s') =>
          Done (fadd acc l) (with_store_log w s' (EEvaluateLoss x :: log w))
      | (Raise e, s') =>
          Fail e (with_store_log w s' (EEvaluateLoss x :: log w))
      end.
Proof.
  intros acc x w. destruct (cuda_is_available env); prog_unfold;
    destruct (svi_evaluate_loss env x (store w)) as [[l|e] s'];
    reflexivity.
Qed.

(** X12 (rgbd_pvae_train.py, train).  With a device, when every SVI step
    returns, [train] has taken one step per minibatch in the order of the
    loader, and returns the sum of their losses divided by the size of
    the dataset (it raises ZeroDivisionError, after the steps, when the
    dataset is empty). *)
Theorem pvae_train_steps_and_average :
  forall (Store : Type) (env : Env Store) (train_loader : Loader Tensor)
         (w : World Store) (losses : list float) (s' : Store),
    cuda_is_available env = true ->
    run_calls (svi_step env) (batches train_loader) (store w)
    = (losses, s', None) ->
    PvaeScript.train Store env train_loader w
    = lift (fdiv_int (fold_left fadd losses zero)
              (len (dataset train_loader)))
        (with_store_log w s'
           (rev (map EStep (batches train_loader)) ++ log w)).
Proof.
  intros Store env train_loader w losses s' Hc Hr.
  unfold PvaeScript.train. unfold sbind at 1.
  rewrite (for_each_calls (svi_step env) EStep _
             (pvae_train_body_calls Store env Hc)).
  rewrite Hr. reflexivity.
Qed.

Lemma pvae_train_steps_and_average_witness :
  PvaeScript.train nat (Demo.env_with true (Fin 1)) Demo.loader3
    (mkWorld 0%nat inf [] [] [])
  = Done (Fin (3 # 3))
      (mkWorld 3%nat inf [] []
         [EStep Demo.batch; EStep Demo.batch; EStep Demo.batch]).
Proof.
  apply (pvae_train_steps_and_average nat (Demo.env_with true (Fin 1))
           Demo.loader3 (mkWorld 0%nat inf [] [] [])
           [Fin 1; Fin 1; Fin 1] 3%nat);
    reflexivity.
Defined.

(** X13 (rgbd_pvae_train.py, train).  With a device, when an SVI step
    raises, [train] raises the same exception at once: the steps before
    it were taken, none after it is, and no loss is returned. *)
Theorem pvae_train_stops_at_first_failure :
  forall (Store : Type) (env : Env Store) (train_loader : Loader Tensor)
         (w : World Store) (losses : list float) (s' : Store) (e : exn),
    cuda_is_available env = true ->
    run_calls (svi_step env) (batches train_loader) (store w)
    = (losses, s', Some e) ->
    PvaeScript.train Store env train_loader w
    = Fail e
        (with_store_log w s'
           (rev (map EStep (firstn (S (List.length losses))
                              (batches train_loader)))
            ++ log w)).
Proof.
  intros Store env train_loader w losses s' e Hc Hr.
  unfold PvaeScript.train. unfold sbind at 1.
  rewrite (for_each_calls (svi_step env) EStep _
             (pvae_train_body_calls Store env Hc)).
  rewrite Hr. reflexivity.
Qed.

Lemma pvae_train_stops_at_first_failure_witness :
  PvaeScript.train nat Demo.env_failing Demo.loader3
    (mkWorld 0%nat inf [] [] [])
  = Fail RuntimeError
      (mkWorld 1%nat inf [] [] [EStep Demo.batch; EStep Demo.batch]).
Proof.
  apply (pvae_train_stops_at_first_failure nat Demo.env_failing
           Demo.loader3 (mkWorld 0%nat inf [] [] []) [Fin 1] 1%nat
           RuntimeError);
    reflexivity.
Defined.

(** X14 (rgbd_pvae_train.py, evaluate).  Whether or not a device is
    there, [evaluate] evaluates the loss once per minibatch in the order
    of the loader, stops at the first evaluation that raises, and
    otherwise returns the sum of the losses divided by the size of the
    dataset. *)
Theorem pvae_evaluate_calls_and_average :
  forall (Store : Type) (env : Env Store) (test_loader : Loader Tensor)
         (w : World Store),
    PvaeScript.evaluate Store env test_loader w
    = match run_calls (svi_evaluate_loss env) (batches test_loader)
              (store w) with
      | (losses, s', None) =>
          lift (fdiv_int (fold_left fadd losses zero)
                  (len (dataset test_loader)))
            (with_store_log w s'
               (rev (map EEvaluateLoss (batches test_loader)) ++ log w))
      | (losses, s', Some e) =>
          Fail e
            (with_store_log w s'
               (rev (map EEvaluateLoss
                       (firstn (S (List.length losses))
                          (batches test_loader)))
                ++ log w))
      end.
Proof.
  intros Store env test_loader w.
  unfold PvaeScript.evaluate. unfold sbind at 1.
  rewrite (for_each_calls (svi_evaluate_loss env) EEvaluateLoss _
             (pvae_evaluate_body_calls Store env)).
  destruct (run_calls _ _ _) as [[ls s'] [e|]]; reflexivity.
Qed.

(** X15 (rgbd_pvae_train.py and rgbd_vae.py, train and evaluate).  On an
    empty dataset none of the four functions returns a loss: whatever
    the loader yields, the division by [len(dataset)] raises if nothing
    has raised before. *)
Theorem empty_dataset_never_returns :
  forall (Store Label : Type) (env : Env Store) (xs : list Tensor)
         (ys : list (VaeScript.item Label)) (w : World Store),
    (exists e w', PvaeScript.train Store env (mkLoader xs []) w = Fail e w')
    /\ (exists e w',
          PvaeScript.evaluate Store env (mkLoader xs []) w = Fail e w')
    /\ (exists e w',
          VaeScript.train Store Label env (mkLoader ys []) w = Fail e w')
    /\ (exists e w',
          VaeScript.evaluate Store Label env (mkLoader ys []) w
          = Fail e w').
Proof.
  intros Store Label env xs ys w.
  unfold PvaeScript.train, PvaeScript.evaluate, VaeScript.train,
    VaeScript.evaluate.
  repeat split;
    unfold sbind at 1;
    match goal with
    | |- context [for_each ?l ?a ?b ?w0] =>
        destruct (for_each l a b w0) as [acc w1|e w1]
    end; cbn; eauto.
Qed.

(* ------------------------------------------------------------------ *)
(** * More invariants of the epoch loop                                 *)
(* ------------------------------------------------------------------ *)

(** X16 (rgbd_pvae_train.py, epoch loop).  However the loop runs and
    wherever it stops, the watermark [best] is +inf or a loss that is a
    number and is not below zero: a NaN or a negative loss is never taken
    for the best one. *)
Theorem best_is_never_nan_nor_negative :
  forall (Store : Type) (env : Env Store)
         (train_loader test_loader : Loader Tensor)
         (epochs : list Z) (s : Store),
    let w := final (PvaeScript.for_epochs Store env train_loader test_loader
                      epochs (PvaeScript.initial Store env s)) in
    is_nan (best w) = false /\ flt (best w) zero = false.
Proof.
  intros Store env train_loader test_loader epochs s.
  apply (for_epochs_maintains_any Store env train_loader test_loader
           (fun w => is_nan (best w) = false /\ flt (best w) zero = false)).
  - intros w w' [B _]. now rewrite B.
  - intros w e l _ _ H. exact H.
  - intros w e l _ Hz Hb _. cbn.
    destruct (flt_not_nan _ _ Hb) as [Hl _]. repeat split; assumption.
  - intros w e l _ _ _ H. exact H.
  - split; reflexivity.
Qed.

(** X17 (rgbd_pvae_train.py, epoch loop).  Evaluation losses are
    reported, and checkpoints written, only at epochs that are multiples
    of TEST_FREQUENCY = 5. *)
Theorem evaluation_only_every_fifth_epoch :
  forall (Store : Type) (env : Env Store)
         (train_loader test_loader : Loader Tensor)
         (epochs : list Z) (s : Store),
    let w := final (PvaeScript.for_epochs Store env train_loader test_loader
                      epochs (PvaeScript.initial Store env s)) in
    Forall (fun p => fst p mod 5 = 0) (eval_losses (log w))
    /\ Forall (fun epoch => epoch mod 5 = 0) (checkpoints (log w)).
Proof.
  intros Store env train_loader test_loader epochs s.
  apply (for_epochs_maintains_any Store env train_loader test_loader
           (fun w => Forall (fun p => fst p mod 5 = 0) (eval_losses (log w))
                     /\ Forall (fun epoch => epoch mod 5 = 0)
                          (checkpoints (log w)))).
  - intros w w' [_ (evs & L & Q)]. rewrite L.
    now rewrite eval_losses_quiet, checkpoints_quiet by assumption.
  - intros w e l He _ [H1 H2]. cbn. split; [|exact H2].
    constructor; assumption.
  - intros w e l He _ _ [H1 H2]. cbn.
    repeat split; try exact H2; constructor; assumption.
  - intros w e l He _ _ [H1 H2]. cbn. split; [|exact H2].
    constructor; assumption.
  - cbn. split; constructor.
Qed.

Lemma well_saved_quiet {Store : Type} (evs l : list (event Store)) :
  forallb quiet evs = true -> well_saved l -> well_saved (evs ++ l).
Proof.
  induction evs as [|ev evs IH]; cbn [app forallb]; [trivial|].
  intros H Hl. apply andb_prop in H as [Q H].
  destruct ev; cbn in Q; try discriminate; cbn; now apply IH.
Qed.

(** X18 (rgbd_pvae_train.py, epoch loop).  Every checkpoint is made of
    the two files of the script, always under the same two paths (a new
    checkpoint overwrites the previous one), written one after the other
    from one and the same state of the run.  The weights are never
    written alone; the optimizer state is written alone only as the last
    thing of a run that the failing write of the weights has stopped. *)
Theorem checkpoints_are_consistent :
  forall (Store : Type) (env : Env Store)
         (train_loader test_loader : Loader Tensor)
         (epochs : list Z) (s : Store),
    match PvaeScript.for_epochs Store env train_loader test_loader
            epochs (PvaeScript.initial Store env s) with
    | Done _ w => well_saved (log w)
    | Fail e w =>
        well_saved (log w)
        \/ (torch_save env "rgbd_pvae_torch_weights.save" (store w)
            = Raise e
            /\ exists rest,
                 log w
                 = EOptimizerSave "rgbd_pvae_optimizer_state.save" (store w)
                   :: rest
                 /\ well_saved rest)
    end.
Proof.
  intros Store env train_loader test_loader epochs s.
  apply (for_epochs_maintains_or Store env train_loader test_loader
           (fun w => well_saved (log w))
           (fun e w =>
              well_saved (log w)
              \/ (torch_save env "rgbd_pvae_torch_weights.save" (store w)
                  = Raise e
                  /\ exists rest,
                       log w
                       = EOptimizerSave "rgbd_pvae_optimizer_state.save"
                           (store w) :: rest
                       /\ well_saved rest))).
  - intros w w' [_ (evs & L & Q)] H. rewrite L.
    now apply well_saved_quiet.
  - intros e w H. now left.
  - intros w e l _ _ H. exact H.
  - intros w e l _ _ _ H. cbn. repeat split. exact H.
  - intros w e l _ _ _ H. exact H.
  - intros w e l x _ _ _ H _. left. exact H.
  - intros w e l x _ _ _ H _ E. right. cbn [store log].
    split; [exact E|]. eexists. split; [reflexivity|]. exact H.
  - exact Logic.I.
Qed.

(** Both ends of a run: one where all writes succeed, and one where the
    weights cannot be written. *)
Lemma checkpoints_are_consistent_demo :
  well_saved
    (log (final (PvaeScript.for_epochs nat (Demo.env_with true (Fin 5))
                   Demo.loader Demo.loader (range 6)
                   (PvaeScript.initial nat (Demo.env_with true (Fin 5))
                      0%nat))))
  /\ ~ well_saved
         (log (final (PvaeScript.for_epochs nat Demo.env_disk_full
                        Demo.loader Demo.loader (range 6)
                        (PvaeScript.initial nat Demo.env_disk_full
                           0%nat)))).
Proof.
  split.
  - cbn. repeat split.
  - cbn. intros H. exact H.
Qed.

(** X19 (rgbd_pvae_train.py, epoch loop).  A NaN evaluation loss is
    printed like any other, changes neither the watermark nor the
    checkpoint, is not reported as an anomaly, and the epoch goes on to
    the plotting and to the next epoch. *)
Theorem nan_evaluation_loss_is_ignored :
  forall (Store : Type) (env : Env Store)
         (train_loader test_loader : Loader Tensor)
         (epoch : Z) (w w1 w2 : World Store) (loss_train : float),
    epoch mod PvaeScript.TEST_FREQUENCY = 0 ->
    PvaeScript.train Store env train_loader w = Done loss_train w1 ->
    PvaeScript.evaluate Store env test_loader
      (mkWorld (vae_eval env (store w1)) (best w1)
         (train_elbo w1 ++ [fneg loss_train]) (test_elbo w1)
         (EPrintTrain epoch loss_train :: log w1))
    = Done NaN w2 ->
    PvaeScript.epoch_body Store env train_loader test_loader epoch w
    = sbind (PvaeScript.visualise Store env test_loader)
        (fun _ => ret PvaeScript.Next)
        (mkWorld (vae_train env (store w2)) (best w2) (train_elbo w2)
           (test_elbo w2 ++ [NaN]) (EPrintTest epoch NaN :: log w2)).
Proof.
  intros Store env train_loader test_loader epoch w w1 w2 lt
    Hep Htrain Heval.
  unfold PvaeScript.epoch_body.
  unfold sbind at 1 2. rewrite Htrain.
  unfold sbind at 1. unfold train_elbo_append at 1, modify at 1.
  unfold sbind at 1. unfold emit at 1, modify at 1.
  rewrite Hep. cbn [Z.eqb].
  unfold sbind at 1. unfold on_store at 1, modify at 1.
  unfold sbind at 1. cbn [store best train_elbo test_elbo log].
  rewrite Heval.
  unfold sbind at 1. unfold on_store at 1, modify at 1.
  unfold sbind at 1. unfold test_elbo_append at 1, modify at 1.
  unfold sbind at 1. unfold emit at 1, modify at 1.
  cbn [flt fneg]. unfold sbind at 1, gets. cbn [best flt].
  destruct (best w2); reflexivity.
Qed.

Lemma nan_evaluation_loss_is_ignored_witness :
  PvaeScript.epoch_body nat (Demo.env_with true NaN) Demo.loader Demo.loader
    0 (PvaeScript.initial nat (Demo.env_with true NaN) 0%nat)
  = sbind (PvaeScript.visualise nat (Demo.env_with true NaN) Demo.loader)
      (fun _ => ret PvaeScript.Next)
      (mkWorld 1%nat inf [Fin (-1)] [NaN]
         [EPrintTest 0 NaN; EEvaluateLoss Demo.batch;
          EPrintTrain 0 (Fin 1); EStep Demo.batch]).
Proof.
  apply (nan_evaluation_loss_is_ignored nat (Demo.env_with true NaN)
           Demo.loader Demo.loader 0
           (PvaeScript.initial nat (Demo.env_with true NaN) 0%nat)
           (mkWorld 1%nat inf [] [] [EStep Demo.batch])
           (mkWorld 1%nat inf [Fin (-1)] []
              [EEvaluateLoss Demo.batch; EPrintTrain 0 (Fin 1);
               EStep Demo.batch])
           (Fin 1));
    reflexivity.
Defined.

(** X20 (rgbd_vae.py, epoch loop).  As soon as the training loader
    yields an item, the loop of rgbd_vae.py stops in its first epoch
    with the exception of [train] at that item (that of the unpacking
    [x, _], or else the AttributeError of the lookup in [torch.cuda]):
    nothing is printed, no step is taken and no later epoch is run. *)
Theorem vae_loop_stops_in_first_epoch :
  forall (Store Label : Type) (env : Env Store)
         (b : VaeScript.item Label) (rest : list (VaeScript.item Label))
         (data : list Tensor)
         (test_loader : Loader (VaeScript.item Label))
         (epoch : Z) (epochs : list Z) (w : World Store),
    VaeScript.for_epochs Store Label env (mkLoader (b :: rest) data)
      test_loader (epoch :: epochs) w
    = Fail (match VaeScript.unpack b with
            | Ok _ => AttributeError
            | Raise e => e
            end) w.
Proof.
  intros Store Label env b rest data test_loader epoch epochs w.
  cbn [VaeScript.for_epochs]. unfold VaeScript.epoch_body.
  unfold sbind at 1 2. rewrite vae_train_first_minibatch. reflexivity.
Qed.

Lemma select_axis2_entries (a b j : Z) (d : nat -> R) :
  0 <= j < 2 ->
  Vae.select_axis2 (mkTensor [a; b; 2] d) j
  = Ok (mkTensor [a; b]
          (fun i => d (i / 1 * 2 * 1 + Z.to_nat j * 1 + i mod 1)%nat)).
Proof.
  intros Hj. unfold Vae.select_axis2. cbn [tshape].
  replace (j <? 2) with true by (symmetry; apply Z.ltb_lt; lia).
  reflexivity.
Qed.

(** X21 (rgbd_vae.py, VAE.guide).  On a batch of 216 x 216 images the
    guide splits the Encoder's (N, 300, 2) output along the last axis:
    entry i of the mean is entry 2i of the output and entry i of
    log_var is entry 2i+1; the latent is drawn from
    Normal(mean, exp(log_var)). *)
Theorem vae_guide_splits_encoder_output :
  forall (vae : Vae.VAE) (n : Z) (d eps : nat -> R),
    1 <= n ->
    exists params mu log_var latent,
      Vae.Encoder.forward (Vae.encoder vae) (mkTensor [n; 4; 216; 216] d)
      = Ok params
      /\ Vae.guide vae (mkTensor [n; 4; 216; 216] d) eps = Ok [latent]
      /\ fn latent = to_event (Normal mu (texp log_var)) 1
      /\ tshape mu = [n; 300] /\ tshape log_var = [n; 300]
      /\ (forall i, tdata mu i = tdata params (2 * i)%nat)
      /\ (forall i, tdata log_var i = tdata params (2 * i + 1)%nat).
Proof.
  intros vae n d eps Hn.
  destruct (vae_encoder_216 (Vae.encoder vae) n d Hn) as [d' Hd].
  pose proof (select_axis2_entries n 300 0 d') as H0.
  pose proof (select_axis2_entries n 300 1 d') as H1.
  unfold Vae.guide. rewrite Hd. cbn [bind shape_at tshape nth_error].
  rewrite H0, H1 by lia. cbn [bind]. unfold sample.
  rewrite rsample_same_shape by reflexivity. cbn [bind].
  do 4 eexists. split; [reflexivity|]. split; [reflexivity|].
  split; [reflexivity|]. split; [reflexivity|]. split; [reflexivity|].
  cbn [tdata].
  split; intros i; f_equal;
    rewrite Nat.div_1_r, Nat.mod_1_r; cbn; lia.
Qed.

Lemma vae_guide_splits_encoder_output_witness :
  exists params mu log_var latent,
    Vae.Encoder.forward (Vae.encoder Demo.vae)
      (mkTensor [1; 4; 216; 216] Demo.ones_noise)
    = Ok params
    /\ Vae.guide Demo.vae (mkTensor [1; 4; 216; 216] Demo.ones_noise)
         Demo.ones_noise = Ok [latent]
    /\ fn latent = to_event (Normal mu (texp log_var)) 1
    /\ tshape mu = [1; 300] /\ tshape log_var = [1; 300]
    /\ (forall i, tdata mu i = tdata params (2 * i)%nat)
    /\ (forall i, tdata log_var i = tdata params (2 * i + 1)%nat).
Proof.
  apply (vae_guide_splits_encoder_output Demo.vae 1 Demo.ones_noise
           Demo.ones_noise).
  lia.
Defined.
